(** * A framing protocol and its stop-and-wait sender and receiver

    Shallow embedding of
      - [t3/atividade_entrega_fms_function_pointers.c]: the byte-at-a-time
        frame parser dispatched through a table of function pointers, and
        the frame encoder;
      - [t4/atividade_entrega_fms_protothreads.c]: the timer, the
        simulated channel and the two protothreads (transmitter and
        receiver) with their scheduler.

    Conventions.
      - A [uint8_t], [uint16_t] or [uint32_t] value is a [Z]; every place
        where C truncates writes the reduction out ([u8], [u32]).
      - A C array is a [list Z]; a pointer that may be [NULL] is an
        [option].  An access outside an array that the caller supplies is
        undefined in C: the functions that can perform one return [None]
        there.
      - A protothread is a control-flow graph of basic blocks: a block
        either jumps to another program point or returns to the scheduler.
        Running a thread takes fuel; the theorems give fuel that is
        enough. *)

From stdpp Require Import base option list numbers.

Local Open Scope Z_scope.

(* ===================================================================== *)
(** * Part I: definitions                                                 *)
(* ===================================================================== *)

(** ** Machine integers *)

Definition u8 (z : Z) : Z := z mod 256.
Definition u32 (z : Z) : Z := z mod 4294967296.

Definition is_u8 (z : Z) : Prop := 0 <= z < 256.
Definition is_u32 (z : Z) : Prop := 0 <= z < 4294967296.

(** Sum of a list of bytes, as an unbounded integer. *)
Definition sum_bytes (l : list Z) : Z := foldr Z.add 0 l.

(** ** Arrays supplied by a caller *)

(** [buf[i] = v]; [None] when [i] is outside the array. *)
Definition store (buf : list Z) (i : nat) (v : Z) : option (list Z) :=
  if decide (i < length buf)%nat then Some (<[i := v]> buf) else None.

(** [memcpy(&dst[off], src, n)]; [None] when it would read past [src] or
    write past [dst]. *)
Definition memcpy (dst : list Z) (off : nat) (src : list Z) (n : nat)
  : option (list Z) :=
  if decide (n <= length src /\ off + n <= length dst)%nat
  then Some (take off dst ++ take n src ++ drop (off + n) dst)
  else None.

(** ** The frame encoder (the same text in both source files) *)

Module Codec.

Definition STX_BYTE : Z := 2.
Definition ETX_BYTE : Z := 3.

Definition PROTOCOL_SUCCESS : Z := 0.
Definition PROTOCOL_ERROR : Z := -1.
Definition PROTOCOL_INVALID_PARAM : Z := -3.

(** The body of [for (uint8_t i = 0; i < qtd; i++) checksum += dados[i];]
    with [n] iterations left, the next index being [i]. *)
Fixpoint checksum_loop (dados : list Z) (i : nat) (n : nat) (checksum : Z)
  : option Z :=
  match n with
  | O => Some checksum
  | S n' =>
      match dados !! i with
      | Some d => checksum_loop dados (S i) n' (u8 (checksum + d))
      | None => None
      end
  end.

Definition protocol_calculate_checksum (dados : option (list Z)) (qtd : Z)
  : option Z :=
  match dados with
  | None => Some 0
  | Some d =>
      if qtd =? 0 then Some 0 else checksum_loop d 0 (Z.to_nat qtd) 0
  end.

(** Returns the return code together with the contents of [buffer] and of
    [*buffer_size] after the call. *)
Definition protocol_create_message
    (dados : option (list Z)) (qtd : Z)
    (buffer : option (list Z)) (buffer_size : option Z)
  : option (Z * option (list Z) * option Z) :=
  match dados, buffer, buffer_size with
  | Some d, Some buf, Some size =>
      if qtd =? 0 then Some (PROTOCOL_INVALID_PARAM, buffer, buffer_size)
      else
        checksum ← protocol_calculate_checksum dados qtd;
        let msg_size := u8 (5 + qtd) in
        if size <? msg_size then Some (PROTOCOL_ERROR, buffer, buffer_size)
        else
          b0 ← store buf 0 STX_BYTE;
          b1 ← store b0 1 qtd;
          b2 ← memcpy b1 2 d (Z.to_nat qtd);
          b3 ← store b2 (Z.to_nat (2 + qtd)) checksum;
          b4 ← store b3 (Z.to_nat (3 + qtd)) ETX_BYTE;
          Some (PROTOCOL_SUCCESS, Some b4, Some msg_size)
  | _, _, _ => Some (PROTOCOL_INVALID_PARAM, buffer, buffer_size)
  end.

(** The bytes the encoder lays out for a payload: start marker, length,
    payload, checksum, end marker. *)
Definition frame_bytes (payload : list Z) : list Z :=
  STX_BYTE :: Z.of_nat (length payload)
           :: payload ++ [u8 (sum_bytes payload); ETX_BYTE].

(** The frame as the encoder hands it over: the first [*buffer_size] bytes
    of [buffer] after a successful call. *)
Definition reported_frame (out : Z * option (list Z) * option Z) : list Z :=
  match out with
  | (_, Some buf, Some size) => take (Z.to_nat size) buf
  | _ => []
  end.

(** A frame as it may arrive: the layout of [frame_bytes] with any bytes
    in the checksum and end marker positions. *)
Definition wire_bytes (payload : list Z) (chk etx : Z) : list Z :=
  STX_BYTE :: Z.of_nat (length payload) :: payload ++ [chk; etx].

(** The test both receivers make on the last byte of a frame: it is the
    end marker, and the checksum byte before it is the sum of the payload
    in a [uint8_t]. *)
Definition frame_accepted (payload : list Z) (chk etx : Z) : bool :=
  (etx =? ETX_BYTE) && (u8 (sum_bytes payload) =? chk).

End Codec.

(** ** The parser of [t3]: a state machine driven by function pointers *)

Module FP.

Export Codec.

Definition MAX_DATA_SIZE : Z := 256.
Definition PROTOCOL_WAITING : Z := -2.

Inductive ProtocolStates : Type :=
  | ST_STX | ST_QTD | ST_DATA | ST_CHK | ST_ETX.

Definition NUM_STATES : nat := 5.

(** The enumerators are array indices. *)
Definition state_index (s : ProtocolStates) : nat :=
  match s with
  | ST_STX => 0 | ST_QTD => 1 | ST_DATA => 2 | ST_CHK => 3 | ST_ETX => 4
  end%nat.

(** A value of type [StateFunction] is the address of one of the five
    state functions. *)
Inductive StateFunction : Type :=
  | fn_state_wait_stx
  | fn_state_wait_qtd
  | fn_state_wait_data
  | fn_state_wait_chk
  | fn_state_wait_etx.

Record ProtocolHandler : Type := mkHandler {
  current_state : ProtocolStates;
  state_functions : list (option StateFunction);
  qtd_dados : Z;
  dados : list Z;
  dados_count : Z;
  checksum_recv : Z;
  checksum_calc : Z;
  message_ready : bool;
  last_result : Z
}.

Definition set_current_state (s : ProtocolStates) (h : ProtocolHandler) :=
  mkHandler s (state_functions h) (qtd_dados h) (dados h) (dados_count h)
            (checksum_recv h) (checksum_calc h) (message_ready h)
            (last_result h).
Definition set_qtd_dados (v : Z) (h : ProtocolHandler) :=
  mkHandler (current_state h) (state_functions h) v (dados h) (dados_count h)
            (checksum_recv h) (checksum_calc h) (message_ready h)
            (last_result h).
Definition set_dados (v : list Z) (h : ProtocolHandler) :=
  mkHandler (current_state h) (state_functions h) (qtd_dados h) v
            (dados_count h) (checksum_recv h) (checksum_calc h)
            (message_ready h) (last_result h).
Definition set_dados_count (v : Z) (h : ProtocolHandler) :=
  mkHandler (current_state h) (state_functions h) (qtd_dados h) (dados h) v
            (checksum_recv h) (checksum_calc h) (message_ready h)
            (last_result h).
Definition set_checksum_recv (v : Z) (h : ProtocolHandler) :=
  mkHandler (current_state h) (state_functions h) (qtd_dados h) (dados h)
            (dados_count h) v (checksum_calc h) (message_ready h)
            (last_result h).
Definition set_checksum_calc (v : Z) (h : ProtocolHandler) :=
  mkHandler (current_state h) (state_functions h) (qtd_dados h) (dados h)
            (dados_count h) (checksum_recv h) v (message_ready h)
            (last_result h).
Definition set_message_ready (v : bool) (h : ProtocolHandler) :=
  mkHandler (current_state h) (state_functions h) (qtd_dados h) (dados h)
            (dados_count h) (checksum_recv h) (checksum_calc h) v
            (last_result h).
Definition set_last_result (v : Z) (h : ProtocolHandler) :=
  mkHandler (current_state h) (state_functions h) (qtd_dados h) (dados h)
            (dados_count h) (checksum_recv h) (checksum_calc h)
            (message_ready h) v.

(** *** The state functions.  Each returns its return code and the handler
    after the call. *)

Definition state_wait_stx (handler : ProtocolHandler) (byte : Z)
  : Z * ProtocolHandler :=
  if byte =? STX_BYTE then
    (PROTOCOL_WAITING,
     set_message_ready false
       (set_checksum_calc 0
          (set_dados_count 0
             (set_current_state ST_QTD handler))))
  else (PROTOCOL_WAITING, handler).

Definition state_wait_qtd (handler : ProtocolHandler) (byte : Z)
  : Z * ProtocolHandler :=
  if 0 <? byte then
    (PROTOCOL_WAITING, set_current_state ST_DATA (set_qtd_dados byte handler))
  else (PROTOCOL_WAITING, set_current_state ST_STX handler).

Definition state_wait_data (handler : ProtocolHandler) (byte : Z)
  : Z * ProtocolHandler :=
  let h1 :=
    set_dados (<[Z.to_nat (dados_count handler) := byte]> (dados handler))
              handler in
  let h2 := set_checksum_calc (u8 (checksum_calc h1 + byte)) h1 in
  let h3 := set_dados_count (u8 (dados_count h2 + 1)) h2 in
  if qtd_dados h3 <=? dados_count h3
  then (PROTOCOL_WAITING, set_current_state ST_CHK h3)
  else (PROTOCOL_WAITING, h3).

Definition state_wait_chk (handler : ProtocolHandler) (byte : Z)
  : Z * ProtocolHandler :=
  (PROTOCOL_WAITING,
   set_current_state ST_ETX (set_checksum_recv byte handler)).

Definition state_wait_etx (handler : ProtocolHandler) (byte : Z)
  : Z * ProtocolHandler :=
  if (byte =? ETX_BYTE) && (checksum_calc handler =? checksum_recv handler)
  then (PROTOCOL_SUCCESS,
        set_current_state ST_STX (set_message_ready true handler))
  else (PROTOCOL_ERROR, set_current_state ST_STX handler).

(** Calling through a function pointer. *)
Definition call (f : StateFunction)
  : ProtocolHandler -> Z -> Z * ProtocolHandler :=
  match f with
  | fn_state_wait_stx => state_wait_stx
  | fn_state_wait_qtd => state_wait_qtd
  | fn_state_wait_data => state_wait_data
  | fn_state_wait_chk => state_wait_chk
  | fn_state_wait_etx => state_wait_etx
  end.

(** *** The protocol functions.  A handler pointer is an
    [option ProtocolHandler]; [None] is [NULL]. *)

(** What [protocol_init] leaves in [*handler]: every field is assigned. *)
Definition handler_init : ProtocolHandler :=
  {| current_state := ST_STX;
     state_functions :=
       [Some fn_state_wait_stx; Some fn_state_wait_qtd;
        Some fn_state_wait_data; Some fn_state_wait_chk;
        Some fn_state_wait_etx];
     qtd_dados := 0;
     dados := replicate (Z.to_nat MAX_DATA_SIZE) 0;
     dados_count := 0;
     checksum_recv := 0;
     checksum_calc := 0;
     message_ready := false;
     last_result := PROTOCOL_WAITING |}.

Definition protocol_init (handler : option ProtocolHandler)
  : option ProtocolHandler :=
  match handler with
  | None => None
  | Some _ => Some handler_init
  end.

Definition protocol_reset (handler : option ProtocolHandler)
  : option ProtocolHandler :=
  match handler with
  | None => None
  | Some h =>
      Some (set_last_result PROTOCOL_WAITING
              (set_message_ready false
                 (set_checksum_calc 0
                    (set_dados_count 0
                       (set_current_state ST_STX h)))))
  end.

(** The body of [protocol_process_byte] once [handler] is known not to be
    [NULL]. *)
Definition process_byte (h : ProtocolHandler) (byte : Z)
  : Z * ProtocolHandler :=
  match state_functions h !! state_index (current_state h) with
  | Some (Some current_function) =>
      let '(r, h') := call current_function h byte in
      (r, set_last_result r h')
  | _ => (PROTOCOL_ERROR, h)
  end.

Definition protocol_process_byte (handler : option ProtocolHandler) (byte : Z)
  : Z * option ProtocolHandler :=
  match handler with
  | None => (PROTOCOL_INVALID_PARAM, None)
  | Some h => let '(r, h') := process_byte h byte in (r, Some h')
  end.

Definition protocol_message_ready (handler : option ProtocolHandler) : bool :=
  match handler with
  | Some h => message_ready h
  | None => false
  end.

(** The pointer returned is that of the array [dados] inside the handler;
    the model gives the array. *)
Definition protocol_get_data (handler : option ProtocolHandler)
  : option (list Z) :=
  match handler with
  | Some h => Some (dados h)
  | None => None
  end.

Definition protocol_get_data_count (handler : option ProtocolHandler) : Z :=
  match handler with
  | Some h => qtd_dados h
  | None => 0
  end.

(** *** Feeding a stream, one call of [protocol_process_byte] per byte *)

(** The handler after the stream. *)
Definition feed (h : ProtocolHandler) (bytes : list Z) : ProtocolHandler :=
  foldl (fun h b => snd (process_byte h b)) h bytes.

(** The return codes, in order. *)
Fixpoint outcomes (h : ProtocolHandler) (bytes : list Z) : list Z :=
  match bytes with
  | [] => []
  | b :: bs => fst (process_byte h b) :: outcomes (snd (process_byte h b)) bs
  end.

(** How many calls returned [code]. *)
Definition count_code (code : Z) (rs : list Z) : nat :=
  length (filter (fun r => r = code) rs).

(** *** Predicates used to state the properties *)

(** The dispatch table is the one [protocol_init] fills. *)
Definition table_ok (h : ProtocolHandler) : Prop :=
  state_functions h = state_functions handler_init.

(** What holds of a handler between two calls of
    [protocol_process_byte]: the array has its declared size, the count
    is a [uint8_t], it is zero while the length byte is awaited, and in
    [ST_DATA] it is below the expected length. *)
Definition handler_inv (h : ProtocolHandler) : Prop :=
  table_ok h
  /\ length (dados h) = Z.to_nat MAX_DATA_SIZE
  /\ 0 <= dados_count h < 256
  /\ (current_state h = ST_QTD -> dados_count h = 0)
  /\ (current_state h = ST_DATA -> dados_count h < qtd_dados h <= 255).

(** What the stream fed so far ends with, given the state the parser is
    in: the start marker, then the length, then the bytes stored so far,
    then the checksum byte; with the running checksum being the sum of
    the bytes stored. *)
Definition frame_prefix_seen (bytes : list Z) (h : ProtocolHandler) : Prop :=
  match current_state h with
  | ST_STX => True
  | ST_QTD => checksum_calc h = 0 /\ exists pre, bytes = pre ++ [STX_BYTE]
  | ST_DATA =>
      checksum_calc h
      = u8 (sum_bytes (take (Z.to_nat (dados_count h)) (dados h)))
      /\ exists pre,
           bytes = pre ++ STX_BYTE :: qtd_dados h
                       :: take (Z.to_nat (dados_count h)) (dados h)
  | ST_CHK =>
      checksum_calc h
      = u8 (sum_bytes (take (Z.to_nat (qtd_dados h)) (dados h)))
      /\ 1 <= qtd_dados h <= 255
      /\ exists pre,
           bytes = pre ++ STX_BYTE :: qtd_dados h
                       :: take (Z.to_nat (qtd_dados h)) (dados h)
  | ST_ETX =>
      checksum_calc h
      = u8 (sum_bytes (take (Z.to_nat (qtd_dados h)) (dados h)))
      /\ 1 <= qtd_dados h <= 255
      /\ exists pre,
           bytes = pre ++ STX_BYTE :: qtd_dados h
                       :: take (Z.to_nat (qtd_dados h)) (dados h)
                       ++ [checksum_recv h]
  end.

(** While a frame is in progress the ready flag is down. *)
Definition ready_inv (h : ProtocolHandler) : Prop :=
  table_ok h /\ (current_state h <> ST_STX -> message_ready h = false).

End FP.

(** ** The protothreads of [t4]: timer, channel, transmitter and receiver *)

Module PT.

Export Codec.

Definition ACK_BYTE : Z := 6.
Definition NACK_BYTE : Z := 21.
Definition MAX_DATA_SIZE : Z := 256.
Definition TIMEOUT_MS : Z := 1000.
Definition MAX_RETRIES : Z := 3.

Definition PROTOCOL_TIMEOUT : Z := -2.

(** *** Protothread infrastructure *)

(** [lc] is the local continuation: 0, or the line of the wait the thread
    is suspended at. *)
Record pt_t : Type := mkPt { lc : Z }.

Definition PT_WAITING : Z := 0.
Definition PT_YIELDED : Z := 1.
Definition PT_EXITED : Z := 2.
Definition PT_ENDED : Z := 3.

Definition PT_INIT : pt_t := mkPt 0.

(** *** Timer.  [system_time_ms] is a global of the program; the functions
    that read it take it as an argument. *)

Record timer_t : Type := mkTimer {
  start_time : Z;
  timeout_ms : Z;
  active : bool
}.

Definition timer_set (system_time_ms : Z) (timer : timer_t) (timeout : Z)
  : timer_t :=
  mkTimer system_time_ms timeout true.

Definition timer_expired (system_time_ms : Z) (timer : timer_t) : bool :=
  if negb (active timer) then false
  else timeout_ms timer <=? u32 (system_time_ms - start_time timer).

Definition timer_stop (timer : timer_t) : timer_t :=
  mkTimer (start_time timer) (timeout_ms timer) false.

(** *** Channel *)

Record comm_channel_t : Type := mkChannel {
  tx_buffer : list Z;
  rx_buffer : list Z;
  tx_size : Z;
  rx_size : Z;
  rx_pos : Z;
  tx_ready : bool;
  rx_ready : bool;
  ack_received : bool;
  ack_value : Z;
  simulate_loss : bool
}.

(** *** Thread states *)

Record transmitter_state_t : Type := mkTx {
  tx_pt : pt_t;
  timer : timer_t;
  data_to_send : option (list Z);
  data_size : Z;
  message_buffer : list Z;
  message_size : Z;
  retry_count : Z;
  transmission_complete : bool;
  tx_result : Z
}.

Inductive rx_fsm : Type :=
  | RX_WAIT_STX | RX_WAIT_QTD | RX_WAIT_DATA | RX_WAIT_CHK | RX_WAIT_ETX.

Record receiver_state_t : Type := mkRx {
  rx_pt : pt_t;
  rx_data : list Z;
  rx_count : Z;
  expected_size : Z;
  checksum_calc : Z;
  checksum_recv : Z;
  state : rx_fsm;
  message_received : bool;
  rx_result : Z
}.

(** *** The program state *)

(** What the program does to the channel, in order: each call of
    [channel_send] with the bytes it was given, and each call of
    [channel_send_ack].  The calls of [printf] are left out. *)
Inductive event : Type :=
  | EvSend (bytes : list Z)
  | EvAck (ack_type : Z).

(** The globals [system_time_ms], [channel], [tx_state] and [rx_state],
    the static locals [ack_value] of [transmitter_thread] and
    [incoming_byte] of [receiver_thread], and the record of channel
    calls. *)
Record world : Type := mkWorld {
  system_time_ms : Z;
  channel : comm_channel_t;
  tx_state : transmitter_state_t;
  rx_state : receiver_state_t;
  tx_ack_value : Z;
  rx_incoming_byte : Z;
  trace : list event
}.

Definition set_time (v : Z) (w : world) : world :=
  mkWorld v (channel w) (tx_state w) (rx_state w) (tx_ack_value w)
          (rx_incoming_byte w) (trace w).
Definition set_channel (v : comm_channel_t) (w : world) : world :=
  mkWorld (system_time_ms w) v (tx_state w) (rx_state w) (tx_ack_value w)
          (rx_incoming_byte w) (trace w).
Definition set_tx (v : transmitter_state_t) (w : world) : world :=
  mkWorld (system_time_ms w) (channel w) v (rx_state w) (tx_ack_value w)
          (rx_incoming_byte w) (trace w).
Definition set_rx (v : receiver_state_t) (w : world) : world :=
  mkWorld (system_time_ms w) (channel w) (tx_state w) v (tx_ack_value w)
          (rx_incoming_byte w) (trace w).
Definition set_tx_ack_value (v : Z) (w : world) : world :=
  mkWorld (system_time_ms w) (channel w) (tx_state w) (rx_state w) v
          (rx_incoming_byte w) (trace w).
Definition set_rx_incoming_byte (v : Z) (w : world) : world :=
  mkWorld (system_time_ms w) (channel w) (tx_state w) (rx_state w)
          (tx_ack_value w) v (trace w).
Definition log (e : event) (w : world) : world :=
  mkWorld (system_time_ms w) (channel w) (tx_state w) (rx_state w)
          (tx_ack_value w) (rx_incoming_byte w) (trace w ++ [e]).

Definition advance_time (ms : Z) (w : world) : world :=
  set_time (u32 (system_time_ms w + ms)) w.

(** *** Channel functions *)

Definition channel_send (data : list Z) (size : Z) (w : world)
  : option world :=
  let c := channel w in
  c1 ← (if simulate_loss c then Some c
        else
          rx ← memcpy (rx_buffer c) 0 data (Z.to_nat size);
          Some (mkChannel (tx_buffer c) rx (tx_size c) size 0
                          (tx_ready c) true (ack_received c) (ack_value c)
                          (simulate_loss c)));
  Some (log (EvSend (take (Z.to_nat size) data))
          (set_channel
             (mkChannel (tx_buffer c1) (rx_buffer c1) (tx_size c1)
                        (rx_size c1) (rx_pos c1) false (rx_ready c1)
                        (ack_received c1) (ack_value c1) (simulate_loss c1))
             w)).

(** The byte read, if any, and the channel after the call.  [rx_buffer]
    has [MAX_DATA_SIZE + 10] elements and [rx_pos] is a [uint8_t], so the
    index is inside it. *)
Definition channel_receive_byte (c : comm_channel_t)
  : option Z * comm_channel_t :=
  if rx_ready c && (rx_pos c <? rx_size c) then
    let byte := default 0 (rx_buffer c !! Z.to_nat (rx_pos c)) in
    let pos := u8 (rx_pos c + 1) in
    (Some byte,
     mkChannel (tx_buffer c) (rx_buffer c) (tx_size c) (rx_size c) pos
               (tx_ready c)
               (if rx_size c <=? pos then false else rx_ready c)
               (ack_received c) (ack_value c) (simulate_loss c))
  else (None, c).

Definition channel_send_ack (ack_type : Z) (w : world) : world :=
  let c := channel w in
  log (EvAck ack_type)
    (set_channel
       (mkChannel (tx_buffer c) (rx_buffer c) (tx_size c) (rx_size c)
                  (rx_pos c) (tx_ready c) (rx_ready c) true ack_type
                  (simulate_loss c))
       w).

(** The acknowledgment taken, if any, and the channel after the call. *)
Definition channel_ack_received (c : comm_channel_t)
  : option Z * comm_channel_t :=
  if ack_received c then
    (Some (ack_value c),
     mkChannel (tx_buffer c) (rx_buffer c) (tx_size c) (rx_size c)
               (rx_pos c) (tx_ready c) (rx_ready c) false (ack_value c)
               (simulate_loss c))
  else (None, c).

Definition channel_zero : comm_channel_t :=
  mkChannel (replicate (Z.to_nat (MAX_DATA_SIZE + 10)) 0)
            (replicate (Z.to_nat (MAX_DATA_SIZE + 10)) 0)
            0 0 0 false false false 0 false.

Definition channel_reset (w : world) : world := set_channel channel_zero w.

(** *** Running a thread *)

(** What a basic block does: jump, return to the caller, or perform an
    access that is undefined in C. *)
Inductive step (PC : Type) : Type :=
  | Goto (pc : PC) (w : world)
  | Return (code : Z) (w : world)
  | Undef.
Arguments Goto {PC} pc w.
Arguments Return {PC} code w.
Arguments Undef {PC}.

Inductive outcome : Type :=
  | Returns (code : Z) (w : world)
  | Undefined
  | OutOfFuel.

Fixpoint run_blocks {PC : Type} (block : PC -> world -> step PC)
    (fuel : nat) (pc : PC) (w : world) : outcome :=
  match fuel with
  | O => OutOfFuel
  | S fuel' =>
      match block pc w with
      | Goto pc' w' => run_blocks block fuel' pc' w'
      | Return code w' => Returns code w'
      | Undef => Undefined
      end
  end.

(** *** Field updates of the thread states *)

Definition set_tx_pt (v : pt_t) (t : transmitter_state_t) :=
  mkTx v (timer t) (data_to_send t) (data_size t) (message_buffer t)
       (message_size t) (retry_count t) (transmission_complete t)
       (tx_result t).
Definition set_timer (v : timer_t) (t : transmitter_state_t) :=
  mkTx (tx_pt t) v (data_to_send t) (data_size t) (message_buffer t)
       (message_size t) (retry_count t) (transmission_complete t)
       (tx_result t).
Definition set_message_buffer (v : list Z) (t : transmitter_state_t) :=
  mkTx (tx_pt t) (timer t) (data_to_send t) (data_size t) v
       (message_size t) (retry_count t) (transmission_complete t)
       (tx_result t).
Definition set_message_size (v : Z) (t : transmitter_state_t) :=
  mkTx (tx_pt t) (timer t) (data_to_send t) (data_size t) (message_buffer t)
       v (retry_count t) (transmission_complete t) (tx_result t).
Definition set_retry_count (v : Z) (t : transmitter_state_t) :=
  mkTx (tx_pt t) (timer t) (data_to_send t) (data_size t) (message_buffer t)
       (message_size t) v (transmission_complete t) (tx_result t).
Definition set_transmission_complete (v : bool) (t : transmitter_state_t) :=
  mkTx (tx_pt t) (timer t) (data_to_send t) (data_size t) (message_buffer t)
       (message_size t) (retry_count t) v (tx_result t).
Definition set_tx_result (v : Z) (t : transmitter_state_t) :=
  mkTx (tx_pt t) (timer t) (data_to_send t) (data_size t) (message_buffer t)
       (message_size t) (retry_count t) (transmission_complete t) v.

Definition set_rx_pt (v : pt_t) (r : receiver_state_t) :=
  mkRx v (rx_data r) (rx_count r) (expected_size r) (checksum_calc r)
       (checksum_recv r) (state r) (message_received r) (rx_result r).
Definition set_rx_data (v : list Z) (r : receiver_state_t) :=
  mkRx (rx_pt r) v (rx_count r) (expected_size r) (checksum_calc r)
       (checksum_recv r) (state r) (message_received r) (rx_result r).
Definition set_rx_count (v : Z) (r : receiver_state_t) :=
  mkRx (rx_pt r) (rx_data r) v (expected_size r) (checksum_calc r)
       (checksum_recv r) (state r) (message_received r) (rx_result r).
Definition set_expected_size (v : Z) (r : receiver_state_t) :=
  mkRx (rx_pt r) (rx_data r) (rx_count r) v (checksum_calc r)
       (checksum_recv r) (state r) (message_received r) (rx_result r).
Definition set_checksum_calc (v : Z) (r : receiver_state_t) :=
  mkRx (rx_pt r) (rx_data r) (rx_count r) (expected_size r) v
       (checksum_recv r) (state r) (message_received r) (rx_result r).
Definition set_checksum_recv (v : Z) (r : receiver_state_t) :=
  mkRx (rx_pt r) (rx_data r) (rx_count r) (expected_size r) (checksum_calc r)
       v (state r) (message_received r) (rx_result r).
Definition set_state (v : rx_fsm) (r : receiver_state_t) :=
  mkRx (rx_pt r) (rx_data r) (rx_count r) (expected_size r) (checksum_calc r)
       (checksum_recv r) v (message_received r) (rx_result r).
Definition set_message_received (v : bool) (r : receiver_state_t) :=
  mkRx (rx_pt r) (rx_data r) (rx_count r) (expected_size r) (checksum_calc r)
       (checksum_recv r) (state r) v (rx_result r).
Definition set_rx_result (v : Z) (r : receiver_state_t) :=
  mkRx (rx_pt r) (rx_data r) (rx_count r) (expected_size r) (checksum_calc r)
       (checksum_recv r) (state r) (message_received r) v.

(** [upd_tx f w] is [w] with [f] applied to [tx_state]; likewise
    [upd_rx]. *)
Definition upd_tx (f : transmitter_state_t -> transmitter_state_t) (w : world)
  : world := set_tx (f (tx_state w)) w.
Definition upd_rx (f : receiver_state_t -> receiver_state_t) (w : world)
  : world := set_rx (f (rx_state w)) w.

(** *** The transmitter thread *)

(** The value of [__LINE__] at the [PT_WAIT_UNTIL] of the transmitter. *)
Definition LC_TX_WAIT : Z := 252.

(** Program points: the beginning ([case 0]), the test of the [while], and
    the [case] label inside [PT_WAIT_UNTIL]. *)
Inductive tx_pc : Type := TX_BEGIN | TX_WHILE | TX_WAIT.

(** [(uint8_t)sizeof(tx->message_buffer)]: the array has
    [MAX_DATA_SIZE + 10] elements. *)
Definition sizeof_message_buffer_u8 : Z := u8 (MAX_DATA_SIZE + 10).

(** [channel_ack_received(&ack_value)] on the global channel, [ack_value]
    being the static local of the transmitter. *)
Definition poll_ack (w : world) : bool * world :=
  match channel_ack_received (channel w) with
  | (Some v, c) => (true, set_tx_ack_value v (set_channel c w))
  | (None, _) => (false, w)
  end.

Definition tx_block (pc : tx_pc) (w : world) : step tx_pc :=
  match pc with
  | TX_BEGIN =>
      let w1 := upd_tx (set_retry_count 0) w in
      let w2 := upd_tx (set_transmission_complete false) w1 in
      let w3 := upd_tx (set_message_size sizeof_message_buffer_u8) w2 in
      let tx := tx_state w3 in
      match protocol_create_message (data_to_send tx) (data_size tx)
              (Some (message_buffer tx)) (Some (message_size tx)) with
      | None => Undef
      | Some (r, buf, size) =>
          let w4 :=
            upd_tx (fun t =>
                      set_tx_result r
                        (set_message_size (default (message_size t) size)
                           (set_message_buffer
                              (default (message_buffer t) buf) t))) w3 in
          if negb (r =? PROTOCOL_SUCCESS)
          then Return PT_EXITED (upd_tx (set_tx_pt PT_INIT) w4)
          else Goto TX_WHILE w4
      end
  | TX_WHILE =>
      let tx := tx_state w in
      if retry_count tx <? MAX_RETRIES then
        match channel_send (message_buffer tx) (message_size tx) w with
        | None => Undef
        | Some w1 =>
            let w2 :=
              upd_tx (fun t =>
                        set_timer
                          (timer_set (system_time_ms w1) (timer t) TIMEOUT_MS)
                          t) w1 in
            Goto TX_WAIT (upd_tx (set_tx_pt (mkPt LC_TX_WAIT)) w2)
        end
      else
        let w1 := upd_tx (set_tx_result PROTOCOL_TIMEOUT) w in
        let w2 := upd_tx (set_transmission_complete true) w1 in
        Return PT_ENDED (upd_tx (set_tx_pt (mkPt 0)) w2)
  | TX_WAIT =>
      (* channel_ack_received(&ack_value) || timer_expired(&tx->timer) *)
      let '(got, w1) := poll_ack w in
      let expired := timer_expired (system_time_ms w1) (timer (tx_state w1)) in
      if negb (got || expired) then Return PT_WAITING w1
      else if expired then
        Goto TX_WHILE
          (upd_tx (fun t => set_retry_count (u8 (retry_count t + 1)) t) w1)
      else if tx_ack_value w1 =? ACK_BYTE then
        let w2 := upd_tx (set_transmission_complete true) w1 in
        let w3 := upd_tx (set_tx_result PROTOCOL_SUCCESS) w2 in
        Return PT_EXITED (upd_tx (set_tx_pt PT_INIT) w3)
      else if tx_ack_value w1 =? NACK_BYTE then
        Goto TX_WHILE
          (upd_tx (fun t => set_retry_count (u8 (retry_count t + 1)) t) w1)
      else Goto TX_WHILE w1
  end.

(** [switch (tx->pt.lc)]: a value that is no [case] label skips the body,
    and the thread ends. *)
Definition transmitter_thread (fuel : nat) (w : world) : outcome :=
  let l := lc (tx_pt (tx_state w)) in
  if l =? 0 then run_blocks tx_block fuel TX_BEGIN w
  else if l =? LC_TX_WAIT then run_blocks tx_block fuel TX_WAIT w
  else Returns PT_ENDED (upd_tx (set_tx_pt (mkPt 0)) w).

(** *** The receiver thread *)

(** The values of [__LINE__] at the five [PT_WAIT_UNTIL] and at the
    [PT_YIELD] of the receiver. *)
Definition LC_RX_STX : Z := 295.
Definition LC_RX_QTD : Z := 301.
Definition LC_RX_DATA : Z := 314.
Definition LC_RX_CHK : Z := 322.
Definition LC_RX_ETX : Z := 328.
Definition LC_RX_YIELD : Z := 342.

(** Program points: the head of the [while (1)], the [case] label of each
    wait, the test of the [for], and the [case] label of the yield. *)
Inductive rx_pc : Type :=
  | RX_LOOP | RX_AT_STX | RX_AT_QTD | RX_FOR | RX_AT_DATA | RX_AT_CHK
  | RX_AT_ETX | RX_AT_YIELD.

(** [channel_receive_byte(&incoming_byte)] on the global channel. *)
Definition receive_incoming (w : world) : bool * world :=
  match channel_receive_byte (channel w) with
  | (Some b, c) => (true, set_rx_incoming_byte b (set_channel c w))
  | (None, _) => (false, w)
  end.

Definition rx_block (pc : rx_pc) (w : world) : step rx_pc :=
  match pc with
  | RX_LOOP =>
      let w1 := upd_rx (set_state RX_WAIT_STX) w in
      let w2 := upd_rx (set_rx_count 0) w1 in
      let w3 := upd_rx (set_checksum_calc 0) w2 in
      let w4 := upd_rx (set_message_received false) w3 in
      Goto RX_AT_STX (upd_rx (set_rx_pt (mkPt LC_RX_STX)) w4)
  | RX_AT_STX =>
      let '(got, w1) := receive_incoming w in
      if negb (got && (rx_incoming_byte w1 =? STX_BYTE))
      then Return PT_WAITING w1
      else
        let w2 := upd_rx (set_state RX_WAIT_QTD) w1 in
        Goto RX_AT_QTD (upd_rx (set_rx_pt (mkPt LC_RX_QTD)) w2)
  | RX_AT_QTD =>
      let '(got, w1) := receive_incoming w in
      if negb got then Return PT_WAITING w1
      else if rx_incoming_byte w1 =? 0 then
        Goto RX_LOOP (channel_send_ack NACK_BYTE w1)
      else
        let w2 := upd_rx (set_expected_size (rx_incoming_byte w1)) w1 in
        let w3 := upd_rx (set_state RX_WAIT_DATA) w2 in
        Goto RX_FOR (upd_rx (set_rx_count 0) w3)
  | RX_FOR =>
      let rx := rx_state w in
      if rx_count rx <? expected_size rx
      then Goto RX_AT_DATA (upd_rx (set_rx_pt (mkPt LC_RX_DATA)) w)
      else
        let w1 := upd_rx (set_state RX_WAIT_CHK) w in
        Goto RX_AT_CHK (upd_rx (set_rx_pt (mkPt LC_RX_CHK)) w1)
  | RX_AT_DATA =>
      let '(got, w1) := receive_incoming w in
      if negb got then Return PT_WAITING w1
      else
        let b := rx_incoming_byte w1 in
        let w2 :=
          upd_rx (fun r =>
                    set_rx_data (<[Z.to_nat (rx_count r) := b]> (rx_data r)) r)
                 w1 in
        let w3 :=
          upd_rx (fun r => set_checksum_calc (u8 (checksum_calc r + b)) r)
                 w2 in
        Goto RX_FOR
          (upd_rx (fun r => set_rx_count (u8 (rx_count r + 1)) r) w3)
  | RX_AT_CHK =>
      let '(got, w1) := receive_incoming w in
      if negb got then Return PT_WAITING w1
      else
        let w2 := upd_rx (set_checksum_recv (rx_incoming_byte w1)) w1 in
        let w3 := upd_rx (set_state RX_WAIT_ETX) w2 in
        Goto RX_AT_ETX (upd_rx (set_rx_pt (mkPt LC_RX_ETX)) w3)
  | RX_AT_ETX =>
      let '(got, w1) := receive_incoming w in
      if negb got then Return PT_WAITING w1
      else
        let rx := rx_state w1 in
        let w2 :=
          if (rx_incoming_byte w1 =? ETX_BYTE)
             && (checksum_calc rx =? checksum_recv rx)
          then
            channel_send_ack ACK_BYTE
              (upd_rx (set_rx_result PROTOCOL_SUCCESS)
                 (upd_rx (set_message_received true) w1))
          else
            channel_send_ack NACK_BYTE
              (upd_rx (set_rx_result PROTOCOL_ERROR) w1) in
        Return PT_YIELDED (upd_rx (set_rx_pt (mkPt LC_RX_YIELD)) w2)
  | RX_AT_YIELD =>
      (* case __LINE__: return PT_YIELDED; *)
      Return PT_YIELDED w
  end.

Definition receiver_thread (fuel : nat) (w : world) : outcome :=
  let l := lc (rx_pt (rx_state w)) in
  if l =? 0 then run_blocks rx_block fuel RX_LOOP w
  else if l =? LC_RX_STX then run_blocks rx_block fuel RX_AT_STX w
  else if l =? LC_RX_QTD then run_blocks rx_block fuel RX_AT_QTD w
  else if l =? LC_RX_DATA then run_blocks rx_block fuel RX_AT_DATA w
  else if l =? LC_RX_CHK then run_blocks rx_block fuel RX_AT_CHK w
  else if l =? LC_RX_ETX then run_blocks rx_block fuel RX_AT_ETX w
  else if l =? LC_RX_YIELD then run_blocks rx_block fuel RX_AT_YIELD w
  else Returns PT_ENDED (upd_rx (set_rx_pt (mkPt 0)) w).

(** *** Public API *)

(** The program state at start-up: objects of static storage duration are
    zero. *)
Definition world_zero : world :=
  mkWorld 0 channel_zero
    (mkTx (mkPt 0) (mkTimer 0 0 false) None 0
          (replicate (Z.to_nat (MAX_DATA_SIZE + 10)) 0) 0 0 false 0)
    (mkRx (mkPt 0) (replicate (Z.to_nat MAX_DATA_SIZE) 0) 0 0 0 0
          RX_WAIT_STX false 0)
    0 0 [].

Definition protothreads_init (w : world) : world :=
  set_time 0
    (channel_reset (upd_rx (set_rx_pt PT_INIT) (upd_tx (set_tx_pt PT_INIT) w))).

Definition protothreads_send_data (data : option (list Z)) (size : Z)
    (w : world) : Z * world :=
  match data with
  | None => (PROTOCOL_INVALID_PARAM, w)
  | Some _ =>
      if size =? 0 then (PROTOCOL_INVALID_PARAM, w)
      else
        (PROTOCOL_SUCCESS,
         upd_tx (fun t =>
                   mkTx PT_INIT (timer_stop (timer t)) data size
                        (message_buffer t) (message_size t) 0 false 0) w)
  end.

Definition protothreads_transmission_complete (w : world) : bool :=
  transmission_complete (tx_state w).
Definition protothreads_get_tx_result (w : world) : Z := tx_result (tx_state w).
Definition protothreads_message_received (w : world) : bool :=
  message_received (rx_state w).
Definition protothreads_get_received_data (w : world) : list Z :=
  rx_data (rx_state w).
Definition protothreads_get_received_size (w : world) : Z :=
  expected_size (rx_state w).
Definition protothreads_get_rx_result (w : world) : Z := rx_result (rx_state w).

(** The scheduler runs the transmitter, then the receiver, and drops
    their return values. *)
Definition protothreads_schedule (fuel : nat) (w : world) : outcome :=
  match transmitter_thread fuel w with
  | Returns _ w1 => receiver_thread fuel w1
  | o => o
  end.

(** *** Drivers used to state the properties *)

(** The transmitter is called once, then the clock advances by [ms]; this
    for each element of [deltas] in turn.  The result is the list of the
    return values and the final state. *)
Fixpoint drive_transmitter (fuel : nat) (deltas : list Z) (w : world)
  : option (list Z * world) :=
  match deltas with
  | [] => Some ([], w)
  | ms :: rest =>
      match transmitter_thread fuel w with
      | Returns code w1 =>
          match drive_transmitter fuel rest (advance_time ms w1) with
          | Some (codes, w2) => Some (code :: codes, w2)
          | None => None
          end
      | _ => None
      end
  end.

(** The transmitter is in [AwaitingAck]: suspended at its wait, with the
    transmission not complete and retries left. *)
Definition awaiting_ack (w : world) : Prop :=
  lc (tx_pt (tx_state w)) = LC_TX_WAIT
  /\ transmission_complete (tx_state w) = false
  /\ 0 <= retry_count (tx_state w) < MAX_RETRIES.

(** The arrays are large enough for [channel_send] to copy the message of
    the transmitter: [message_size] is a [uint8_t], and [message_buffer]
    and [rx_buffer] have [MAX_DATA_SIZE + 10] elements. *)
Definition can_send (w : world) : Prop :=
  (Z.to_nat (message_size (tx_state w))
   <= length (message_buffer (tx_state w))
   /\ Z.to_nat (message_size (tx_state w))
      <= length (rx_buffer (channel w)))%nat.

(** The transmitter has finished: the thread has exited or ended, which
    leaves [lc] at 0, with the completion flag set. *)
Definition terminal (w : world) : Prop :=
  lc (tx_pt (tx_state w)) = 0
  /\ transmission_complete (tx_state w) = true.

(** The arrays of the program have their declared sizes. *)
Definition arrays_ok (w : world) : Prop :=
  length (message_buffer (tx_state w)) = Z.to_nat (MAX_DATA_SIZE + 10)
  /\ length (rx_buffer (channel w)) = Z.to_nat (MAX_DATA_SIZE + 10)
  /\ length (rx_data (rx_state w)) = Z.to_nat MAX_DATA_SIZE.

(** [channel.simulate_loss = v;] as the tests do it. *)
Definition set_simulate_loss (v : bool) (w : world) : world :=
  let c := channel w in
  set_channel
    (mkChannel (tx_buffer c) (rx_buffer c) (tx_size c) (rx_size c) (rx_pos c)
               (tx_ready c) (rx_ready c) (ack_received c) (ack_value c) v)
    w.

(** The program state after [protothreads_init()] at start-up and then
    [protothreads_send_data(data, size)] with [size] the length of
    [data]. *)
Definition submitted (data : list Z) : world :=
  snd (protothreads_send_data (Some data) (Z.of_nat (length data))
         (protothreads_init world_zero)).

(** The state a call of the scheduler leaves, when it returns. *)
Definition after_schedule (fuel : nat) (w : world) : world :=
  match protothreads_schedule fuel w with
  | Returns _ w' => w'
  | _ => w
  end.

(** The state a call of the receiver leaves, when it returns. *)
Definition after_receiver (fuel : nat) (w : world) : world :=
  match receiver_thread fuel w with
  | Returns _ w' => w'
  | _ => w
  end.

(** The state after [channel_send(data, size)] with [size] the length of
    [data], when the call is defined. *)
Definition after_send (data : list Z) (w : world) : world :=
  default w (channel_send data (Z.of_nat (length data)) w).

(** [AA BB CC] was submitted, the scheduler ran once (the frame went out
    and the receiver acknowledged it), and one second passed: an
    acknowledgment is waiting and the timer has expired. *)
Definition world_ack_and_timeout : world :=
  advance_time 1000 (after_schedule 20 (submitted [170; 187; 204])).

(** [AA BB CC] was submitted and the scheduler ran twice, 10 ms apart: the
    transmission has succeeded. *)
Definition world_succeeded : world :=
  after_schedule 20 (advance_time 10
                       (after_schedule 20 (submitted [170; 187; 204]))).

(** At start-up the two bytes [02 00] are put on the channel: a frame
    whose length byte is zero. *)
Definition world_zero_length_frame : world :=
  after_send [STX_BYTE; 0] (protothreads_init world_zero).

(** The receiver has taken a start marker and waits for the length byte;
    the byte [00] is then put on the channel. *)
Definition world_zero_length_byte : world :=
  after_send [0]
    (after_receiver 20 (after_send [STX_BYTE] (protothreads_init world_zero))).

(** The loop of [test_timeout_and_retry]: at most [n] times, a call of
    the scheduler and then 100 ms, leaving once the transmission is
    complete. *)
Fixpoint timeout_test_loop (fuel n : nat) (w : world) : world :=
  match n with
  | O => w
  | S n' =>
      let w1 := advance_time 100 (after_schedule fuel w) in
      if protothreads_transmission_complete w1 then w1
      else timeout_test_loop fuel n' w1
  end.

(** The fields of the channel that are [uint8_t] indices are in range. *)
Definition chan_ok (c : comm_channel_t) : Prop :=
  0 <= rx_pos c /\ rx_size c <= 255.

(** How many bytes [channel_receive_byte] can still deliver. *)
Definition remaining (c : comm_channel_t) : nat :=
  if rx_ready c && (rx_pos c <? rx_size c)
  then Z.to_nat (rx_size c - rx_pos c) else O.

(** Program points of the receiver that do not start with a call of
    [channel_receive_byte] weigh 1, the others 0: with twice [remaining]
    this bounds the number of blocks one call of the thread runs. *)
Definition rx_weight (pc : rx_pc) : nat :=
  match pc with
  | RX_LOOP | RX_FOR => 1
  | _ => 0
  end.

Definition rx_measure (pc : rx_pc) (w : world) : nat :=
  (rx_weight pc + 2 * remaining (channel w))%nat.

(** The events of [l] that are transmissions. *)
Definition sends (l : list event) : list (list Z) :=
  omap (fun e => match e with EvSend b => Some b | EvAck _ => None end) l.

(** The events of [l] that are acknowledgments. *)
Definition acks (l : list event) : list Z :=
  omap (fun e => match e with EvAck a => Some a | EvSend _ => None end) l.

(** *** Further drivers *)

(** [channel_receive_byte] called until it delivers nothing, at most [n]
    times: the bytes delivered, in order, and the channel left. *)
Fixpoint receive_all (n : nat) (c : comm_channel_t)
  : list Z * comm_channel_t :=
  match n with
  | O => ([], c)
  | S n' =>
      match channel_receive_byte c with
      | (Some b, c') =>
          let '(bs, c'') := receive_all n' c' in (b :: bs, c'')
      | (None, _) => ([], c)
      end
  end.

(** The channel [c], ready with bytes to deliver, after [k] of them have
    been taken by [channel_receive_byte]. *)
Definition channel_after (c : comm_channel_t) (k : Z) : comm_channel_t :=
  mkChannel (tx_buffer c) (rx_buffer c) (tx_size c) (rx_size c)
            (rx_pos c + k) (tx_ready c)
            (negb (rx_size c <=? rx_pos c + k))
            (ack_received c) (ack_value c) (simulate_loss c).

(** The receiver is at the head of its loop, or waits for a start marker
    having been through the head. *)
Definition rx_at_start (w : world) : Prop :=
  lc (rx_pt (rx_state w)) = 0
  \/ (lc (rx_pt (rx_state w)) = LC_RX_STX
      /\ checksum_calc (rx_state w) = 0
      /\ message_received (rx_state w) = false).

(** The time that passes over the elements of [deltas]. *)
Definition total_ms (deltas : list Z) : Z := foldr Z.add 0 deltas.

(** *** What holds of the transmitter from call to call *)

(** What the caller of [protothreads_send_data] owes: [data] points to
    [size] bytes. *)
Definition data_ok (w : world) : Prop :=
  match data_to_send (tx_state w) with
  | Some d =>
      data_size (tx_state w) = Z.of_nat (length d) /\ (length d <= 255)%nat
  | None => True
  end.

(** Between two calls of the transmitter: the arrays have their sizes,
    and the thread is at its start, or suspended at its wait with a
    message size that is a [uint8_t] and retries left. *)
Definition tx_safe (w : world) : Prop :=
  arrays_ok w /\ data_ok w
  /\ (lc (tx_pt (tx_state w)) = 0
      \/ (lc (tx_pt (tx_state w)) = LC_TX_WAIT
          /\ message_size (tx_state w) <= 255
          /\ 0 <= retry_count (tx_state w) < MAX_RETRIES)).

(** The same at each program point of the transmitter. *)
Definition tx_inv (pc : tx_pc) (w : world) : Prop :=
  arrays_ok w /\ data_ok w
  /\ match pc with
     | TX_BEGIN => True
     | TX_WHILE =>
         message_size (tx_state w) <= 255
         /\ 0 <= retry_count (tx_state w) <= MAX_RETRIES
     | TX_WAIT =>
         lc (tx_pt (tx_state w)) = LC_TX_WAIT
         /\ message_size (tx_state w) <= 255
         /\ 0 <= retry_count (tx_state w) < MAX_RETRIES
     end.

(** The condition of the wait of the transmitter. *)
Definition tx_pending (w : world) : bool :=
  ack_received (channel w)
  || timer_expired (system_time_ms w) (timer (tx_state w)).

(** A bound on the number of blocks one call of the transmitter still
    runs, and on the number of transmissions it still makes. *)
Definition tx_measure (pc : tx_pc) (w : world) : nat :=
  match pc with
  | TX_BEGIN => 5
  | TX_WHILE => if ack_received (channel w) then 4 else 2
  | TX_WAIT => if tx_pending w then 3 else 1
  end.

Definition tx_budget (pc : tx_pc) (w : world) : nat :=
  match pc with
  | TX_BEGIN => 2
  | TX_WHILE => if ack_received (channel w) then 2 else 1
  | TX_WAIT => if tx_pending w then 1 else 0
  end.

(** What a call of the transmitter leaves alone. *)
Definition tx_frame (w w' : world) : Prop :=
  rx_state w' = rx_state w
  /\ system_time_ms w' = system_time_ms w
  /\ rx_incoming_byte w' = rx_incoming_byte w
  /\ acks (trace w') = acks (trace w).

(** The return value of the transmitter and where the thread resumes. *)
Definition tx_returned (code : Z) (w : world) : Prop :=
  (code = PT_WAITING /\ lc (tx_pt (tx_state w)) = LC_TX_WAIT)
  \/ ((code = PT_EXITED \/ code = PT_ENDED) /\ lc (tx_pt (tx_state w)) = 0).

(** What a call of the receiver leaves alone. *)
Definition rx_frame (w w' : world) : Prop :=
  tx_state w' = tx_state w
  /\ system_time_ms w' = system_time_ms w
  /\ tx_ack_value w' = tx_ack_value w
  /\ sends (trace w') = sends (trace w)
  /\ rx_buffer (channel w') = rx_buffer (channel w)
  /\ rx_size (channel w') = rx_size (channel w)
  /\ length (rx_data (rx_state w')) = length (rx_data (rx_state w)).

(** The main loop: the scheduler is called, then the clock advances by
    [ms]; this for each element of [deltas] in turn. *)
Fixpoint drive_scheduler (fuel : nat) (deltas : list Z) (w : world)
  : option world :=
  match deltas with
  | [] => Some w
  | ms :: rest =>
      match protothreads_schedule fuel w with
      | Returns _ w1 => drive_scheduler fuel rest (advance_time ms w1)
      | _ => None
      end
  end.

(** *** The receiver with its array accesses checked

    [rx_block] above takes the read [channel.rx_buffer[channel.rx_pos]]
    and the write [rx->rx_data[rx->rx_count] = incoming_byte] as total
    operations on lists.  In [Checked] the same thread has both accesses
    undefined outside the arrays, as the transmitter has its own. *)

(** Between two calls of the receiver: the arrays have their sizes, and
    the read position and the size of the channel and the byte counter
    of the receiver are values of a [uint8_t]. *)
Definition rx_safe (w : world) : Prop :=
  arrays_ok w /\ chan_ok (channel w) /\ is_u8 (rx_count (rx_state w)).

Module Checked.

(** [channel_receive_byte(&incoming_byte)] on the global channel; [None]
    when it reads outside [rx_buffer]. *)
Definition receive_incoming (w : world) : option (bool * world) :=
  let c := channel w in
  if rx_ready c && (rx_pos c <? rx_size c) then
    byte ← rx_buffer c !! Z.to_nat (rx_pos c);
    let pos := u8 (rx_pos c + 1) in
    Some (true,
          set_rx_incoming_byte byte
            (set_channel
               (mkChannel (tx_buffer c) (rx_buffer c) (tx_size c) (rx_size c)
                          pos (tx_ready c)
                          (if rx_size c <=? pos then false else rx_ready c)
                          (ack_received c) (ack_value c) (simulate_loss c))
               w))
  else Some (false, w).

Definition rx_block (pc : rx_pc) (w : world) : step rx_pc :=
  match pc with
  | RX_LOOP =>
      let w1 := upd_rx (set_state RX_WAIT_STX) w in
      let w2 := upd_rx (set_rx_count 0) w1 in
      let w3 := upd_rx (set_checksum_calc 0) w2 in
      let w4 := upd_rx (set_message_received false) w3 in
      Goto RX_AT_STX (upd_rx (set_rx_pt (mkPt LC_RX_STX)) w4)
  | RX_AT_STX =>
      match receive_incoming w with
      | None => Undef
      | Some (got, w1) =>
          if negb (got && (rx_incoming_byte w1 =? STX_BYTE))
          then Return PT_WAITING w1
          else
            let w2 := upd_rx (set_state RX_WAIT_QTD) w1 in
            Goto RX_AT_QTD (upd_rx (set_rx_pt (mkPt LC_RX_QTD)) w2)
      end
  | RX_AT_QTD =>
      match receive_incoming w with
      | None => Undef
      | Some (got, w1) =>
          if negb got then Return PT_WAITING w1
          else if rx_incoming_byte w1 =? 0 then
            Goto RX_LOOP (channel_send_ack NACK_BYTE w1)
          else
            let w2 := upd_rx (set_expected_size (rx_incoming_byte w1)) w1 in
            let w3 := upd_rx (set_state RX_WAIT_DATA) w2 in
            Goto RX_FOR (upd_rx (set_rx_count 0) w3)
      end
  | RX_FOR =>
      let rx := rx_state w in
      if rx_count rx <? expected_size rx
      then Goto RX_AT_DATA (upd_rx (set_rx_pt (mkPt LC_RX_DATA)) w)
      else
        let w1 := upd_rx (set_state RX_WAIT_CHK) w in
        Goto RX_AT_CHK (upd_rx (set_rx_pt (mkPt LC_RX_CHK)) w1)
  | RX_AT_DATA =>
      match receive_incoming w with
      | None => Undef
      | Some (got, w1) =>
          if negb got then Return PT_WAITING w1
          else
            let b := rx_incoming_byte w1 in
            match store (rx_data (rx_state w1))
                        (Z.to_nat (rx_count (rx_state w1))) b with
            | None => Undef
            | Some data =>
                let w2 := upd_rx (set_rx_data data) w1 in
                let w3 :=
                  upd_rx (fun r =>
                            set_checksum_calc (u8 (checksum_calc r + b)) r)
                         w2 in
                Goto RX_FOR
                  (upd_rx (fun r => set_rx_count (u8 (rx_count r + 1)) r) w3)
            end
      end
  | RX_AT_CHK =>
      match receive_incoming w with
      | None => Undef
      | Some (got, w1) =>
          if negb got then Return PT_WAITING w1
          else
            let w2 := upd_rx (set_checksum_recv (rx_incoming_byte w1)) w1 in
            let w3 := upd_rx (set_state RX_WAIT_ETX) w2 in
            Goto RX_AT_ETX (upd_rx (set_rx_pt (mkPt LC_RX_ETX)) w3)
      end
  | RX_AT_ETX =>
      match receive_incoming w with
      | None => Undef
      | Some (got, w1) =>
          if negb got then Return PT_WAITING w1
          else
            let rx := rx_state w1 in
            let w2 :=
              if (rx_incoming_byte w1 =? ETX_BYTE)
                 && (checksum_calc rx =? checksum_recv rx)
              then
                channel_send_ack ACK_BYTE
                  (upd_rx (set_rx_result PROTOCOL_SUCCESS)
                     (upd_rx (set_message_received true) w1))
              else
                channel_send_ack NACK_BYTE
                  (upd_rx (set_rx_result PROTOCOL_ERROR) w1) in
            Return PT_YIELDED (upd_rx (set_rx_pt (mkPt LC_RX_YIELD)) w2)
      end
  | RX_AT_YIELD => Return PT_YIELDED w
  end.

Definition receiver_thread (fuel : nat) (w : world) : outcome :=
  let l := lc (rx_pt (rx_state w)) in
  if l =? 0 then run_blocks rx_block fuel RX_LOOP w
  else if l =? LC_RX_STX then run_blocks rx_block fuel RX_AT_STX w
  else if l =? LC_RX_QTD then run_blocks rx_block fuel RX_AT_QTD w
  else if l =? LC_RX_DATA then run_blocks rx_block fuel RX_AT_DATA w
  else if l =? LC_RX_CHK then run_blocks rx_block fuel RX_AT_CHK w
  else if l =? LC_RX_ETX then run_blocks rx_block fuel RX_AT_ETX w
  else if l =? LC_RX_YIELD then run_blocks rx_block fuel RX_AT_YIELD w
  else Returns PT_ENDED (upd_rx (set_rx_pt (mkPt 0)) w).

Definition protothreads_schedule (fuel : nat) (w : world) : outcome :=
  match transmitter_thread fuel w with
  | Returns _ w1 => receiver_thread fuel w1
  | o => o
  end.

(** The main loop, as [drive_scheduler]. *)
Fixpoint drive_scheduler (fuel : nat) (deltas : list Z) (w : world)
  : option world :=
  match deltas with
  | [] => Some w
  | ms :: rest =>
      match protothreads_schedule fuel w with
      | Returns _ w1 => drive_scheduler fuel rest (advance_time ms w1)
      | _ => None
      end
  end.

End Checked.

End PT.

(* ===================================================================== *)
(** * Part II: properties                                                 *)
(* ===================================================================== *)

(** ** Machine integers and arrays *)

Lemma u8_range (z : Z) : is_u8 (u8 z).
Proof. unfold is_u8, u8. apply Z.mod_pos_bound. lia. Qed.

Lemma u8_small (z : Z) : is_u8 z -> u8 z = z.
Proof. unfold is_u8, u8. intros H. apply Z.mod_small. lia. Qed.

Lemma u8_add_idemp_l (a b : Z) : u8 (u8 a + b) = u8 (a + b).
Proof. unfold u8. apply Zplus_mod_idemp_l. Qed.

Lemma sum_bytes_app (l1 l2 : list Z) :
  sum_bytes (l1 ++ l2) = sum_bytes l1 + sum_bytes l2.
Proof. unfold sum_bytes. induction l1 as [|x l1 IH]; simpl; lia. Qed.

Lemma store_Some (buf : list Z) (i : nat) (v : Z) :
  (i < length buf)%nat -> store buf i v = Some (<[i := v]> buf).
Proof. intros H. unfold store. rewrite decide_True; [reflexivity | exact H]. Qed.

Lemma memcpy_Some (dst : list Z) (off : nat) (src : list Z) (n : nat) :
  (n <= length src)%nat -> (off + n <= length dst)%nat ->
  memcpy dst off src n = Some (take off dst ++ take n src ++ drop (off + n) dst).
Proof.
  intros H1 H2. unfold memcpy. rewrite decide_True; [reflexivity | auto].
Qed.

Lemma memcpy_length (dst : list Z) (off : nat) (src : list Z) (n : nat)
    (out : list Z) :
  memcpy dst off src n = Some out -> length out = length dst.
Proof.
  unfold memcpy. case_decide as H; [|discriminate].
  intros [= <-]. destruct H as [H1 H2].
  rewrite !length_app, !length_take, length_drop. lia.
Qed.

(** ** The encoder *)

Section Encoder.
Import Codec.

Lemma checksum_loop_spec (dados : list Z) (n i : nat) (c : Z) :
  (i + n <= length dados)%nat ->
  checksum_loop dados i n c
  = Some (match n with
          | O => c
          | S _ => u8 (c + sum_bytes (take n (drop i dados)))
          end).
Proof.
  revert i c. induction n as [|n IH]; intros i c Hlen; simpl; [reflexivity|].
  destruct (lookup_lt_is_Some_2 dados i) as [d Hd]; [lia|].
  rewrite Hd. rewrite IH by lia.
  rewrite (drop_S _ _ _ Hd). simpl. f_equal.
  destruct n as [|n]; simpl.
  - f_equal. unfold sum_bytes. simpl. lia.
  - rewrite u8_add_idemp_l. f_equal. unfold sum_bytes. simpl. lia.
Qed.

Lemma protocol_calculate_checksum_spec (payload : list Z) :
  protocol_calculate_checksum (Some payload) (Z.of_nat (length payload))
  = Some (u8 (sum_bytes payload)).
Proof.
  unfold protocol_calculate_checksum.
  destruct payload as [|x l]; [reflexivity|].
  replace (Z.of_nat (length (x :: l)) =? 0) with false
    by (symmetry; apply Z.eqb_neq; simpl; lia).
  rewrite Nat2Z.id, checksum_loop_spec by (simpl; lia).
  simpl. rewrite take_ge by lia. reflexivity.
Qed.

(** What a successful call writes and reports. *)
Lemma protocol_create_message_success (payload buf : list Z) (size : Z) :
  (1 <= length payload <= 255)%nat ->
  (length payload + 4 <= length buf)%nat ->
  u8 (5 + Z.of_nat (length payload)) <= size ->
  protocol_create_message (Some payload) (Z.of_nat (length payload))
                          (Some buf) (Some size)
  = Some (PROTOCOL_SUCCESS,
          Some (frame_bytes payload ++ drop (length payload + 4) buf),
          Some (u8 (5 + Z.of_nat (length payload)))).
Proof.
  intros Hlen Hbuf Hsize. unfold protocol_create_message.
  replace (Z.of_nat (length payload) =? 0) with false
    by (symmetry; apply Z.eqb_neq; lia).
  rewrite protocol_calculate_checksum_spec. cbn [mbind option_bind].
  replace (size <? u8 (5 + Z.of_nat (length payload))) with false
    by (symmetry; apply Z.ltb_ge; exact Hsize).
  destruct buf as [|x0 [|x1 rest]]; simpl in Hbuf; try lia.
  assert (Hd : exists c0 c1 tl, drop (length payload) rest = c0 :: c1 :: tl).
  { destruct (drop (length payload) rest) as [|c0 [|c1 tl]] eqn:E;
      [| |eauto];
      apply (f_equal length) in E; rewrite length_drop in E; simpl in E; lia. }
  destruct Hd as (c0 & c1 & tl & Hd).
  rewrite store_Some by (simpl; lia). cbn [mbind option_bind].
  rewrite store_Some by (simpl; lia). cbn [mbind option_bind].
  cbn [insert list_insert].
  rewrite Nat2Z.id. rewrite memcpy_Some; [|lia|cbn [length]; lia].
  cbn [mbind option_bind take drop Nat.add app].
  rewrite take_0, (take_ge payload), Hd by lia. cbn [app].
  set (pre := STX_BYTE :: Z.of_nat (length payload) :: payload).
  change (STX_BYTE :: Z.of_nat (length payload) :: payload ++ c0 :: c1 :: tl)
    with (pre ++ c0 :: c1 :: tl).
  replace (Z.to_nat (2 + Z.of_nat (length payload)))
    with (length pre + 0)%nat by (subst pre; simpl; lia).
  replace (Z.to_nat (3 + Z.of_nat (length payload)))
    with (length pre + 1)%nat by (subst pre; simpl; lia).
  rewrite store_Some by (rewrite length_app; simpl; lia).
  rewrite insert_app_r. cbn [mbind option_bind].
  rewrite store_Some by (rewrite length_app; simpl; lia).
  rewrite insert_app_r. cbn [mbind option_bind].
  do 3 f_equal. unfold frame_bytes. subst pre.
  replace (length payload + 4)%nat with (S (S (length payload + 2))) by lia.
  cbn [skipn]. rewrite <- drop_drop, Hd. cbn [insert list_insert skipn app].
  rewrite <- app_assoc. reflexivity.
Qed.

End Encoder.

(** ** The parser *)

Section Parser.
Import FP.

Lemma feed_app (h : ProtocolHandler) (l1 l2 : list Z) :
  feed h (l1 ++ l2) = feed (feed h l1) l2.
Proof. unfold feed. apply foldl_app. Qed.

Lemma outcomes_app (h : ProtocolHandler) (l1 l2 : list Z) :
  outcomes h (l1 ++ l2) = outcomes h l1 ++ outcomes (feed h l1) l2.
Proof.
  revert h. induction l1 as [|b l1 IH]; intros h; simpl; [reflexivity|].
  f_equal. apply IH.
Qed.

Lemma count_code_app (c : Z) (l1 l2 : list Z) :
  count_code c (l1 ++ l2) = (count_code c l1 + count_code c l2)%nat.
Proof. unfold count_code. rewrite list.filter_app, length_app. reflexivity. Qed.

Lemma count_code_replicate_ne (c x : Z) (n : nat) :
  x <> c -> count_code c (replicate n x) = 0%nat.
Proof.
  intros Hne. unfold count_code. induction n as [|n IH]; simpl; [reflexivity|].
  rewrite list.filter_cons_False by exact Hne. exact IH.
Qed.

(** While it waits for a start marker the parser ignores every other
    byte. *)
Lemma feed_noise (noise : list Z) (h : ProtocolHandler) :
  table_ok h -> current_state h = ST_STX -> last_result h = PROTOCOL_WAITING ->
  Forall (fun b => b <> STX_BYTE) noise ->
  feed h noise = h
  /\ outcomes h noise = replicate (length noise) PROTOCOL_WAITING.
Proof.
  intros Ht Hs Hl Hn. induction Hn as [|b l Hb _ IH]; [split; reflexivity|].
  assert (Hstep : process_byte h b = (PROTOCOL_WAITING, h)).
  { destruct h as [st sf q d k cr cc mr lr].
    unfold table_ok in Ht. simpl in Ht, Hs, Hl. subst st sf lr.
    unfold process_byte. simpl. unfold state_wait_stx.
    replace (b =? STX_BYTE) with false by (symmetry; apply Z.eqb_neq; exact Hb).
    reflexivity. }
  destruct IH as [IH1 IH2]. split.
  - change (feed h (b :: l)) with (feed (snd (process_byte h b)) l).
    rewrite Hstep. exact IH1.
  - simpl. rewrite Hstep. simpl. f_equal. exact IH2.
Qed.

(** The payload phase: from [ST_DATA] with [k] bytes stored, the bytes
    still expected are stored in order and the parser moves to [ST_CHK]. *)
Lemma feed_data_phase (rest : list Z) :
  forall (d : list Z) (k cc lr : Z) (q cr : Z) (mr : bool),
    rest <> [] -> 0 <= k -> q = k + Z.of_nat (length rest) -> q <= 255 ->
    (Z.to_nat q <= length d)%nat ->
    let h := mkHandler ST_DATA (state_functions handler_init) q d k cr cc mr lr in
    exists d',
      feed h rest
      = mkHandler ST_CHK (state_functions handler_init) q d' q cr
                  (u8 (cc + sum_bytes rest)) mr PROTOCOL_WAITING
      /\ take (Z.to_nat q) d' = take (Z.to_nat k) d ++ rest
      /\ length d' = length d
      /\ outcomes h rest = replicate (length rest) PROTOCOL_WAITING.
Proof.
  induction rest as [|b rest IH]; intros d k cc lr q cr mr Hne Hk Hq Hq255 Hd h;
    [congruence|].
  subst h. simpl in Hq.
  assert (Hu : u8 (k + 1) = k + 1) by (apply u8_small; unfold is_u8; lia).
  assert (Hins : take (S (Z.to_nat k)) (<[Z.to_nat k := b]> d)
                 = take (Z.to_nat k) d ++ [b]).
  { erewrite take_S_r; [|apply list_lookup_insert_eq; lia].
    rewrite take_insert_ge by lia. reflexivity. }
  assert (Hstep : process_byte
                    (mkHandler ST_DATA (state_functions handler_init) q d k
                               cr cc mr lr) b
                  = (PROTOCOL_WAITING,
                     mkHandler (if q <=? k + 1 then ST_CHK else ST_DATA)
                               (state_functions handler_init) q
                               (<[Z.to_nat k := b]> d) (k + 1) cr
                               (u8 (cc + b)) mr PROTOCOL_WAITING)).
  { unfold process_byte. simpl. unfold state_wait_data. simpl.
    rewrite Hu. destruct (q <=? k + 1); reflexivity. }
  change (feed ?h (b :: ?l)) with (feed (snd (process_byte h b)) l).
  change (outcomes ?h (b :: ?l))
    with (fst (process_byte h b) :: outcomes (snd (process_byte h b)) l).
  rewrite Hstep. cbn [fst snd].
  destruct rest as [|b' rest].
  - exists (<[Z.to_nat k := b]> d). simpl in Hq.
    replace (q <=? k + 1) with true by (symmetry; apply Z.leb_le; lia).
    replace (k + 1) with q by lia.
    split; [|split; [|split]].
    + unfold feed. simpl. do 2 f_equal. unfold sum_bytes. simpl. lia.
    + replace (Z.to_nat q) with (S (Z.to_nat k)) by lia. exact Hins.
    + apply length_insert.
    + reflexivity.
  - replace (q <=? k + 1) with false
      by (symmetry; apply Z.leb_gt; simpl length in Hq; lia).
    destruct (IH (<[Z.to_nat k := b]> d) (k + 1) (u8 (cc + b))
                PROTOCOL_WAITING q cr mr) as (d' & Hf & Ht & Hl & Ho);
      [congruence | lia | simpl length in *; lia | lia
       | rewrite length_insert; lia |].
    exists d'. split; [|split; [|split]].
    + rewrite Hf. f_equal.
      rewrite u8_add_idemp_l. f_equal. unfold sum_bytes. simpl. lia.
    + rewrite Ht. replace (Z.to_nat (k + 1)) with (S (Z.to_nat k)) by lia.
      rewrite Hins, <- app_assoc. reflexivity.
    + rewrite Hl. apply length_insert.
    + rewrite Ho. reflexivity.
Qed.

(** One well-formed frame, fed to a parser that waits for a start marker,
    gives [PROTOCOL_WAITING] for every byte but the last and
    [PROTOCOL_SUCCESS] for the last; the handler then holds the payload. *)
Lemma feed_frame (payload : list Z) (h : ProtocolHandler) :
  table_ok h -> current_state h = ST_STX ->
  (1 <= length payload <= 255)%nat ->
  (length payload <= length (dados h))%nat ->
  outcomes h (frame_bytes payload)
  = replicate (length payload + 3) PROTOCOL_WAITING ++ [PROTOCOL_SUCCESS]
  /\ current_state (feed h (frame_bytes payload)) = ST_STX
  /\ table_ok (feed h (frame_bytes payload))
  /\ message_ready (feed h (frame_bytes payload)) = true
  /\ qtd_dados (feed h (frame_bytes payload)) = Z.of_nat (length payload)
  /\ take (length payload) (dados (feed h (frame_bytes payload))) = payload
  /\ length (dados (feed h (frame_bytes payload))) = length (dados h)
  /\ last_result (feed h (frame_bytes payload)) = PROTOCOL_SUCCESS.
Proof.
  intros Ht Hs Hlen Hd.
  destruct h as [st sf q0 d k0 cr0 cc0 mr0 lr0].
  unfold table_ok in Ht.
  cbn [state_functions current_state dados] in Ht, Hs, Hd |- *. subst st sf.
  set (n := Z.of_nat (length payload)).
  destruct (feed_data_phase payload d 0 0 PROTOCOL_WAITING n cr0 false)
    as (d' & Hf & Htk & Hl & Ho);
    [destruct payload; [simpl in Hlen; lia | congruence]
    | lia | subst n; lia | subst n; lia | subst n; lia |].
  assert (H2 : feed (mkHandler ST_STX (state_functions handler_init) q0 d k0
                               cr0 cc0 mr0 lr0) [STX_BYTE; n]
               = mkHandler ST_DATA (state_functions handler_init) n d 0 cr0 0
                           false PROTOCOL_WAITING).
  { unfold feed, process_byte. simpl. unfold state_wait_qtd. simpl.
    replace (0 <? n) with true by (symmetry; apply Z.ltb_lt; subst n; lia).
    reflexivity. }
  assert (H2o : outcomes (mkHandler ST_STX (state_functions handler_init) q0 d
                                    k0 cr0 cc0 mr0 lr0) [STX_BYTE; n]
                = [PROTOCOL_WAITING; PROTOCOL_WAITING]).
  { unfold outcomes, process_byte. simpl. unfold state_wait_qtd. simpl.
    replace (0 <? n) with true by (symmetry; apply Z.ltb_lt; subst n; lia).
    reflexivity. }
  change (frame_bytes payload)
    with ([STX_BYTE; n] ++ payload ++ [u8 (sum_bytes payload); ETX_BYTE]).
  rewrite outcomes_app, !feed_app, H2, H2o, outcomes_app, Ho, Hf.
  assert (Hend : (u8 (0 + sum_bytes payload) =? u8 (sum_bytes payload)) = true)
    by (apply Z.eqb_eq; reflexivity).
  unfold feed, outcomes, process_byte. simpl. unfold state_wait_etx. simpl.
  rewrite Hend. simpl. repeat split.
  - replace (length payload + 3)%nat with (S (S (length payload + 1))) by lia.
    cbn [replicate]. rewrite replicate_add. cbn [app].
    rewrite <- app_assoc. reflexivity.
  - subst n. rewrite Nat2Z.id in Htk. exact Htk.
  - exact Hl.
Qed.

(** *** The invariant of the handler *)

Lemma handler_inv_init : handler_inv handler_init.
Proof.
  unfold handler_inv, table_ok. simpl. repeat split; try lia; discriminate.
Qed.

Lemma handler_inv_step (h : ProtocolHandler) (b : Z) :
  handler_inv h -> is_u8 b -> handler_inv (snd (process_byte h b)).
Proof.
  intros (Ht & Hl & Hc & Hq & Hd) Hb.
  destruct h as [st sf q d k cr cc mr lr].
  unfold table_ok in Ht. cbn [state_functions] in Ht. subst sf.
  cbn [current_state dados dados_count qtd_dados] in Hl, Hc, Hq, Hd.
  unfold is_u8 in Hb. unfold handler_inv, table_ok, process_byte.
  assert (Hu : k < 255 -> u8 (k + 1) = k + 1)
    by (intros; apply u8_small; unfold is_u8; lia).
  destruct st; simpl;
    [unfold state_wait_stx; destruct (b =? _)
    |unfold state_wait_qtd; destruct (Z.ltb_spec 0 b)
    |unfold state_wait_data; simpl; specialize (Hd eq_refl);
     rewrite Hu by lia; destruct (Z.leb_spec q (k + 1))
    |unfold state_wait_chk
    |unfold state_wait_etx; destruct (_ && _)];
    simpl; rewrite ?length_insert;
    (split; [reflexivity|]); (split; [exact Hl|]);
    repeat split; try lia; try discriminate.
  specialize (Hq eq_refl). lia.
Qed.

Lemma handler_inv_feed (bytes : list Z) :
  forall h : ProtocolHandler,
    handler_inv h -> Forall is_u8 bytes -> handler_inv (feed h bytes).
Proof.
  induction bytes as [|b bytes IH]; intros h Hinv Hall; [exact Hinv|].
  inversion Hall as [|? ? Hb Hrest]; subst.
  change (feed h (b :: bytes)) with (feed (snd (process_byte h b)) bytes).
  apply IH; [apply handler_inv_step; assumption | exact Hrest].
Qed.

(** C8.  After any sequence of bytes processed from a freshly initialised
    handler, the receive array has its 256 elements, and if the parser is
    in [ST_DATA] then [dados_count < qtd_dados <= 255]; so the element
    [dados[dados_count]] that [state_wait_data] writes next is inside the
    array. *)
Theorem data_write_in_bounds (bytes : list Z) :
  Forall is_u8 bytes ->
  length (dados (feed handler_init bytes)) = Z.to_nat MAX_DATA_SIZE
  /\ (current_state (feed handler_init bytes) = ST_DATA ->
      0 <= dados_count (feed handler_init bytes)
           < qtd_dados (feed handler_init bytes)
      /\ qtd_dados (feed handler_init bytes) <= 255
      /\ (Z.to_nat (dados_count (feed handler_init bytes))
          < length (dados (feed handler_init bytes)))%nat).
Proof.
  intros Hall.
  destruct (handler_inv_feed bytes handler_init handler_inv_init Hall)
    as (_ & Hl & Hc & _ & Hd).
  split; [exact Hl|]. intros Hs. specialize (Hd Hs).
  rewrite Hl. unfold MAX_DATA_SIZE. lia.
Qed.

Lemma data_write_in_bounds_witness :
  Forall is_u8 [2; 3; 7]
  /\ current_state (feed handler_init [2; 3; 7]) = ST_DATA
  /\ 0 <= dados_count (feed handler_init [2; 3; 7])
          < qtd_dados (feed handler_init [2; 3; 7]).
Proof.
  assert (Hall : Forall is_u8 [2; 3; 7])
    by (repeat constructor; unfold is_u8; lia).
  split; [exact Hall|]. split; [reflexivity|].
  apply (data_write_in_bounds [2; 3; 7] Hall). reflexivity.
Defined.

(** *** A null handler *)

(** C10.  With a null handler [protocol_process_byte] returns
    [PROTOCOL_INVALID_PARAM] and there is still no handler afterwards;
    [protocol_message_ready], [protocol_get_data] and
    [protocol_get_data_count] return false, null and 0. *)
Theorem null_handler_is_refused (byte : Z) :
  protocol_process_byte None byte = (PROTOCOL_INVALID_PARAM, None)
  /\ protocol_message_ready None = false
  /\ protocol_get_data None = None
  /\ protocol_get_data_count None = 0.
Proof. repeat split. Qed.

(** *** Noise before a frame *)

(** C7, as stated, fails: the noise byte 0x02 is taken for a start marker,
    the start marker of the frame for a length, and the frame
    [02 01 41 41 03] is rejected. *)
Lemma noise_with_start_marker_loses_frame :
  count_code PROTOCOL_SUCCESS
    (outcomes handler_init ([2] ++ frame_bytes [65])) = 0%nat
  /\ count_code PROTOCOL_ERROR
       (outcomes handler_init ([2] ++ frame_bytes [65])) = 1%nat.
Proof. split; vm_compute; reflexivity. Qed.

(** C7, amended.  For every finite sequence of noise bytes none of which
    is the start marker 0x02, followed by the bytes of one valid frame,
    feeding the stream byte by byte into a freshly initialised parser
    gives exactly one [PROTOCOL_SUCCESS] and no [PROTOCOL_ERROR]. *)
Theorem noise_without_start_marker_then_frame (noise payload : list Z) :
  Forall (fun b => b <> STX_BYTE) noise ->
  (1 <= length payload <= 255)%nat ->
  count_code PROTOCOL_SUCCESS
    (outcomes handler_init (noise ++ frame_bytes payload)) = 1%nat
  /\ count_code PROTOCOL_ERROR
       (outcomes handler_init (noise ++ frame_bytes payload)) = 0%nat.
Proof.
  intros Hn Hlen.
  destruct (feed_noise noise handler_init eq_refl eq_refl eq_refl Hn)
    as [Hf Ho].
  destruct (feed_frame payload handler_init eq_refl eq_refl Hlen) as [Hfr _];
    [change (length (dados handler_init)) with 256%nat; lia|].
  rewrite outcomes_app, Hf, Ho, Hfr, !count_code_app.
  rewrite !count_code_replicate_ne by discriminate.
  split; reflexivity.
Qed.

Lemma noise_without_start_marker_then_frame_witness :
  Forall (fun b => b <> STX_BYTE) [255; 0; 3]
  /\ (1 <= length [16; 32] <= 255)%nat
  /\ count_code PROTOCOL_SUCCESS
       (outcomes handler_init ([255; 0; 3] ++ frame_bytes [16; 32])) = 1%nat
  /\ count_code PROTOCOL_ERROR
       (outcomes handler_init ([255; 0; 3] ++ frame_bytes [16; 32])) = 0%nat.
Proof.
  assert (Hn : Forall (fun b => b <> STX_BYTE) [255; 0; 3])
    by (repeat constructor; discriminate).
  assert (Hl : (1 <= length [16; 32] <= 255)%nat) by (simpl; lia).
  split; [exact Hn|]. split; [exact Hl|].
  exact (noise_without_start_marker_then_frame [255; 0; 3] [16; 32] Hn Hl).
Defined.

(** *** A zero length byte *)

Lemma zero_length_is_absorbed (h : ProtocolHandler) :
  table_ok h -> current_state h = ST_QTD ->
  process_byte h 0
  = (PROTOCOL_WAITING,
     set_last_result PROTOCOL_WAITING (set_current_state ST_STX h)).
Proof.
  intros Ht Hs. destruct h as [st sf q d k cr cc mr lr].
  unfold table_ok in Ht. cbn [state_functions current_state] in Ht, Hs.
  subst st sf. reflexivity.
Qed.

Lemma waiting_for_start_returns_waiting (h : ProtocolHandler) (b : Z) :
  table_ok h -> current_state h = ST_STX ->
  fst (process_byte h b) = PROTOCOL_WAITING.
Proof.
  intros Ht Hs. destruct h as [st sf q d k cr cc mr lr].
  unfold table_ok in Ht. cbn [state_functions current_state] in Ht, Hs.
  subst st sf. unfold process_byte. simpl. unfold state_wait_stx.
  destruct (b =? _); reflexivity.
Qed.

(** *** Encoding, then parsing *)

(** C1.  For every payload of 1 to 255 bytes, encoded by
    [protocol_create_message] into a buffer that has room for the frame
    and that the call accepts, the bytes of the frame the call lays out
    (start marker to end marker, [qtd + 4] bytes), fed one at a time to a
    freshly initialised parser, give [PROTOCOL_WAITING] for every byte but
    the last and [PROTOCOL_SUCCESS] for the last: exactly one frame is
    complete, [message_ready] is set, and the data and the count of the
    handler are the payload and its length.  (The size the call reports
    is the matter of C2.) *)
Theorem encode_then_parse_roundtrip (payload buf : list Z) (size : Z) :
  (1 <= length payload <= 255)%nat ->
  (length payload + 4 <= length buf)%nat ->
  u8 (5 + Z.of_nat (length payload)) <= size ->
  exists buf' size',
    protocol_create_message (Some payload) (Z.of_nat (length payload))
                            (Some buf) (Some size)
    = Some (PROTOCOL_SUCCESS, Some buf', Some size')
    /\ take (length payload + 4) buf' = frame_bytes payload
    /\ outcomes handler_init (take (length payload + 4) buf')
       = replicate (length payload + 3) PROTOCOL_WAITING ++ [PROTOCOL_SUCCESS]
    /\ count_code PROTOCOL_SUCCESS
         (outcomes handler_init (take (length payload + 4) buf')) = 1%nat
    /\ protocol_message_ready
         (Some (feed handler_init (take (length payload + 4) buf'))) = true
    /\ protocol_get_data_count
         (Some (feed handler_init (take (length payload + 4) buf')))
       = Z.of_nat (length payload)
    /\ (take (length payload)
          <$> protocol_get_data
                (Some (feed handler_init (take (length payload + 4) buf'))))
       = Some payload.
Proof.
  intros Hlen Hbuf Hsize.
  eexists _, _. split;
    [apply protocol_create_message_success; assumption|].
  assert (Hfl : length (frame_bytes payload) = (length payload + 4)%nat)
    by (unfold frame_bytes; simpl; rewrite length_app; simpl; lia).
  assert (Htk : take (length payload + 4)
                  (frame_bytes payload ++ drop (length payload + 4) buf)
                = frame_bytes payload)
    by (rewrite <- Hfl; apply take_app_length).
  rewrite Htk.
  destruct (feed_frame payload handler_init eq_refl eq_refl Hlen)
    as (Ho & _ & _ & Hm & Hq & Hd & _);
    [change (length (dados handler_init)) with 256%nat; lia|].
  split; [reflexivity|]. split; [exact Ho|].
  split; [rewrite Ho, count_code_app, count_code_replicate_ne by discriminate;
          reflexivity|].
  split; [exact Hm|]. split; [exact Hq|].
  unfold protocol_get_data. cbn [fmap option_fmap option_map].
  rewrite Hd. reflexivity.
Qed.

Lemma encode_then_parse_roundtrip_witness :
  (1 <= length [170; 187; 204] <= 255)%nat
  /\ exists buf' size',
       protocol_create_message (Some [170; 187; 204])
         (Z.of_nat (length [170; 187; 204])) (Some (replicate 10 0)) (Some 10)
       = Some (PROTOCOL_SUCCESS, Some buf', Some size')
       /\ take (length [170; 187; 204] + 4) buf' = frame_bytes [170; 187; 204]
       /\ outcomes handler_init (take (length [170; 187; 204] + 4) buf')
          = replicate (length [170; 187; 204] + 3) PROTOCOL_WAITING
            ++ [PROTOCOL_SUCCESS]
       /\ count_code PROTOCOL_SUCCESS
            (outcomes handler_init (take (length [170; 187; 204] + 4) buf'))
          = 1%nat
       /\ protocol_message_ready
            (Some (feed handler_init (take (length [170; 187; 204] + 4) buf')))
          = true
       /\ protocol_get_data_count
            (Some (feed handler_init (take (length [170; 187; 204] + 4) buf')))
          = Z.of_nat (length [170; 187; 204])
       /\ (take (length [170; 187; 204])
             <$> protocol_get_data
                   (Some (feed handler_init
                            (take (length [170; 187; 204] + 4) buf'))))
          = Some [170; 187; 204].
Proof.
  assert (Hlen : (1 <= length [170; 187; 204] <= 255)%nat) by (simpl; lia).
  split; [exact Hlen|].
  apply (encode_then_parse_roundtrip [170; 187; 204] (replicate 10 0) 10 Hlen).
  - simpl. lia.
  - vm_compute. intro H. discriminate H.
Defined.

(** The size that a successful call reports is [5 + qtd] reduced modulo
    256; it is never [qtd + 4], the number of bytes laid out. *)
Lemma reported_size_is_not_frame_length (payload buf : list Z) (size : Z) :
  (1 <= length payload <= 255)%nat ->
  (length payload + 4 <= length buf)%nat ->
  u8 (5 + Z.of_nat (length payload)) <= size ->
  exists buf',
    protocol_create_message (Some payload) (Z.of_nat (length payload))
                            (Some buf) (Some size)
    = Some (PROTOCOL_SUCCESS, Some buf',
            Some (u8 (5 + Z.of_nat (length payload))))
    /\ take (length payload + 4) buf' = frame_bytes payload
    /\ u8 (5 + Z.of_nat (length payload)) <> Z.of_nat (length payload) + 4.
Proof.
  intros Hlen Hbuf Hsize.
  eexists. split; [apply protocol_create_message_success; assumption|].
  split.
  - assert (Hfl : length (frame_bytes payload) = (length payload + 4)%nat)
      by (unfold frame_bytes; simpl; rewrite length_app; simpl; lia).
    rewrite <- Hfl. apply take_app_length.
  - unfold u8.
    destruct (Z_lt_le_dec (5 + Z.of_nat (length payload)) 256) as [Hs|Hs].
    + rewrite Z.mod_small by lia. lia.
    + replace (5 + Z.of_nat (length payload))
        with (5 + Z.of_nat (length payload) - 256 + 1 * 256) by lia.
      rewrite Z_mod_plus_full, Z.mod_small by lia. lia.
Qed.

(** Up to 250 bytes of payload the reported frame is the frame followed by
    at most one stale byte of the buffer, which the parser ignores or
    takes for a start marker: the reported frame still gives exactly one
    [PROTOCOL_SUCCESS] and no [PROTOCOL_ERROR]. *)
Lemma reported_frame_roundtrip_up_to_250 (payload buf : list Z) (size : Z) :
  (1 <= length payload <= 250)%nat ->
  (length payload + 4 <= length buf)%nat ->
  5 + Z.of_nat (length payload) <= size ->
  exists out,
    protocol_create_message (Some payload) (Z.of_nat (length payload))
                            (Some buf) (Some size) = Some out
    /\ out.1.1 = PROTOCOL_SUCCESS
    /\ count_code PROTOCOL_SUCCESS (outcomes handler_init (reported_frame out))
       = 1%nat
    /\ count_code PROTOCOL_ERROR (outcomes handler_init (reported_frame out))
       = 0%nat.
Proof.
  intros Hlen Hbuf Hsize.
  assert (Hu : u8 (5 + Z.of_nat (length payload))
               = 5 + Z.of_nat (length payload))
    by (apply u8_small; unfold is_u8; lia).
  eexists. split;
    [apply protocol_create_message_success; [lia | assumption | lia]|].
  split; [reflexivity|].
  assert (Hfl : length (frame_bytes payload) = (length payload + 4)%nat)
    by (unfold frame_bytes; simpl; rewrite length_app; simpl; lia).
  unfold reported_frame. rewrite Hu.
  replace (Z.to_nat (5 + Z.of_nat (length payload)))
    with (length (frame_bytes payload) + 1)%nat by lia.
  rewrite take_app_add.
  destruct (feed_frame payload handler_init eq_refl eq_refl)
    as (Ho & Hs & Ht & _);
    [lia | change (length (dados handler_init)) with 256%nat; lia|].
  rewrite outcomes_app, Ho, !count_code_app.
  rewrite !count_code_replicate_ne by discriminate.
  set (h := feed handler_init (frame_bytes payload)) in *.
  destruct (drop (length payload + 4) buf) as [|x tl]; [split; reflexivity|].
  simpl take. cbn [outcomes].
  rewrite (waiting_for_start_returns_waiting h x Ht Hs).
  split; reflexivity.
Qed.

(** At 251 bytes of payload, a buffer of 255 bytes declared as such: the
    call succeeds and lays out the 255 bytes of the frame, but the size it
    reports is [(5 + 251) mod 256 = 0], so the reported frame is empty and
    gives the parser nothing. *)
Example reported_frame_at_251_bytes :
  protocol_create_message (Some (replicate 251 1)) 251
                          (Some (replicate 255 0)) (Some 255)
  = Some (PROTOCOL_SUCCESS, Some (frame_bytes (replicate 251 1)), Some 0)
  /\ reported_frame
       (PROTOCOL_SUCCESS, Some (frame_bytes (replicate 251 1)), Some 0) = []
  /\ count_code PROTOCOL_SUCCESS
       (outcomes handler_init
          (reported_frame
             (PROTOCOL_SUCCESS, Some (frame_bytes (replicate 251 1)), Some 0)))
     = 0%nat.
Proof. repeat split; vm_compute; reflexivity. Qed.

(** C2, at the payload [AA BB CC] encoded into a buffer of 10 bytes: the
    call lays out the 7 bytes of the frame and reports a size of 8. *)
Theorem reported_size_of_three_byte_payload :
  protocol_create_message (Some [170; 187; 204]) 3
                          (Some (replicate 10 0)) (Some 10)
  = Some (PROTOCOL_SUCCESS,
          Some (frame_bytes [170; 187; 204] ++ [0; 0; 0]),
          Some 8)
  /\ length (frame_bytes [170; 187; 204]) = 7%nat.
Proof. split; vm_compute; reflexivity. Qed.

(** *** The tests of the source file, run on the model *)

Example test_receive_valid_message :
  outcomes handler_init [2; 2; 16; 32; 48; 3]
  = [PROTOCOL_WAITING; PROTOCOL_WAITING; PROTOCOL_WAITING; PROTOCOL_WAITING;
     PROTOCOL_WAITING; PROTOCOL_SUCCESS]
  /\ protocol_message_ready
       (Some (feed handler_init [2; 2; 16; 32; 48; 3])) = true
  /\ protocol_get_data_count
       (Some (feed handler_init [2; 2; 16; 32; 48; 3])) = 2
  /\ take 2 (dados (feed handler_init [2; 2; 16; 32; 48; 3])) = [16; 32].
Proof. repeat split. Qed.

Example test_invalid_checksum :
  outcomes handler_init [2; 2; 16; 32; 255; 3] !! 5%nat = Some PROTOCOL_ERROR
  /\ protocol_message_ready
       (Some (feed handler_init [2; 2; 16; 32; 255; 3])) = false.
Proof. repeat split. Qed.

Example test_state_transitions :
  map (fun l => current_state (feed handler_init l))
      [[]; [2]; [2; 1]; [2; 1; 66]; [2; 1; 66; 66]; [2; 1; 66; 66; 3]]
  = [ST_STX; ST_QTD; ST_DATA; ST_CHK; ST_ETX; ST_STX].
Proof. reflexivity. Qed.

End Parser.

(** ** The timer *)

Section Protothreads.
Import PT.

Local Arguments timer_expired : simpl never.
Local Arguments protocol_create_message : simpl never.
Local Arguments memcpy : simpl never.
Local Arguments u8 : simpl never.
Local Arguments u32 : simpl never.
Local Arguments frame_bytes : simpl never.
Local Arguments Z.ltb : simpl never.
Local Arguments Z.eqb : simpl never.
Local Arguments Z.add : simpl never.


(** C9.  A timer that is not armed, because it was never set or because
    [timer_stop] stopped it, has not expired, whatever the clock shows and
    however far the clock is then advanced. *)
Theorem unarmed_timer_never_expires
    (start timeout : Z) (timer : timer_t) (w : world) (ms : Z) :
  timer_expired (system_time_ms w) (mkTimer start timeout false) = false
  /\ timer_expired (system_time_ms (advance_time ms w))
                   (mkTimer start timeout false) = false
  /\ timer_expired (system_time_ms w) (timer_stop timer) = false
  /\ timer_expired (system_time_ms (advance_time ms w)) (timer_stop timer)
     = false.
Proof. repeat split. Qed.

Example test_timer_functionality :
  let w0 := set_time 0 world_zero in
  let timer := timer_set (system_time_ms w0) (mkTimer 0 0 false) 100 in
  timer_expired (system_time_ms w0) timer = false
  /\ timer_expired (system_time_ms (advance_time 50 w0)) timer = false
  /\ timer_expired (system_time_ms (advance_time 60 (advance_time 50 w0)))
                   timer = true.
Proof. repeat split. Qed.

(** A timer that was just set has not expired. *)
Lemma timer_set_not_expired (now : Z) (timer : timer_t) :
  timer_expired now (timer_set now timer TIMEOUT_MS) = false.
Proof.
  unfold timer_expired, timer_set. simpl. rewrite Z.sub_diag. reflexivity.
Qed.

(** ** The transmitter *)

Lemma protocol_create_message_too_small (payload buf : list Z) (size : Z) :
  (1 <= length payload <= 255)%nat ->
  size < u8 (5 + Z.of_nat (length payload)) ->
  protocol_create_message (Some payload) (Z.of_nat (length payload))
                          (Some buf) (Some size)
  = Some (PROTOCOL_ERROR, Some buf, Some size).
Proof.
  intros Hlen Hsize. unfold protocol_create_message.
  replace (Z.of_nat (length payload) =? 0) with false
    by (symmetry; apply Z.eqb_neq; lia).
  rewrite protocol_calculate_checksum_spec. cbn [mbind option_bind].
  replace (size <? u8 (5 + Z.of_nat (length payload))) with true
    by (symmetry; apply Z.ltb_lt; exact Hsize).
  reflexivity.
Qed.

(** *** The blocks of the transmitter, one at a time

    [tx_buffer], [tx_size], [rx_state] and the static [incoming_byte] are
    never touched by the transmitter. *)

Section TransmitterBlocks.

Variables (txb : list Z) (txs : Z) (rx : receiver_state_t) (ib : Z).

(** The state with the parts the transmitter works on spelled out. *)
Local Abbreviation W now rxb rxs rxp txr rxr ackr ackv loss t av tr :=
  (mkWorld now (mkChannel txb rxb txs rxs rxp txr rxr ackr ackv loss) t rx av
           ib tr).

Lemma tx_begin_builds now rxb rxs rxp txr rxr ackr ackv loss pt tm data mb ms
      rc tc res av tr :
  (1 <= length data <= 5)%nat -> (length data + 4 <= length mb)%nat ->
  tx_block TX_BEGIN
    (W now rxb rxs rxp txr rxr ackr ackv loss
       (mkTx pt tm (Some data) (Z.of_nat (length data)) mb ms rc tc res)
       av tr)
  = Goto TX_WHILE
      (W now rxb rxs rxp txr rxr ackr ackv loss
         (mkTx pt tm (Some data) (Z.of_nat (length data))
               (frame_bytes data ++ drop (length data + 4) mb)
               (5 + Z.of_nat (length data)) 0 false PROTOCOL_SUCCESS)
         av tr).
Proof.
  intros Hlen Hmb.
  assert (Hu : u8 (5 + Z.of_nat (length data)) = 5 + Z.of_nat (length data))
    by (apply u8_small; unfold is_u8; lia).
  unfold tx_block. cbn. change sizeof_message_buffer_u8 with 10.
  rewrite protocol_create_message_success by (rewrite ?Hu; lia).
  cbn. rewrite !Hu, Z.eqb_refl. reflexivity.
Qed.

Lemma tx_begin_refused now rxb rxs rxp txr rxr ackr ackv loss pt tm data mb ms
      rc tc res av tr :
  (6 <= length data <= 250)%nat ->
  tx_block TX_BEGIN
    (W now rxb rxs rxp txr rxr ackr ackv loss
       (mkTx pt tm (Some data) (Z.of_nat (length data)) mb ms rc tc res)
       av tr)
  = Return PT_EXITED
      (W now rxb rxs rxp txr rxr ackr ackv loss
         (mkTx PT_INIT tm (Some data) (Z.of_nat (length data)) mb 10 0 false
               PROTOCOL_ERROR)
         av tr).
Proof.
  intros Hlen. unfold tx_block. cbn.
  change sizeof_message_buffer_u8 with 10.
  rewrite protocol_create_message_too_small;
    [|lia|rewrite u8_small by (unfold is_u8; lia); lia].
  reflexivity.
Qed.

Lemma tx_while_sends now rxb rxs rxp txr rxr ackr ackv loss pt tm dat dsz mb ms
      rc tc res av tr :
  rc < MAX_RETRIES ->
  (Z.to_nat ms <= length mb)%nat ->
  loss = true \/ (Z.to_nat ms <= length rxb)%nat ->
  tx_block TX_WHILE
    (W now rxb rxs rxp txr rxr ackr ackv loss
       (mkTx pt tm dat dsz mb ms rc tc res) av tr)
  = Goto TX_WAIT
      (W now
         (if loss then rxb
          else take 0 rxb ++ take (Z.to_nat ms) mb
                 ++ drop (0 + Z.to_nat ms) rxb)
         (if loss then rxs else ms) (if loss then rxp else 0) false
         (if loss then rxr else true) ackr ackv loss
         (mkTx (mkPt LC_TX_WAIT) (mkTimer now TIMEOUT_MS true) dat dsz mb ms
               rc tc res)
         av (tr ++ [EvSend (take (Z.to_nat ms) mb)])).
Proof.
  intros Hrc Hmb Hrxb. unfold tx_block. cbn.
  replace (rc <? MAX_RETRIES) with true by (symmetry; apply Z.ltb_lt; exact Hrc).
  destruct loss.
  - reflexivity.
  - destruct Hrxb as [Hl|Hrxb]; [discriminate|].
    cbn. rewrite memcpy_Some by lia. reflexivity.
Qed.

Lemma tx_while_gives_up now rxb rxs rxp txr rxr ackr ackv loss pt tm dat dsz
      mb ms rc tc res av tr :
  MAX_RETRIES <= rc ->
  tx_block TX_WHILE
    (W now rxb rxs rxp txr rxr ackr ackv loss
       (mkTx pt tm dat dsz mb ms rc tc res) av tr)
  = Return PT_ENDED
      (W now rxb rxs rxp txr rxr ackr ackv loss
         (mkTx (mkPt 0) tm dat dsz mb ms rc true PROTOCOL_TIMEOUT) av tr).
Proof.
  intros Hrc. unfold tx_block. cbn.
  replace (rc <? MAX_RETRIES) with false
    by (symmetry; apply Z.ltb_ge; exact Hrc).
  reflexivity.
Qed.

Lemma tx_wait_idle now rxb rxs rxp txr rxr ackv loss t av tr :
  timer_expired now (timer t) = false ->
  tx_block TX_WAIT (W now rxb rxs rxp txr rxr false ackv loss t av tr)
  = Return PT_WAITING (W now rxb rxs rxp txr rxr false ackv loss t av tr).
Proof. intros Hexp. unfold tx_block. cbn. rewrite Hexp. reflexivity. Qed.

Lemma tx_wait_expired now rxb rxs rxp txr rxr ackr ackv loss pt tm dat dsz mb
      ms rc tc res av tr :
  timer_expired now tm = true ->
  tx_block TX_WAIT
    (W now rxb rxs rxp txr rxr ackr ackv loss
       (mkTx pt tm dat dsz mb ms rc tc res) av tr)
  = Goto TX_WHILE
      (W now rxb rxs rxp txr rxr false ackv loss
         (mkTx pt tm dat dsz mb ms (u8 (rc + 1)) tc res)
         (if ackr then ackv else av) tr).
Proof.
  intros Hexp. unfold tx_block. destruct ackr; cbn; rewrite Hexp;
    reflexivity.
Qed.

Lemma tx_wait_acknowledged now rxb rxs rxp txr rxr ackv loss pt tm dat dsz mb
      ms rc tc res av tr :
  timer_expired now tm = false ->
  tx_block TX_WAIT
    (W now rxb rxs rxp txr rxr true ackv loss
       (mkTx pt tm dat dsz mb ms rc tc res) av tr)
  = if ackv =? ACK_BYTE then
      Return PT_EXITED
        (W now rxb rxs rxp txr rxr false ackv loss
           (mkTx PT_INIT tm dat dsz mb ms rc true PROTOCOL_SUCCESS) ackv tr)
    else
      Goto TX_WHILE
        (W now rxb rxs rxp txr rxr false ackv loss
           (mkTx pt tm dat dsz mb ms
                 (if ackv =? NACK_BYTE then u8 (rc + 1) else rc) tc res)
           ackv tr).
Proof.
  intros Hexp. unfold tx_block. cbn. rewrite Hexp. cbn.
  destruct (ackv =? ACK_BYTE); [reflexivity|].
  destruct (ackv =? NACK_BYTE); reflexivity.
Qed.

(** *** Whole turns of the transmitter *)

(** A turn that finds the timer expired counts a retry, whether or not an
    acknowledgment is waiting; the acknowledgment, if any, is consumed. *)
Lemma tx_timeout_turn now rxb rxs rxp txr rxr ackr ackv loss tm dat dsz mb ms
      rc tc res av tr (fuel : nat) :
  (3 <= fuel)%nat ->
  timer_expired now tm = true ->
  0 <= rc < MAX_RETRIES ->
  (Z.to_nat ms <= length mb)%nat ->
  loss = true \/ (Z.to_nat ms <= length rxb)%nat ->
  transmitter_thread fuel
    (W now rxb rxs rxp txr rxr ackr ackv loss
       (mkTx (mkPt LC_TX_WAIT) tm dat dsz mb ms rc tc res) av tr)
  = if rc + 1 <? MAX_RETRIES then
      Returns PT_WAITING
        (W now
           (if loss then rxb
            else take 0 rxb ++ take (Z.to_nat ms) mb
                   ++ drop (0 + Z.to_nat ms) rxb)
           (if loss then rxs else ms) (if loss then rxp else 0) false
           (if loss then rxr else true) false ackv loss
           (mkTx (mkPt LC_TX_WAIT) (mkTimer now TIMEOUT_MS true) dat dsz mb ms
                 (rc + 1) tc res)
           (if ackr then ackv else av)
           (tr ++ [EvSend (take (Z.to_nat ms) mb)]))
    else
      Returns PT_ENDED
        (W now rxb rxs rxp txr rxr false ackv loss
           (mkTx (mkPt 0) tm dat dsz mb ms (rc + 1) true PROTOCOL_TIMEOUT)
           (if ackr then ackv else av) tr).
Proof.
  intros Hfuel Hexp Hrc Hmb Hrxb.
  destruct fuel as [|[|[|fuel]]]; try lia.
  assert (Hu : u8 (rc + 1) = rc + 1)
    by (apply u8_small; unfold is_u8, MAX_RETRIES in *; lia).
  unfold transmitter_thread. cbn [tx_state tx_pt lc].
  change (LC_TX_WAIT =? 0) with false.
  change (LC_TX_WAIT =? LC_TX_WAIT) with true. cbv iota.
  cbn [run_blocks]. rewrite tx_wait_expired by exact Hexp. rewrite Hu.
  destruct (Z.ltb_spec (rc + 1) MAX_RETRIES) as [Hlt|Hge].
  - rewrite tx_while_sends by assumption.
    rewrite tx_wait_idle by apply (timer_set_not_expired now tm).
    reflexivity.
  - rewrite tx_while_gives_up by exact Hge. reflexivity.
Qed.

(** The first turn over a channel that drops every transmission and
    carries no acknowledgment. *)
Lemma tx_first_turn_lossy now rxb rxs rxp txr rxr ackv pt tm data mb ms rc tc
      res av tr (fuel : nat) (stale : Z) (tl : list Z) :
  (3 <= fuel)%nat -> lc pt = 0 -> (1 <= length data <= 5)%nat ->
  drop (length data + 4) mb = stale :: tl ->
  transmitter_thread fuel
    (W now rxb rxs rxp txr rxr false ackv true
       (mkTx pt tm (Some data) (Z.of_nat (length data)) mb ms rc tc res)
       av tr)
  = Returns PT_WAITING
      (W now rxb rxs rxp false rxr false ackv true
         (mkTx (mkPt LC_TX_WAIT) (mkTimer now TIMEOUT_MS true) (Some data)
               (Z.of_nat (length data)) (frame_bytes data ++ stale :: tl)
               (5 + Z.of_nat (length data)) 0 false PROTOCOL_SUCCESS)
         av (tr ++ [EvSend (frame_bytes data ++ [stale])])).
Proof.
  intros Hfuel Hlc Hlen Hst.
  destruct fuel as [|[|[|fuel]]]; try lia.
  assert (Hmb : (length data + 4 < length mb)%nat).
  { apply (f_equal length) in Hst. rewrite length_drop in Hst.
    simpl in Hst. lia. }
  assert (Hfl : length (frame_bytes data) = (length data + 4)%nat)
    by (unfold frame_bytes; simpl; rewrite length_app; simpl; lia).
  assert (Htake : take (Z.to_nat (5 + Z.of_nat (length data)))
                    (frame_bytes data ++ stale :: tl)
                  = frame_bytes data ++ [stale]).
  { replace (Z.to_nat (5 + Z.of_nat (length data)))
      with (length (frame_bytes data) + 1)%nat by lia.
    rewrite take_app_add. reflexivity. }
  unfold transmitter_thread. cbn [tx_state tx_pt]. rewrite Hlc.
  change (0 =? 0) with true. cbv iota.
  cbn [run_blocks]. rewrite tx_begin_builds by lia. rewrite Hst.
  rewrite tx_while_sends;
    [|unfold MAX_RETRIES; lia
     |rewrite length_app, Hfl; simpl; lia
     |left; reflexivity].
  rewrite tx_wait_idle by apply (timer_set_not_expired now tm).
  rewrite Htake. reflexivity.
Qed.

End TransmitterBlocks.

(** *** An acknowledgment and a timeout in the same turn *)

(** C4, amended.  For every sender in [AwaitingAck], if in one scheduling
    turn an acknowledgment is waiting on the channel and the retry timer
    has expired, the sender takes the timeout path: the acknowledgment is
    consumed and dropped and the retry counter goes up by one; with
    retries left the frame is sent again and the sender keeps waiting,
    otherwise it ends with [PROTOCOL_TIMEOUT]. *)
Theorem timeout_wins_over_ack (w : world) (fuel : nat) :
  (3 <= fuel)%nat ->
  awaiting_ack w -> can_send w ->
  ack_received (channel w) = true ->
  timer_expired (system_time_ms w) (timer (tx_state w)) = true ->
  exists w',
    transmitter_thread fuel w
    = Returns (if retry_count (tx_state w) + 1 <? MAX_RETRIES
               then PT_WAITING else PT_ENDED) w'
    /\ retry_count (tx_state w') = retry_count (tx_state w) + 1
    /\ ack_received (channel w') = false
    /\ (retry_count (tx_state w) + 1 < MAX_RETRIES ->
        transmission_complete (tx_state w') = false
        /\ trace w'
           = trace w ++ [EvSend (take (Z.to_nat (message_size (tx_state w)))
                                      (message_buffer (tx_state w)))])
    /\ (MAX_RETRIES <= retry_count (tx_state w) + 1 ->
        transmission_complete (tx_state w') = true
        /\ tx_result (tx_state w') = PROTOCOL_TIMEOUT
        /\ trace w' = trace w).
Proof.
  intros Hfuel (Hlc & Hcomplete & Hretry) (Hs1 & Hs2) Hack Hexp.
  destruct w as [now c tx rx av ib tr].
  destruct c as [txb rxb txs rxs rxp txr rxr ackr ackv loss].
  destruct tx as [[l] tm dat dsz mb ms rc tc res].
  cbn in Hlc, Hcomplete, Hretry, Hs1, Hs2, Hack, Hexp. subst ackr tc l.
  cbn [tx_state retry_count message_size message_buffer trace].
  rewrite tx_timeout_turn by (try assumption; right; assumption).
  destruct (Z.ltb_spec (rc + 1) MAX_RETRIES) as [Hlt|Hge];
    (eexists; split; [reflexivity|]);
    cbn [tx_state channel retry_count ack_received transmission_complete
         tx_result trace];
    repeat first [split | intro]; try reflexivity; lia.
Qed.


(** Closed goals about a concrete state are settled by evaluation. *)
Ltac by_evaluation :=
  vm_compute; repeat split; try reflexivity; try (intro; discriminate).

Lemma timeout_wins_over_ack_witness :
  ack_value (channel world_ack_and_timeout) = ACK_BYTE
  /\ exists w',
       transmitter_thread 5 world_ack_and_timeout = Returns PT_WAITING w'
       /\ retry_count (tx_state w') = 1
       /\ ack_received (channel w') = false
       /\ transmission_complete (tx_state w') = false.
Proof.
  split; [reflexivity|].
  destruct (timeout_wins_over_ack world_ack_and_timeout 5) as (w' & H).
  - lia.
  - by_evaluation.
  - unfold can_send. vm_compute. lia.
  - reflexivity.
  - reflexivity.
  - exists w'. destruct H as (Hr & Hc & Ha & Hlt & _).
    split; [exact Hr|]. split; [exact Hc|]. split; [exact Ha|].
    apply Hlt. vm_compute. reflexivity.
Defined.

(** C4, as stated, fails: in [world_ack_and_timeout] a positive
    acknowledgment is waiting and the timer has expired; the transmitter
    discards the acknowledgment, counts a retry and sends the frame
    again. *)
Lemma ack_and_timeout_together_retry :
  awaiting_ack world_ack_and_timeout
  /\ ack_received (channel world_ack_and_timeout) = true
  /\ ack_value (channel world_ack_and_timeout) = ACK_BYTE
  /\ timer_expired (system_time_ms world_ack_and_timeout)
                   (timer (tx_state world_ack_and_timeout)) = true
  /\ exists w',
       transmitter_thread 5 world_ack_and_timeout = Returns PT_WAITING w'
       /\ transmission_complete (tx_state w') = false
       /\ retry_count (tx_state w') = 1
       /\ sends (trace w')
          = [frame_bytes [170; 187; 204] ++ [0];
             frame_bytes [170; 187; 204] ++ [0]].
Proof.
  split; [by_evaluation|].
  do 3 (split; [reflexivity|]).
  eexists. split; [vm_compute; reflexivity|]. repeat split.
Qed.

(** *** A sender that has finished *)

(** C5, as stated, fails: in [world_succeeded] the transmission is
    complete with result [PROTOCOL_SUCCESS]; the next call of the
    transmitter clears the flag and sends the frame again. *)
Lemma finished_sender_sends_again :
  terminal world_succeeded
  /\ tx_result (tx_state world_succeeded) = PROTOCOL_SUCCESS
  /\ exists w',
       transmitter_thread 5 world_succeeded = Returns PT_WAITING w'
       /\ transmission_complete (tx_state w') = false
       /\ sends (trace w')
          = sends (trace world_succeeded)
            ++ [frame_bytes [170; 187; 204] ++ [0]].
Proof.
  split; [by_evaluation|]. split; [reflexivity|].
  eexists. split; [vm_compute; reflexivity|]. repeat split.
Qed.

(** C5, amended.  For every sender that has reached a terminal state
    ([transmission_complete] true, the thread exited or ended) with a
    payload of 1 to 5 bytes, the next scheduling turn is not a no-op: the
    thread starts again from its beginning, rebuilds the message and
    transmits it.  When no acknowledgment is waiting on the channel it
    then waits for one, with the retry counter at 0 and
    [transmission_complete] false. *)
Theorem finished_sender_restarts (w : world) (data : list Z) (fuel : nat) :
  (5 <= fuel)%nat ->
  terminal w -> arrays_ok w ->
  data_to_send (tx_state w) = Some data ->
  data_size (tx_state w) = Z.of_nat (length data) ->
  (1 <= length data <= 5)%nat ->
  exists code w' stale more,
    transmitter_thread fuel w = Returns code w'
    /\ trace w' = trace w ++ EvSend (frame_bytes data ++ [stale]) :: more
    /\ take (length data + 4) (message_buffer (tx_state w'))
       = frame_bytes data
    /\ (ack_received (channel w) = false ->
        code = PT_WAITING
        /\ transmission_complete (tx_state w') = false
        /\ retry_count (tx_state w') = 0
        /\ more = []).
Proof.
  intros Hfuel (Hlc & Hcomplete) (Hmb & Hrxb & _) Hdata Hsize Hlen.
  destruct fuel as [|[|[|[|[|fuel]]]]]; try lia.
  destruct w as [now c tx rx av ib tr].
  destruct c as [txb rxb txs rxs rxp txr rxr ackr ackv loss].
  destruct tx as [pt tm dat dsz mb ms rc tc res].
  cbn in Hlc, Hcomplete, Hmb, Hrxb, Hdata, Hsize. subst tc dat dsz.
  change (Z.to_nat (MAX_DATA_SIZE + 10)) with 266%nat in Hmb, Hrxb.
  assert (Hfl : length (frame_bytes data) = (length data + 4)%nat)
    by (unfold frame_bytes; simpl; rewrite length_app; simpl; lia).
  assert (Hst : exists stale tl, drop (length data + 4) mb = stale :: tl).
  { destruct (drop (length data + 4) mb) as [|stale tl] eqn:E; [|eauto].
    apply (f_equal length) in E. rewrite length_drop in E. simpl in E. lia. }
  destruct Hst as (stale & tl & Hst).
  assert (Htl : length tl = (261 - length data)%nat).
  { apply (f_equal length) in Hst. rewrite length_drop in Hst.
    simpl in Hst. lia. }
  assert (Htake : take (Z.to_nat (5 + Z.of_nat (length data)))
                    (frame_bytes data ++ stale :: tl)
                  = frame_bytes data ++ [stale]).
  { replace (Z.to_nat (5 + Z.of_nat (length data)))
      with (length (frame_bytes data) + 1)%nat by lia.
    rewrite take_app_add. reflexivity. }
  assert (Hframe : take (length data + 4) (frame_bytes data ++ stale :: tl)
                   = frame_bytes data)
    by (rewrite <- Hfl; apply take_app_length).
  assert (Hroom : (Z.to_nat (5 + Z.of_nat (length data))
                   <= length (frame_bytes data ++ stale :: tl))%nat)
    by (rewrite length_app, Hfl; simpl; lia).
  unfold transmitter_thread. cbn [tx_state tx_pt trace channel ack_received].
  rewrite Hlc. change (0 =? 0) with true. cbv iota.
  cbn [run_blocks]. rewrite tx_begin_builds by lia. rewrite Hst.
  rewrite tx_while_sends;
    [|unfold MAX_RETRIES; lia | exact Hroom | right; lia].
  rewrite Htake.
  destruct ackr.
  - rewrite tx_wait_acknowledged by apply (timer_set_not_expired now tm).
    destruct (ackv =? ACK_BYTE).
    + eexists _, _, stale, _. split; [reflexivity|].
      cbn [trace tx_state message_buffer].
      split; [reflexivity|]. split; [exact Hframe|]. discriminate.
    + rewrite tx_while_sends;
        [|destruct (ackv =? NACK_BYTE); unfold MAX_RETRIES;
          rewrite ?u8_small by (unfold is_u8; lia); lia
         |exact Hroom
         |destruct loss; [left; reflexivity | right];
          rewrite !length_app, length_drop; simpl; lia].
      rewrite tx_wait_idle
        by apply (timer_set_not_expired now (mkTimer now TIMEOUT_MS true)).
      eexists _, _, stale, _. split; [reflexivity|].
      cbn [trace tx_state message_buffer].
      split; [rewrite <- app_assoc; reflexivity|].
      split; [exact Hframe|]. discriminate.
  - rewrite tx_wait_idle by apply (timer_set_not_expired now tm).
    eexists _, _, stale, _. split; [reflexivity|].
    cbn [trace tx_state message_buffer transmission_complete retry_count].
    split; [reflexivity|]. split; [exact Hframe|]. intros _.
    repeat split.
Qed.


Lemma finished_sender_restarts_witness :
  exists code w' stale more,
    transmitter_thread 5 world_succeeded = Returns code w'
    /\ trace w'
       = trace world_succeeded
         ++ EvSend (frame_bytes [170; 187; 204] ++ [stale]) :: more
    /\ take (length [170; 187; 204] + 4) (message_buffer (tx_state w'))
       = frame_bytes [170; 187; 204]
    /\ (ack_received (channel world_succeeded) = false ->
        code = PT_WAITING
        /\ transmission_complete (tx_state w') = false
        /\ retry_count (tx_state w') = 0
        /\ more = []).
Proof.
  apply (finished_sender_restarts world_succeeded [170; 187; 204] 5);
    [lia | by_evaluation | by_evaluation | reflexivity | reflexivity
    | simpl; lia].
Defined.

(** *** A channel that drops every transmission *)

(** With a payload of 6 to 250 bytes the transmitter never gets to send:
    the size it declares for [message_buffer] is [(uint8_t)266 = 10], the
    encoder wants [5 + qtd] bytes and refuses, and the thread exits with
    [PROTOCOL_ERROR], not complete, ready to start again. *)
Lemma oversized_payload_turn (w : world) (data : list Z) (fuel : nat) :
  (1 <= fuel)%nat ->
  lc (tx_pt (tx_state w)) = 0 ->
  data_to_send (tx_state w) = Some data ->
  data_size (tx_state w) = Z.of_nat (length data) ->
  (6 <= length data <= 250)%nat ->
  transmitter_thread fuel w
  = Returns PT_EXITED
      (set_tx (mkTx PT_INIT (timer (tx_state w)) (Some data)
                    (Z.of_nat (length data)) (message_buffer (tx_state w))
                    10 0 false PROTOCOL_ERROR) w).
Proof.
  intros Hfuel Hlc Hdata Hsize Hlen.
  destruct fuel as [|fuel]; [lia|].
  unfold transmitter_thread. rewrite Hlc. change (0 =? 0) with true.
  cbv iota.
  destruct w as [now c tx rx av ib tr].
  destruct c as [txb rxb txs rxs rxp txr rxr ackr ackv loss].
  destruct tx as [pt tm dat dsz mb ms rc tc res].
  cbn in Hlc, Hdata, Hsize. subst dat dsz.
  cbn [run_blocks]. rewrite tx_begin_refused by exact Hlen. reflexivity.
Qed.

Lemma oversized_payload_drive (data : list Z) (fuel : nat) (deltas : list Z) :
  (1 <= fuel)%nat -> (6 <= length data <= 250)%nat ->
  forall w : world,
    lc (tx_pt (tx_state w)) = 0 ->
    data_to_send (tx_state w) = Some data ->
    data_size (tx_state w) = Z.of_nat (length data) ->
    exists w',
      drive_transmitter fuel deltas w
      = Some (replicate (length deltas) PT_EXITED, w')
      /\ trace w' = trace w
      /\ (deltas = []
          \/ (transmission_complete (tx_state w') = false
              /\ retry_count (tx_state w') = 0
              /\ tx_result (tx_state w') = PROTOCOL_ERROR)).
Proof.
  intros Hfuel Hlen.
  induction deltas as [|ms deltas IH]; intros w Hlc Hdata Hsize.
  - exists w. repeat split. left. reflexivity.
  - cbn [drive_transmitter].
    rewrite (oversized_payload_turn w data fuel Hfuel Hlc Hdata Hsize Hlen).
    match goal with
    | |- context [drive_transmitter fuel deltas ?w1] =>
        destruct (IH w1) as (w' & Hd & Ht & Hr); [reflexivity ..|]
    end.
    exists w'. rewrite Hd. split; [reflexivity|]. split; [exact Ht|].
    right. destruct Hr as [->|Hr]; [|exact Hr].
    cbn in Hd. injection Hd as <-. repeat split.
Qed.

(** C3, at the payload [01 02 03 04 05 06] over a channel that drops
    every transmission: whatever the clock does between the turns, every
    turn of the transmitter exits at once; nothing is ever sent, the
    retry counter stays at 0, the result is [PROTOCOL_ERROR], not
    [PROTOCOL_TIMEOUT], and [transmission_complete] stays false. *)
Theorem six_byte_payload_never_times_out (ms : Z) (deltas : list Z) :
  exists w',
    drive_transmitter 5 (ms :: deltas)
      (set_simulate_loss true (submitted [1; 2; 3; 4; 5; 6]))
    = Some (replicate (S (length deltas)) PT_EXITED, w')
    /\ trace w' = []
    /\ retry_count (tx_state w') = 0
    /\ tx_result (tx_state w') = PROTOCOL_ERROR
    /\ transmission_complete (tx_state w') = false.
Proof.
  destruct (oversized_payload_drive [1; 2; 3; 4; 5; 6] 5 (ms :: deltas))
    with (w := set_simulate_loss true (submitted [1; 2; 3; 4; 5; 6]))
    as (w' & Hd & Ht & Hr);
    [lia | simpl; lia | reflexivity | reflexivity | reflexivity |].
  exists w'. split; [exact Hd|]. split; [exact Ht|].
  destruct Hr as [Hnil|(Hc & Hr & Hres)]; [discriminate|]. auto.
Qed.

(** Once the clock has advanced by at least the timeout, a timer that was
    set has expired. *)
Lemma timer_set_expired_after (now ms : Z) (timer : timer_t) :
  TIMEOUT_MS <= ms < 4294967296 ->
  timer_expired (u32 (now + ms)) (timer_set now timer TIMEOUT_MS) = true.
Proof.
  intros Hms. unfold timer_expired, timer_set.
  cbn [active negb timeout_ms start_time].
  unfold u32. rewrite Zminus_mod_idemp_l.
  replace (now + ms - now) with ms by lia.
  rewrite Z.mod_small by (unfold TIMEOUT_MS in Hms; lia).
  apply Z.leb_le. lia.
Qed.

(** With a payload of 1 to 5 bytes, a channel that drops every
    transmission and a clock that passes the timeout between two turns,
    the transmitter sends the frame three times, counts three retries and
    ends with [PROTOCOL_TIMEOUT] and [transmission_complete] set; the
    turn that counts the third retry sends nothing. *)
Lemma small_payload_times_out (w : world) (data : list Z) (fuel : nat)
    (d1 d2 d3 d4 : Z) :
  (3 <= fuel)%nat ->
  lc (tx_pt (tx_state w)) = 0 -> arrays_ok w ->
  data_to_send (tx_state w) = Some data ->
  data_size (tx_state w) = Z.of_nat (length data) ->
  (1 <= length data <= 5)%nat ->
  simulate_loss (channel w) = true ->
  ack_received (channel w) = false ->
  TIMEOUT_MS <= d1 < 4294967296 ->
  TIMEOUT_MS <= d2 < 4294967296 ->
  TIMEOUT_MS <= d3 < 4294967296 ->
  exists w' stale,
    drive_transmitter fuel [d1; d2; d3; d4] w
    = Some ([PT_WAITING; PT_WAITING; PT_WAITING; PT_ENDED], w')
    /\ transmission_complete (tx_state w') = true
    /\ tx_result (tx_state w') = PROTOCOL_TIMEOUT
    /\ retry_count (tx_state w') = MAX_RETRIES
    /\ trace w'
       = trace w ++ [EvSend (frame_bytes data ++ [stale]);
                     EvSend (frame_bytes data ++ [stale]);
                     EvSend (frame_bytes data ++ [stale])].
Proof.
  intros Hfuel Hlc (Hmb & _) Hdata Hsize Hlen Hloss Hack H1 H2 H3.
  destruct w as [now c tx rx av ib tr].
  destruct c as [txb rxb txs rxs rxp txr rxr ackr ackv loss].
  destruct tx as [pt tm dat dsz mb ms rc tc res].
  cbn in Hlc, Hmb, Hdata, Hsize, Hloss, Hack. subst dat dsz loss ackr.
  change (Z.to_nat (MAX_DATA_SIZE + 10)) with 266%nat in Hmb.
  assert (Hfl : length (frame_bytes data) = (length data + 4)%nat)
    by (unfold frame_bytes; simpl; rewrite length_app; simpl; lia).
  assert (Hst : exists stale tl, drop (length data + 4) mb = stale :: tl).
  { destruct (drop (length data + 4) mb) as [|stale tl] eqn:E; [|eauto].
    apply (f_equal length) in E. rewrite length_drop in E. simpl in E. lia. }
  destruct Hst as (stale & tl & Hst).
  assert (Htake : take (Z.to_nat (5 + Z.of_nat (length data)))
                    (frame_bytes data ++ stale :: tl)
                  = frame_bytes data ++ [stale]).
  { replace (Z.to_nat (5 + Z.of_nat (length data)))
      with (length (frame_bytes data) + 1)%nat by lia.
    rewrite take_app_add. reflexivity. }
  assert (Hroom : (Z.to_nat (5 + Z.of_nat (length data))
                   <= length (frame_bytes data ++ stale :: tl))%nat)
    by (rewrite length_app, Hfl; simpl; lia).
  cbn [drive_transmitter].
  rewrite (tx_first_turn_lossy _ _ _ _ _ _ _ _ _ _ _ _ _ _ _ _ _ _ _ _ _ _
             stale tl Hfuel Hlc Hlen Hst).
  unfold advance_time, set_time.
  cbn [system_time_ms channel tx_state rx_state tx_ack_value rx_incoming_byte
       trace].
  rewrite tx_timeout_turn;
    [|exact Hfuel | apply (timer_set_expired_after now d1 tm H1)
     |unfold MAX_RETRIES; lia | exact Hroom | left; reflexivity].
  change (0 + 1 <? MAX_RETRIES) with true. cbv iota.
  cbn [system_time_ms channel tx_state rx_state tx_ack_value rx_incoming_byte
       trace].
  rewrite tx_timeout_turn;
    [|exact Hfuel
     |apply (timer_set_expired_after (u32 (now + d1)) d2 tm H2)
     |unfold MAX_RETRIES; lia | exact Hroom | left; reflexivity].
  change (0 + 1 + 1 <? MAX_RETRIES) with true. cbv iota.
  cbn [system_time_ms channel tx_state rx_state tx_ack_value rx_incoming_byte
       trace].
  rewrite tx_timeout_turn;
    [|exact Hfuel
     |apply (timer_set_expired_after (u32 (u32 (now + d1) + d2)) d3 tm H3)
     |unfold MAX_RETRIES; lia | exact Hroom | left; reflexivity].
  change (0 + 1 + 1 + 1 <? MAX_RETRIES) with false. cbv iota.
  eexists _, stale. split; [reflexivity|].
  cbn [tx_state transmission_complete tx_result retry_count trace].
  rewrite Htake, <- !app_assoc. repeat split.
Qed.

(** ** The receiver *)

(** A successful [channel_receive_byte] leaves fewer bytes to deliver. *)
Lemma receive_incoming_spec (w : world) :
  chan_ok (channel w) ->
  (receive_incoming w = (false, w))
  \/ (exists w1,
        receive_incoming w = (true, w1)
        /\ chan_ok (channel w1)
        /\ trace w1 = trace w
        /\ rx_state w1 = rx_state w
        /\ rx_incoming_byte w1
           = default 0 (rx_buffer (channel w) !! Z.to_nat (rx_pos (channel w)))
        /\ rx_ready (channel w) = true
        /\ (remaining (channel w1) < remaining (channel w))%nat).
Proof.
  intros (Hpos & Hsize).
  destruct w as [now c tx rxs av ib tr].
  destruct c as [txb rxb txs rsz rxp txr rxr ackr ackv loss].
  cbn [channel rx_pos rx_size] in Hpos, Hsize.
  unfold receive_incoming, channel_receive_byte, remaining, chan_ok.
  cbn [channel rx_ready rx_pos rx_size rx_buffer].
  destruct rxr; [|left; reflexivity].
  destruct (Z.ltb_spec rxp rsz) as [Hlt|Hge]; [|left; reflexivity].
  right. cbn [andb].
  assert (Hu : u8 (rxp + 1) = rxp + 1) by (apply u8_small; unfold is_u8; lia).
  rewrite Hu. eexists. split; [reflexivity|].
  cbn [channel set_channel set_rx_incoming_byte rx_pos rx_size rx_ready trace
       rx_state rx_incoming_byte].
  repeat split; try lia.
  destruct (Z.leb_spec rsz (rxp + 1)); cbn [andb]; [lia|].
  destruct (Z.ltb_spec (rxp + 1) rsz); lia.
Qed.

Lemma channel_send_ack_spec (ack_type : Z) (w : world) :
  remaining (channel (channel_send_ack ack_type w)) = remaining (channel w)
  /\ (chan_ok (channel w) -> chan_ok (channel (channel_send_ack ack_type w)))
  /\ trace (channel_send_ack ack_type w) = trace w ++ [EvAck ack_type].
Proof.
  split; [reflexivity|].
  split; [intros [? ?]; split; assumption | reflexivity].
Qed.

(** Every block of the receiver either returns or jumps to a program
    point of smaller measure; it only ever adds to the record of channel
    calls, and it performs no undefined access. *)
Lemma rx_block_progress (pc : rx_pc) (w : world) :
  chan_ok (channel w) ->
  match rx_block pc w with
  | Goto pc' w' =>
      chan_ok (channel w')
      /\ (exists ev, trace w' = trace w ++ ev)
      /\ (rx_measure pc' w' < rx_measure pc w)%nat
  | Return _ w' => exists ev, trace w' = trace w ++ ev
  | Undef => False
  end.
Proof.
  intros Hok.
  assert (Hnil : forall l : list event, l = l ++ [])
    by (intros; rewrite app_nil_r; reflexivity).
  unfold rx_measure.
  destruct pc; unfold rx_block;
    try (destruct (receive_incoming_spec w Hok)
          as [->|(w1 & -> & Hok1 & Htr & Hrx & Hib & Hrdy & Hrem)];
         cbn [negb andb]).
  all: repeat match goal with
         | |- context [if ?c then _ else _] => destruct c
         end.
  all: repeat match goal with
         | |- context [channel_send_ack ?k ?w0] =>
             destruct (channel_send_ack_spec k w0) as (Hr & Hc & Ht);
             generalize dependent (channel_send_ack k w0); intros
         end.
  all: cbn [channel trace upd_rx set_rx rx_weight] in *.
  all: try (exists []; apply Hnil).
  all: try (rewrite Htr; exists []; apply Hnil).
  all: try (rewrite Htr; eexists; reflexivity).
  all: try (split; [assumption|]; split;
            [first [exists []; apply Hnil
                   |rewrite Htr; exists []; apply Hnil
                   |rewrite Htr; eexists; reflexivity]|]).
  all: try lia.
  all: try (rewrite Ht, Htr; eexists; reflexivity).
  split; [auto|]. split; [rewrite Ht, Htr; eexists; reflexivity | lia].
Qed.

(** A call of the receiver returns: fuel above the measure is enough, and
    the result does not depend on the fuel. *)
Lemma rx_run_returns (n : nat) :
  forall (pc : rx_pc) (w : world),
    chan_ok (channel w) -> (rx_measure pc w < n)%nat ->
    exists code w' ev,
      (forall fuel, (n <= fuel)%nat ->
                    run_blocks rx_block fuel pc w = Returns code w')
      /\ trace w' = trace w ++ ev.
Proof.
  induction n as [|n IH]; intros pc w Hok Hm; [lia|].
  pose proof (rx_block_progress pc w Hok) as Hp.
  destruct (rx_block pc w) as [pc' w1|code w1|] eqn:Hb; [| |contradiction].
  - destruct Hp as (Hok1 & (ev1 & Ht1) & Hlt).
    destruct (IH pc' w1 Hok1) as (code & w' & ev & Hrun & Ht); [lia|].
    exists code, w', (ev1 ++ ev). split.
    + intros [|fuel] Hf; [lia|]. cbn [run_blocks]. rewrite Hb.
      apply Hrun. lia.
    + rewrite Ht, Ht1, app_assoc. reflexivity.
  - destruct Hp as (ev & Ht). exists code, w1, ev. split; [|exact Ht].
    intros [|fuel] Hf; [lia|]. cbn [run_blocks]. rewrite Hb. reflexivity.
Qed.

Lemma remaining_bound (c : comm_channel_t) :
  chan_ok c -> (remaining c <= 255)%nat.
Proof.
  intros (Hpos & Hsize). unfold remaining.
  destruct (rx_ready c && (rx_pos c <? rx_size c)); lia.
Qed.

(** A call of [channel_receive_byte] that finds a byte: the byte is the
    one at the read position, which moves on by one. *)
Lemma receive_incoming_next (w : world) (b : Z) :
  chan_ok (channel w) ->
  rx_ready (channel w) = true ->
  rx_pos (channel w) < rx_size (channel w) ->
  rx_buffer (channel w) !! Z.to_nat (rx_pos (channel w)) = Some b ->
  exists w1,
    receive_incoming w = (true, w1)
    /\ rx_incoming_byte w1 = b
    /\ trace w1 = trace w
    /\ rx_state w1 = rx_state w
    /\ rx_pos (channel w1) = rx_pos (channel w) + 1
    /\ rx_buffer (channel w1) = rx_buffer (channel w)
    /\ rx_size (channel w1) = rx_size (channel w)
    /\ chan_ok (channel w1)
    /\ (rx_pos (channel w) + 1 < rx_size (channel w) ->
        rx_ready (channel w1) = true).
Proof.
  intros (Hpos & Hsize) Hrdy Hlt Hb.
  destruct w as [now c tx rxs av ib tr].
  destruct c as [txb rxb txs rsz rxp txr rxr ackr ackv loss].
  cbn [channel rx_pos rx_size rx_ready rx_buffer] in *. subst rxr.
  unfold receive_incoming, channel_receive_byte, chan_ok.
  cbn [channel rx_ready rx_pos rx_size rx_buffer].
  replace (rxp <? rsz) with true by (symmetry; apply Z.ltb_lt; exact Hlt).
  cbn [andb]. rewrite Hb. cbn [default].
  assert (Hu : u8 (rxp + 1) = rxp + 1) by (apply u8_small; unfold is_u8; lia).
  rewrite Hu. eexists. split; [reflexivity|].
  cbn [channel set_channel set_rx_incoming_byte rx_pos rx_size rx_ready trace
       rx_state rx_incoming_byte rx_buffer].
  repeat split; try lia.
  intros Hmore.
  replace (rsz <=? rxp + 1) with false by (symmetry; apply Z.leb_gt; lia).
  reflexivity.
Qed.

(** The receiver waits for the length and the next byte on the channel is
    zero: it takes the byte, sends a negative acknowledgment and goes to
    the head of its loop. *)
Lemma rx_zero_length_is_nacked (w : world) :
  chan_ok (channel w) ->
  rx_ready (channel w) = true ->
  rx_pos (channel w) < rx_size (channel w) ->
  rx_buffer (channel w) !! Z.to_nat (rx_pos (channel w)) = Some 0 ->
  exists w1,
    rx_block RX_AT_QTD w = Goto RX_LOOP w1
    /\ trace w1 = trace w ++ [EvAck NACK_BYTE]
    /\ ack_received (channel w1) = true
    /\ ack_value (channel w1) = NACK_BYTE
    /\ rx_pos (channel w1) = rx_pos (channel w) + 1
    /\ rx_buffer (channel w1) = rx_buffer (channel w)
    /\ rx_size (channel w1) = rx_size (channel w)
    /\ chan_ok (channel w1).
Proof.
  intros Hok Hrdy Hlt Hb.
  destruct (receive_incoming_next w 0 Hok Hrdy Hlt Hb)
    as (w1 & Hr & Hib & Htr & _ & Hp & Hbuf & Hsz & Hok1 & _).
  exists (channel_send_ack NACK_BYTE w1). split.
  - unfold rx_block. rewrite Hr. cbn [negb]. rewrite Hib.
    change (0 =? 0) with true. reflexivity.
  - destruct (channel_send_ack_spec NACK_BYTE w1) as (_ & Hc & Ht).
    split; [rewrite Ht, Htr; reflexivity|].
    split; [reflexivity|]. split; [reflexivity|].
    split; [exact Hp|]. split; [exact Hbuf|]. split; [exact Hsz|].
    exact (Hc Hok1).
Qed.

(** The receiver waits for a start marker and finds one, with more bytes
    behind it: it takes the marker and waits for the length. *)
Lemma rx_start_marker_is_taken (w : world) :
  chan_ok (channel w) ->
  rx_ready (channel w) = true ->
  rx_pos (channel w) + 1 < rx_size (channel w) ->
  rx_buffer (channel w) !! Z.to_nat (rx_pos (channel w)) = Some STX_BYTE ->
  exists w0,
    rx_block RX_AT_STX w = Goto RX_AT_QTD w0
    /\ trace w0 = trace w
    /\ chan_ok (channel w0)
    /\ rx_ready (channel w0) = true
    /\ rx_pos (channel w0) = rx_pos (channel w) + 1
    /\ rx_buffer (channel w0) = rx_buffer (channel w)
    /\ rx_size (channel w0) = rx_size (channel w).
Proof.
  intros Hok Hrdy Hlt Hb.
  destruct (receive_incoming_next w STX_BYTE Hok Hrdy ltac:(lia) Hb)
    as (w1 & Hr & Hib & Htr & _ & Hp & Hbuf & Hsz & Hok1 & Hrdy1).
  eexists. split.
  - unfold rx_block. rewrite Hr. rewrite Hib.
    change (STX_BYTE =? STX_BYTE) with true. cbn [andb negb]. reflexivity.
  - split; [exact Htr|]. split; [exact Hok1|]. split; [exact (Hrdy1 Hlt)|].
    split; [exact Hp|]. split; [exact Hbuf | exact Hsz].
Qed.

(** *** A frame whose length byte is zero *)

(** C6, as stated, fails: in [world_zero_length_frame] the channel holds
    the two bytes [02 00]; the receiver takes them and sends a negative
    acknowledgment. *)
Lemma zero_length_frame_is_nacked :
  exists w',
    receiver_thread 10 world_zero_length_frame = Returns PT_WAITING w'
    /\ acks (trace w') = [NACK_BYTE]
    /\ ack_received (channel w') = true
    /\ ack_value (channel w') = NACK_BYTE.
Proof. eexists. split; [vm_compute; reflexivity|]. repeat split. Qed.

(** C6, amended.  For every frame whose declared length byte is 0: the
    parser of [t3], waiting for the length, returns [PROTOCOL_WAITING]
    (neither [PROTOCOL_SUCCESS] nor [PROTOCOL_ERROR]) and goes back to
    [ST_STX]; the receiver thread of [t4] sends a negative acknowledgment
    on the channel for that frame as soon as it has read the zero length,
    whether it was suspended waiting for the length or takes the start
    marker and the length in the same call (from its start, or suspended
    waiting for a start marker), and then goes on from the head of its
    loop with the bytes that follow: the call ends as a run from there
    does. *)
Theorem zero_length_parser_silent_receiver_nacks
    (h : FP.ProtocolHandler) (w : world) :
  FP.table_ok h -> FP.current_state h = FP.ST_QTD ->
  chan_ok (channel w) ->
  rx_ready (channel w) = true ->
  (lc (rx_pt (rx_state w)) = LC_RX_QTD
   /\ rx_pos (channel w) < rx_size (channel w)
   /\ rx_buffer (channel w) !! Z.to_nat (rx_pos (channel w)) = Some 0)
  \/ ((lc (rx_pt (rx_state w)) = 0 \/ lc (rx_pt (rx_state w)) = LC_RX_STX)
      /\ rx_pos (channel w) + 1 < rx_size (channel w)
      /\ rx_buffer (channel w) !! Z.to_nat (rx_pos (channel w))
         = Some STX_BYTE
      /\ rx_buffer (channel w) !! Z.to_nat (rx_pos (channel w) + 1)
         = Some 0) ->
  FP.process_byte h 0
  = (FP.PROTOCOL_WAITING,
     FP.set_last_result FP.PROTOCOL_WAITING
       (FP.set_current_state FP.ST_STX h))
  /\ exists w1 code w' more,
       trace w1 = trace w ++ [EvAck NACK_BYTE]
       /\ ack_received (channel w1) = true
       /\ ack_value (channel w1) = NACK_BYTE
       /\ rx_pos (channel w1)
          = rx_pos (channel w)
            + (if lc (rx_pt (rx_state w)) =? LC_RX_QTD then 1 else 2)
       /\ rx_buffer (channel w1) = rx_buffer (channel w)
       /\ rx_size (channel w1) = rx_size (channel w)
       /\ (forall fuel, (600 <= fuel)%nat ->
                        receiver_thread fuel w = Returns code w'
                        /\ run_blocks rx_block fuel RX_LOOP w1
                           = Returns code w')
       /\ trace w' = trace w ++ EvAck NACK_BYTE :: more.
Proof.
  intros Ht Hs Hok Hrdy Hcase. split.
  { apply zero_length_is_absorbed; assumption. }
  assert (Hend : forall w1 : world,
             chan_ok (channel w1) ->
             exists code w' more,
               (forall fuel, (597 <= fuel)%nat ->
                             run_blocks rx_block fuel RX_LOOP w1
                             = Returns code w')
               /\ trace w' = trace w1 ++ more).
  { intros w1 Hok1.
    destruct (rx_run_returns 597 RX_LOOP w1 Hok1)
      as (code & w' & ev & Hrun & Htr).
    - unfold rx_measure. pose proof (remaining_bound _ Hok1).
      cbn [rx_weight]. lia.
    - exists code, w', ev. auto. }
  destruct Hcase as [(Hlc & Hlt & Hb)|(Hlc & Hlt & Hb0 & Hb1)].
  - (* suspended waiting for the length *)
    destruct (rx_zero_length_is_nacked w Hok Hrdy Hlt Hb)
      as (w1 & Hblock & Htr1 & Ha & Hv & Hp & Hbuf & Hsz & Hok1).
    destruct (Hend w1 Hok1) as (code & w' & more & Hrun & Htr).
    exists w1, code, w', more. rewrite Hlc.
    change (LC_RX_QTD =? LC_RX_QTD) with true. cbv iota.
    split; [exact Htr1|]. split; [exact Ha|]. split; [exact Hv|].
    split; [exact Hp|]. split; [exact Hbuf|]. split; [exact Hsz|]. split.
    + intros [|fuel] Hf; [lia|]. split; [|apply Hrun; lia].
      unfold receiver_thread. rewrite Hlc.
      change (LC_RX_QTD =? 0) with false.
      change (LC_RX_QTD =? LC_RX_STX) with false.
      change (LC_RX_QTD =? LC_RX_QTD) with true. cbv iota.
      cbn [run_blocks]. rewrite Hblock. apply Hrun. lia.
    + rewrite Htr, Htr1, <- app_assoc. reflexivity.
  - (* the start marker and the length in the same call *)
    assert (Hfrom : forall w0 : world,
               channel w0 = channel w -> trace w0 = trace w ->
               exists w1 code w' more,
                 trace w1 = trace w ++ [EvAck NACK_BYTE]
                 /\ ack_received (channel w1) = true
                 /\ ack_value (channel w1) = NACK_BYTE
                 /\ rx_pos (channel w1) = rx_pos (channel w) + 2
                 /\ rx_buffer (channel w1) = rx_buffer (channel w)
                 /\ rx_size (channel w1) = rx_size (channel w)
                 /\ (forall fuel, (599 <= fuel)%nat ->
                                  run_blocks rx_block fuel RX_AT_STX w0
                                  = Returns code w')
                 /\ (forall fuel, (597 <= fuel)%nat ->
                                  run_blocks rx_block fuel RX_LOOP w1
                                  = Returns code w')
                 /\ trace w' = trace w ++ EvAck NACK_BYTE :: more).
    { intros w0 Hc0 Ht0.
      destruct (rx_start_marker_is_taken w0)
        as (w2 & Hblock0 & Htr2 & Hok2 & Hrdy2 & Hp2 & Hbuf2 & Hsz2);
        try (rewrite Hc0; assumption).
      rewrite Hc0 in Hp2, Hbuf2, Hsz2.
      destruct (rx_zero_length_is_nacked w2 Hok2 Hrdy2)
        as (w1 & Hblock & Htr1 & Ha & Hv & Hp & Hbuf & Hsz & Hok1).
      { rewrite Hp2, Hsz2. exact Hlt. }
      { rewrite Hp2, Hbuf2. exact Hb1. }
      destruct (Hend w1 Hok1) as (code & w' & more & Hrun & Htr).
      exists w1, code, w', more.
      split; [rewrite Htr1, Htr2, Ht0; reflexivity|].
      split; [exact Ha|]. split; [exact Hv|].
      split; [rewrite Hp, Hp2; lia|].
      split; [rewrite Hbuf; exact Hbuf2|].
      split; [rewrite Hsz; exact Hsz2|]. split; [|split; [exact Hrun|]].
      - intros [|[|fuel]] Hf; try lia. cbn [run_blocks].
        rewrite Hblock0, Hblock. apply Hrun. lia.
      - rewrite Htr, Htr1, Htr2, Ht0, <- app_assoc. reflexivity. }
    assert (Hne : (lc (rx_pt (rx_state w)) =? LC_RX_QTD) = false)
      by (destruct Hlc as [-> | ->]; reflexivity).
    rewrite Hne.
    destruct Hlc as [Hlc|Hlc].
    + (* from the start of the thread *)
      destruct (Hfrom
                  (upd_rx (set_rx_pt (mkPt LC_RX_STX))
                     (upd_rx (set_message_received false)
                        (upd_rx (set_checksum_calc 0)
                           (upd_rx (set_rx_count 0)
                              (upd_rx (set_state RX_WAIT_STX) w))))))
        as (w1 & code & w' & more & Htr1 & Ha & Hv & Hp & Hbuf & Hsz & Hrun0
            & Hrun & Htr); [reflexivity | reflexivity |].
      exists w1, code, w', more.
      split; [exact Htr1|]. split; [exact Ha|]. split; [exact Hv|].
      split; [exact Hp|]. split; [exact Hbuf|]. split; [exact Hsz|].
      split; [|exact Htr].
      intros [|fuel] Hf; [lia|]. split; [|apply Hrun; lia].
      unfold receiver_thread. rewrite Hlc. change (0 =? 0) with true.
      cbv iota. cbn [run_blocks rx_block]. apply Hrun0. lia.
    + (* suspended waiting for a start marker *)
      destruct (Hfrom w eq_refl eq_refl)
        as (w1 & code & w' & more & Htr1 & Ha & Hv & Hp & Hbuf & Hsz & Hrun0
            & Hrun & Htr).
      exists w1, code, w', more.
      split; [exact Htr1|]. split; [exact Ha|]. split; [exact Hv|].
      split; [exact Hp|]. split; [exact Hbuf|]. split; [exact Hsz|].
      split; [|exact Htr].
      intros fuel Hf. split; [|apply Hrun; lia].
      unfold receiver_thread. rewrite Hlc.
      change (LC_RX_STX =? 0) with false.
      change (LC_RX_STX =? LC_RX_STX) with true. cbv iota.
      apply Hrun0. lia.
Qed.

Lemma zero_length_parser_silent_receiver_nacks_witness :
  lc (rx_pt (rx_state world_zero_length_frame)) = 0
  /\ lc (rx_pt (rx_state world_zero_length_byte)) = LC_RX_QTD
  /\ (exists w1 code w' more,
        trace w1 = trace world_zero_length_frame ++ [EvAck NACK_BYTE]
        /\ rx_pos (channel w1) = rx_pos (channel world_zero_length_frame) + 2
        /\ (forall fuel, (600 <= fuel)%nat ->
                         receiver_thread fuel world_zero_length_frame
                         = Returns code w')
        /\ trace w'
           = trace world_zero_length_frame ++ EvAck NACK_BYTE :: more)
  /\ (exists w1 code w' more,
        trace w1 = trace world_zero_length_byte ++ [EvAck NACK_BYTE]
        /\ rx_pos (channel w1) = rx_pos (channel world_zero_length_byte) + 1
        /\ (forall fuel, (600 <= fuel)%nat ->
                         receiver_thread fuel world_zero_length_byte
                         = Returns code w')
        /\ trace w'
           = trace world_zero_length_byte ++ EvAck NACK_BYTE :: more).
Proof.
  split; [reflexivity|]. split; [reflexivity|]. split.
  - destruct (zero_length_parser_silent_receiver_nacks
                (FP.feed FP.handler_init [STX_BYTE]) world_zero_length_frame)
      as (_ & w1 & code & w' & more & Ht1 & _ & _ & Hp & _ & _ & Hrun & Ht).
    + reflexivity.
    + reflexivity.
    + by_evaluation.
    + reflexivity.
    + right. split; [left; reflexivity|]. split; [reflexivity|].
      split; reflexivity.
    + exists w1, code, w', more. split; [exact Ht1|]. split; [exact Hp|].
      split; [|exact Ht]. intros fuel Hf. apply (Hrun fuel Hf).
  - destruct (zero_length_parser_silent_receiver_nacks
                (FP.feed FP.handler_init [STX_BYTE]) world_zero_length_byte)
      as (_ & w1 & code & w' & more & Ht1 & _ & _ & Hp & _ & _ & Hrun & Ht).
    + reflexivity.
    + reflexivity.
    + by_evaluation.
    + reflexivity.
    + left. split; [reflexivity|]. split; reflexivity.
    + exists w1, code, w', more. split; [exact Ht1|]. split; [exact Hp|].
      split; [|exact Ht]. intros fuel Hf. apply (Hrun fuel Hf).
Defined.

(** *** The tests of the source file, run on the model *)

Example test_successful_transmission :
  protothreads_transmission_complete world_succeeded = true
  /\ protothreads_get_tx_result world_succeeded = PROTOCOL_SUCCESS
  /\ protothreads_message_received world_succeeded = true
  /\ protothreads_get_rx_result world_succeeded = PROTOCOL_SUCCESS
  /\ protothreads_get_received_size world_succeeded = 3
  /\ take 3 (protothreads_get_received_data world_succeeded)
     = [170; 187; 204].
Proof. repeat split. Qed.

Example test_timeout_and_retry :
  protothreads_transmission_complete
    (timeout_test_loop 20 200 (set_simulate_loss true (submitted [18; 52])))
  = true
  /\ protothreads_get_tx_result
       (timeout_test_loop 20 200 (set_simulate_loss true (submitted [18; 52])))
     = PROTOCOL_TIMEOUT
  /\ length (sends (trace (timeout_test_loop 20 200
                             (set_simulate_loss true (submitted [18; 52])))))
     = 3%nat.
Proof. repeat split; vm_compute; reflexivity. Qed.

End Protothreads.

(* ===================================================================== *)
(** * Part III: further properties of the encoder and the parser         *)
(* ===================================================================== *)

Section EncoderMore.
Import Codec.

(** X1.  [protocol_calculate_checksum(dados, qtd)] is the sum of the
    first [qtd] bytes of [dados] modulo 256, for every [qtd] a [uint8_t]
    can hold and every array with at least [qtd] bytes; in particular it
    is 0 for [qtd = 0] and it wraps. *)
Theorem checksum_is_sum_mod_256 (dados : list Z) (qtd : Z) :
  0 <= qtd <= 255 -> (Z.to_nat qtd <= length dados)%nat ->
  protocol_calculate_checksum (Some dados) qtd
  = Some (sum_bytes (take (Z.to_nat qtd) dados) mod 256).
Proof.
  intros Hq Hlen. unfold protocol_calculate_checksum.
  destruct (Z.eqb_spec qtd 0) as [->|Hne]; [reflexivity|].
  rewrite checksum_loop_spec by lia.
  destruct (Z.to_nat qtd) as [|n] eqn:E; [lia|].
  rewrite drop_0. reflexivity.
Qed.

Lemma checksum_is_sum_mod_256_witness :
  0 <= 255 <= 255
  /\ (Z.to_nat 255 <= length (replicate 255 255%Z))%nat
  /\ protocol_calculate_checksum (Some (replicate 255 255)) 255 = Some 1.
Proof.
  assert (H1 : 0 <= 255 <= 255) by lia.
  assert (H2 : (Z.to_nat 255 <= length (replicate 255 255%Z))%nat)
    by (rewrite length_replicate; lia).
  split; [exact H1|]. split; [exact H2|].
  rewrite (checksum_is_sum_mod_256 (replicate 255 255) 255 H1 H2).
  vm_compute. reflexivity.
Defined.

(** X2.  When [protocol_create_message] does not return
    [PROTOCOL_SUCCESS] it has written nothing: the buffer and
    [*buffer_size] are as before.  The return value is then
    [PROTOCOL_INVALID_PARAM] exactly when a pointer is null or [qtd] is
    0, and [PROTOCOL_ERROR] otherwise. *)
Theorem create_message_failure_writes_nothing
    (dados : option (list Z)) (qtd : Z) (buffer : option (list Z))
    (buffer_size : option Z) (r : Z) (buffer' : option (list Z))
    (buffer_size' : option Z) :
  protocol_create_message dados qtd buffer buffer_size
  = Some (r, buffer', buffer_size') ->
  r <> PROTOCOL_SUCCESS ->
  buffer' = buffer /\ buffer_size' = buffer_size
  /\ (r = PROTOCOL_INVALID_PARAM
      <-> dados = None \/ buffer = None \/ buffer_size = None \/ qtd = 0)
  /\ (r = PROTOCOL_INVALID_PARAM \/ r = PROTOCOL_ERROR).
Proof.
  unfold protocol_create_message. intros H Hr.
  destruct dados as [d|], buffer as [buf|], buffer_size as [size|];
    try (injection H as <- <- <-;
         repeat split; auto; discriminate).
  destruct (Z.eqb_spec qtd 0) as [->|Hq].
  - injection H as <- <- <-. repeat split; auto; discriminate.
  - destruct (protocol_calculate_checksum (Some d) qtd) as [chk|];
      [|discriminate]. cbn [mbind option_bind] in H.
    destruct (size <? u8 (5 + qtd)).
    + injection H as <- <- <-. repeat split; auto; try discriminate.
      intros [?|[?|[?|?]]]; congruence.
    + exfalso.
      destruct (store buf 0 STX_BYTE) as [b0|]; [|discriminate].
      cbn [mbind option_bind] in H.
      destruct (store b0 1 qtd) as [b1|]; [|discriminate].
      cbn [mbind option_bind] in H.
      destruct (memcpy b1 2 d (Z.to_nat qtd)) as [b2|]; [|discriminate].
      cbn [mbind option_bind] in H.
      destruct (store b2 (Z.to_nat (2 + qtd)) chk) as [b3|]; [|discriminate].
      cbn [mbind option_bind] in H.
      destruct (store b3 (Z.to_nat (3 + qtd)) ETX_BYTE) as [b4|];
        [|discriminate].
      cbn [mbind option_bind] in H. injection H as <- _ _. apply Hr.
      reflexivity.
Qed.

Lemma create_message_failure_writes_nothing_witness :
  protocol_create_message (Some [1]) 1 (Some [9; 9; 9; 9; 9]) (Some 5)
  = Some (PROTOCOL_ERROR, Some [9; 9; 9; 9; 9], Some 5)
  /\ PROTOCOL_ERROR <> PROTOCOL_SUCCESS
  /\ (Some [9; 9; 9; 9; 9] = Some [9; 9; 9; 9; 9] /\ Some 5 = Some 5
      /\ (PROTOCOL_ERROR = PROTOCOL_INVALID_PARAM
          <-> Some [1] = None \/ Some [9; 9; 9; 9; 9] = None
              \/ Some 5 = None \/ 1 = 0)
      /\ (PROTOCOL_ERROR = PROTOCOL_INVALID_PARAM
          \/ PROTOCOL_ERROR = PROTOCOL_ERROR)).
Proof.
  assert (H : protocol_create_message (Some [1]) 1 (Some [9; 9; 9; 9; 9])
                (Some 5)
              = Some (PROTOCOL_ERROR, Some [9; 9; 9; 9; 9], Some 5))
    by reflexivity.
  assert (Hne : PROTOCOL_ERROR <> PROTOCOL_SUCCESS) by discriminate.
  split; [exact H|]. split; [exact Hne|].
  exact (create_message_failure_writes_nothing _ _ _ _ _ _ _ H Hne).
Defined.

(** X3.  A successful [protocol_create_message] writes the [qtd + 4]
    bytes of the frame at the start of the buffer and nothing else: the
    buffer keeps its length and every byte after the frame. *)
Theorem create_message_writes_only_the_frame
    (payload buf : list Z) (size : Z) :
  (1 <= length payload <= 255)%nat ->
  (length payload + 4 <= length buf)%nat ->
  u8 (5 + Z.of_nat (length payload)) <= size ->
  exists buf' size',
    protocol_create_message (Some payload) (Z.of_nat (length payload))
                            (Some buf) (Some size)
    = Some (PROTOCOL_SUCCESS, Some buf', Some size')
    /\ length buf' = length buf
    /\ take (length payload + 4) buf' = frame_bytes payload
    /\ drop (length payload + 4) buf' = drop (length payload + 4) buf.
Proof.
  intros Hlen Hbuf Hsize.
  assert (Hfl : length (frame_bytes payload) = (length payload + 4)%nat)
    by (unfold frame_bytes; simpl; rewrite length_app; simpl; lia).
  eexists _, _. split;
    [apply protocol_create_message_success; assumption|].
  rewrite length_app, length_drop, Hfl, <- Hfl.
  rewrite take_app_length, drop_app_length. repeat split. lia.
Qed.

Lemma create_message_writes_only_the_frame_witness :
  exists buf' size',
    protocol_create_message (Some [16; 32]) (Z.of_nat (length [16; 32]))
                            (Some (replicate 9 7)) (Some 9)
    = Some (PROTOCOL_SUCCESS, Some buf', Some size')
    /\ length buf' = length (replicate 9 7)
    /\ take (length [16; 32] + 4) buf' = frame_bytes [16; 32]
    /\ drop (length [16; 32] + 4) buf'
       = drop (length [16; 32] + 4) (replicate 9 7).
Proof.
  apply (create_message_writes_only_the_frame [16; 32] (replicate 9 7) 9).
  - simpl. lia.
  - simpl. lia.
  - vm_compute. intro H. discriminate H.
Defined.

Lemma store_inv (buf : list Z) (i : nat) (v : Z) (out : list Z) :
  store buf i v = Some out -> (i < length buf)%nat /\ length out = length buf.
Proof.
  unfold store. case_decide as H; [|discriminate].
  intros [= <-]. rewrite length_insert. auto.
Qed.

(** X4.  From 251 bytes of payload on, [5 + qtd] wraps in the [uint8_t]
    [msg_size], so the size test accepts every declared size of 4 or
    more; when the buffer really has fewer than [qtd + 4] bytes the call
    writes past its end. *)
Theorem create_message_overruns_small_buffer
    (payload buf : list Z) (size : Z) :
  (251 <= length payload <= 255)%nat ->
  4 <= size ->
  (length buf < length payload + 4)%nat ->
  protocol_create_message (Some payload) (Z.of_nat (length payload))
                          (Some buf) (Some size)
  = None.
Proof.
  intros Hlen Hsize Hbuf. unfold protocol_create_message.
  replace (Z.of_nat (length payload) =? 0) with false
    by (symmetry; apply Z.eqb_neq; lia).
  rewrite protocol_calculate_checksum_spec. cbn [mbind option_bind].
  assert (Hu : u8 (5 + Z.of_nat (length payload))
               = Z.of_nat (length payload) - 251).
  { unfold u8.
    replace (5 + Z.of_nat (length payload))
      with (Z.of_nat (length payload) - 251 + 1 * 256) by lia.
    rewrite Z_mod_plus_full. apply Z.mod_small. lia. }
  rewrite Hu.
  replace (size <? Z.of_nat (length payload) - 251) with false
    by (symmetry; apply Z.ltb_ge; lia).
  destruct (store buf 0 STX_BYTE) as [b0|] eqn:E0; [|reflexivity].
  apply store_inv in E0 as [_ L0]. cbn [mbind option_bind].
  destruct (store b0 1 _) as [b1|] eqn:E1; [|reflexivity].
  apply store_inv in E1 as [_ L1]. cbn [mbind option_bind].
  destruct (memcpy b1 2 payload _) as [b2|] eqn:E2; [|reflexivity].
  apply memcpy_length in E2. cbn [mbind option_bind].
  destruct (store b2 _ _) as [b3|] eqn:E3; [|reflexivity].
  apply store_inv in E3 as [_ L3]. cbn [mbind option_bind].
  destruct (store b3 _ ETX_BYTE) as [b4|] eqn:E4; [|reflexivity].
  apply store_inv in E4 as [H4 _]. lia.
Qed.

Lemma create_message_overruns_small_buffer_witness :
  (251 <= length (replicate 252 1%Z) <= 255)%nat
  /\ 4 <= 255
  /\ (length (replicate 255 0%Z) < length (replicate 252 1%Z) + 4)%nat
  /\ protocol_create_message (Some (replicate 252 1))
       (Z.of_nat (length (replicate 252 1))) (Some (replicate 255 0))
       (Some 255)
     = None.
Proof.
  assert (H1 : (251 <= length (replicate 252 1%Z) <= 255)%nat)
    by (rewrite length_replicate; lia).
  assert (H2 : 4 <= 255) by lia.
  assert (H3 : (length (replicate 255 0%Z)
                < length (replicate 252 1%Z) + 4)%nat)
    by (rewrite !length_replicate; lia).
  split; [exact H1|]. split; [exact H2|]. split; [exact H3|].
  exact (create_message_overruns_small_buffer _ _ _ H1 H2 H3).
Defined.

End EncoderMore.

Section ParserMore.
Import FP.

(** One frame as it may arrive, fed to a parser that waits for a start
    marker: every byte but the last gives [PROTOCOL_WAITING]; the last
    gives [PROTOCOL_SUCCESS] if the end marker and the checksum are
    right and [PROTOCOL_ERROR] if not; either way the parser is back in
    [ST_STX] with the payload stored. *)
Lemma feed_wire (payload : list Z) (chk etx : Z) (h : ProtocolHandler) :
  table_ok h -> current_state h = ST_STX ->
  (1 <= length payload <= 255)%nat ->
  (length payload <= length (dados h))%nat ->
  outcomes h (wire_bytes payload chk etx)
  = replicate (length payload + 3) PROTOCOL_WAITING
    ++ [if frame_accepted payload chk etx
        then PROTOCOL_SUCCESS else PROTOCOL_ERROR]
  /\ current_state (feed h (wire_bytes payload chk etx)) = ST_STX
  /\ table_ok (feed h (wire_bytes payload chk etx))
  /\ message_ready (feed h (wire_bytes payload chk etx))
     = frame_accepted payload chk etx
  /\ qtd_dados (feed h (wire_bytes payload chk etx))
     = Z.of_nat (length payload)
  /\ take (length payload) (dados (feed h (wire_bytes payload chk etx)))
     = payload
  /\ length (dados (feed h (wire_bytes payload chk etx)))
     = length (dados h).
Proof.
  intros Ht Hs Hlen Hd.
  destruct h as [st sf q0 d k0 cr0 cc0 mr0 lr0].
  unfold table_ok in Ht.
  cbn [state_functions current_state dados] in Ht, Hs, Hd |- *. subst st sf.
  set (n := Z.of_nat (length payload)).
  destruct (feed_data_phase payload d 0 0 PROTOCOL_WAITING n cr0 false)
    as (d' & Hf & Htk & Hl & Ho);
    [destruct payload; [simpl in Hlen; lia | congruence]
    | lia | subst n; lia | subst n; lia | subst n; lia |].
  assert (H2 : feed (mkHandler ST_STX (state_functions handler_init) q0 d k0
                               cr0 cc0 mr0 lr0) [STX_BYTE; n]
               = mkHandler ST_DATA (state_functions handler_init) n d 0 cr0 0
                           false PROTOCOL_WAITING).
  { unfold feed, process_byte. simpl. unfold state_wait_qtd. simpl.
    replace (0 <? n) with true by (symmetry; apply Z.ltb_lt; subst n; lia).
    reflexivity. }
  assert (H2o : outcomes (mkHandler ST_STX (state_functions handler_init) q0 d
                                    k0 cr0 cc0 mr0 lr0) [STX_BYTE; n]
                = [PROTOCOL_WAITING; PROTOCOL_WAITING]).
  { unfold outcomes, process_byte. simpl. unfold state_wait_qtd. simpl.
    replace (0 <? n) with true by (symmetry; apply Z.ltb_lt; subst n; lia).
    reflexivity. }
  change (wire_bytes payload chk etx)
    with ([STX_BYTE; n] ++ payload ++ [chk; etx]).
  rewrite outcomes_app, !feed_app, H2, H2o, outcomes_app, Ho, Hf.
  rewrite Z.add_0_l.
  unfold feed, outcomes, process_byte, frame_accepted. simpl.
  unfold state_wait_etx. simpl.
  replace (length payload + 3)%nat with (S (S (length payload + 1))) by lia.
  cbn [replicate]. rewrite replicate_add. cbn [app replicate].
  rewrite <- app_assoc. cbn [app].
  subst n. rewrite Nat2Z.id in Htk.
  destruct ((etx =? ETX_BYTE) && (u8 (sum_bytes payload) =? chk));
    simpl; repeat split; assumption.
Qed.

Lemma frame_bytes_wire (payload : list Z) :
  frame_bytes payload = wire_bytes payload (u8 (sum_bytes payload)) ETX_BYTE
  /\ frame_accepted payload (u8 (sum_bytes payload)) ETX_BYTE = true.
Proof.
  split; [reflexivity|]. unfold frame_accepted.
  rewrite !Z.eqb_refl. reflexivity.
Qed.

(** X5.  A frame whose checksum byte or end marker is wrong gives
    [PROTOCOL_ERROR] at its last byte and nothing before; the parser is
    then ready again: a valid frame that follows at once is accepted and
    its payload is what the handler holds. *)
Theorem corrupted_frame_then_valid_frame
    (payload payload' : list Z) (chk etx : Z) :
  (1 <= length payload <= 255)%nat ->
  (1 <= length payload' <= 255)%nat ->
  frame_accepted payload chk etx = false ->
  outcomes handler_init (wire_bytes payload chk etx ++ frame_bytes payload')
  = replicate (length payload + 3) PROTOCOL_WAITING ++ [PROTOCOL_ERROR]
    ++ replicate (length payload' + 3) PROTOCOL_WAITING ++ [PROTOCOL_SUCCESS]
  /\ protocol_message_ready
       (Some (feed handler_init (wire_bytes payload chk etx))) = false
  /\ protocol_message_ready
       (Some (feed handler_init
                (wire_bytes payload chk etx ++ frame_bytes payload'))) = true
  /\ protocol_get_data_count
       (Some (feed handler_init
                (wire_bytes payload chk etx ++ frame_bytes payload')))
     = Z.of_nat (length payload')
  /\ take (length payload')
          (dados (feed handler_init
                    (wire_bytes payload chk etx ++ frame_bytes payload')))
     = payload'.
Proof.
  intros Hlen Hlen' Hbad.
  destruct (feed_wire payload chk etx handler_init eq_refl eq_refl Hlen)
    as (Ho & Hs & Ht & Hm & _ & _ & Hl);
    [change (length (dados handler_init)) with 256%nat; lia|].
  rewrite Hbad in Ho, Hm.
  destruct (feed_frame payload' (feed handler_init (wire_bytes payload chk etx))
              Ht Hs Hlen')
    as (Ho' & _ & _ & Hm' & Hq' & Hd' & _);
    [rewrite Hl; change (length (dados handler_init)) with 256%nat; lia|].
  rewrite outcomes_app, feed_app, Ho, Ho', <- app_assoc.
  cbn [protocol_message_ready protocol_get_data_count].
  repeat split; assumption.
Qed.

Lemma corrupted_frame_then_valid_frame_witness :
  (1 <= length ([16; 32]%Z) <= 255)%nat
  /\ (1 <= length ([66]%Z) <= 255)%nat
  /\ frame_accepted [16; 32] 255 ETX_BYTE = false
  /\ outcomes handler_init
       (wire_bytes [16; 32] 255 ETX_BYTE ++ frame_bytes [66])
     = replicate (length ([16; 32]%Z) + 3) PROTOCOL_WAITING
       ++ [PROTOCOL_ERROR]
       ++ replicate (length ([66]%Z) + 3) PROTOCOL_WAITING
       ++ [PROTOCOL_SUCCESS].
Proof.
  assert (H1 : (1 <= length ([16; 32]%Z) <= 255)%nat) by (simpl; lia).
  assert (H2 : (1 <= length ([66]%Z) <= 255)%nat) by (simpl; lia).
  assert (H3 : frame_accepted [16; 32] 255 ETX_BYTE = false) by reflexivity.
  split; [exact H1|]. split; [exact H2|]. split; [exact H3|].
  exact (proj1 (corrupted_frame_then_valid_frame [16; 32] [66] 255 ETX_BYTE
                  H1 H2 H3)).
Defined.

(** Frames one after the other, from any handler that waits for a start
    marker. *)
Lemma feed_frames (payloads : list (list Z)) :
  forall h : ProtocolHandler,
    table_ok h -> current_state h = ST_STX ->
    length (dados h) = Z.to_nat MAX_DATA_SIZE ->
    Forall (fun p => (1 <= length p <= 255)%nat) payloads ->
    count_code PROTOCOL_SUCCESS (outcomes h (concat (map frame_bytes payloads)))
    = length payloads
    /\ count_code PROTOCOL_ERROR
         (outcomes h (concat (map frame_bytes payloads))) = 0%nat
    /\ current_state (feed h (concat (map frame_bytes payloads))) = ST_STX
    /\ table_ok (feed h (concat (map frame_bytes payloads)))
    /\ length (dados (feed h (concat (map frame_bytes payloads))))
       = Z.to_nat MAX_DATA_SIZE.
Proof.
  induction payloads as [|p ps IH]; intros h Ht Hs Hl Hall.
  - repeat split; assumption.
  - inversion Hall as [|? ? Hp Hps]; subst.
    destruct (feed_frame p h Ht Hs Hp)
      as (Ho & Hs1 & Ht1 & Hm1 & Hq1 & Hd1 & Hl1 & _);
      [rewrite Hl; unfold MAX_DATA_SIZE; lia|].
    destruct (IH (feed h (frame_bytes p)) Ht1 Hs1)
      as (Hc & He & Hs2 & Ht2 & Hl2);
      [rewrite Hl1; exact Hl | exact Hps |].
    cbn [map concat]. rewrite outcomes_app, feed_app, Ho, !count_code_app.
    rewrite !count_code_replicate_ne by discriminate.
    rewrite Hc, He. repeat split; assumption.
Qed.

(** X6.  Any number of valid frames sent back to back into a freshly
    initialised parser are all accepted, with no call of
    [protocol_reset] in between: as many [PROTOCOL_SUCCESS] as frames,
    no [PROTOCOL_ERROR], and the handler ends up holding the payload of
    the last frame. *)
Theorem back_to_back_frames (payloads : list (list Z)) (p : list Z) :
  Forall (fun p => (1 <= length p <= 255)%nat) (payloads ++ [p]) ->
  count_code PROTOCOL_SUCCESS
    (outcomes handler_init (concat (map frame_bytes (payloads ++ [p]))))
  = S (length payloads)
  /\ count_code PROTOCOL_ERROR
       (outcomes handler_init (concat (map frame_bytes (payloads ++ [p]))))
     = 0%nat
  /\ protocol_message_ready
       (Some (feed handler_init (concat (map frame_bytes (payloads ++ [p])))))
     = true
  /\ protocol_get_data_count
       (Some (feed handler_init (concat (map frame_bytes (payloads ++ [p])))))
     = Z.of_nat (length p)
  /\ take (length p)
          (dados (feed handler_init
                    (concat (map frame_bytes (payloads ++ [p]))))) = p.
Proof.
  intros Hall.
  destruct (feed_frames (payloads ++ [p]) handler_init eq_refl eq_refl
              eq_refl Hall) as (Hc & He & _).
  apply Forall_app in Hall as [Hps Hp].
  inversion Hp as [|? ? Hlen _]; subst.
  destruct (feed_frames payloads handler_init eq_refl eq_refl eq_refl Hps)
    as (_ & _ & Hs & Ht & Hl).
  destruct (feed_frame p (feed handler_init (concat (map frame_bytes payloads)))
              Ht Hs Hlen) as (_ & _ & _ & Hm & Hq & Hd & _);
    [rewrite Hl; unfold MAX_DATA_SIZE; lia|].
  split; [rewrite Hc, length_app; simpl; lia|]. split; [exact He|].
  assert (Hcat : concat (map frame_bytes (payloads ++ [p]))
                 = concat (map frame_bytes payloads) ++ frame_bytes p).
  { rewrite map_app, concat_app. cbn [map concat]. rewrite app_nil_r.
    reflexivity. }
  rewrite Hcat, feed_app.
  cbn [protocol_message_ready protocol_get_data_count].
  repeat split; assumption.
Qed.

Lemma back_to_back_frames_witness :
  Forall (fun p : list Z => (1 <= length p <= 255)%nat)
         ([[1; 2]; [2]] ++ [[3; 3; 3]])
  /\ count_code PROTOCOL_SUCCESS
       (outcomes handler_init
          (concat (map frame_bytes ([[1; 2]; [2]] ++ [[3; 3; 3]]))))
     = S (length ([[1; 2]; [2]]%Z)).
Proof.
  assert (H : Forall (fun p : list Z => (1 <= length p <= 255)%nat)
                     ([[1; 2]; [2]] ++ [[3; 3; 3]]))
    by (repeat constructor; simpl; lia).
  split; [exact H|].
  exact (proj1 (back_to_back_frames [[1; 2]; [2]] [3; 3; 3] H)).
Defined.

(** *** What a reported frame stands for *)

Lemma frame_prefix_step (bytes : list Z) (h : ProtocolHandler) (b : Z) :
  handler_inv h -> frame_prefix_seen bytes h -> is_u8 b ->
  frame_prefix_seen (bytes ++ [b]) (snd (process_byte h b)).
Proof.
  intros (Ht & Hl & Hc & Hq & Hd) Hseen Hb.
  destruct h as [st sf q d k cr cc mr lr].
  unfold table_ok in Ht. cbn [state_functions] in Ht. subst sf.
  cbn [current_state dados dados_count qtd_dados] in Hl, Hc, Hq, Hd.
  unfold frame_prefix_seen in Hseen.
  cbn [current_state dados dados_count qtd_dados checksum_calc checksum_recv]
    in Hseen.
  unfold is_u8 in Hb. unfold frame_prefix_seen, process_byte.
  change (Z.to_nat MAX_DATA_SIZE) with 256%nat in Hl.
  destruct st; simpl.
  - unfold state_wait_stx. destruct (Z.eqb_spec b STX_BYTE) as [->|Hne];
      simpl; [|exact I].
    split; [reflexivity|]. exists bytes. reflexivity.
  - destruct Hseen as (Hcc & pre & ->). specialize (Hq eq_refl). subst k cc.
    unfold state_wait_qtd. destruct (Z.ltb_spec 0 b); simpl; [|exact I].
    split; [reflexivity|]. exists pre. rewrite <- app_assoc. reflexivity.
  - destruct Hseen as (Hcc & pre & ->). specialize (Hd eq_refl).
    unfold state_wait_data. simpl.
    assert (Hu : u8 (k + 1) = k + 1) by (apply u8_small; unfold is_u8; lia).
    assert (Hins : take (Z.to_nat (k + 1)) (<[Z.to_nat k := b]> d)
                   = take (Z.to_nat k) d ++ [b]).
    { replace (Z.to_nat (k + 1)) with (S (Z.to_nat k)) by lia.
      erewrite take_S_r; [|apply list_lookup_insert_eq; lia].
      rewrite take_insert_ge by lia. reflexivity. }
    assert (Hsum : u8 (cc + b)
                   = u8 (sum_bytes (take (Z.to_nat k) d ++ [b]))).
    { rewrite Hcc, u8_add_idemp_l, sum_bytes_app. unfold sum_bytes at 3.
      simpl. f_equal. lia. }
    rewrite Hu. destruct (Z.leb_spec q (k + 1)); simpl.
    + replace q with (k + 1) by lia. rewrite Hins.
      split; [exact Hsum|]. split; [lia|].
      exists pre. rewrite <- app_assoc. reflexivity.
    + rewrite Hins. split; [exact Hsum|].
      exists pre. rewrite <- app_assoc. reflexivity.
  - destruct Hseen as (Hcc & Hqr & pre & ->). unfold state_wait_chk. simpl.
    split; [exact Hcc|]. split; [exact Hqr|].
    exists pre. rewrite <- app_assoc. reflexivity.
  - unfold state_wait_etx. destruct (_ && _); exact I.
Qed.

Lemma frame_prefix_feed (bytes : list Z) :
  Forall is_u8 bytes ->
  handler_inv (feed handler_init bytes)
  /\ frame_prefix_seen bytes (feed handler_init bytes).
Proof.
  induction bytes as [|b bytes IH] using rev_ind; intros Hall.
  - split; [apply handler_inv_init | exact I].
  - apply Forall_app in Hall as [Hbs Hb].
    inversion Hb as [|? ? Hb' _]; subst.
    destruct (IH Hbs) as [Hinv Hseen].
    rewrite feed_app.
    change (feed (feed handler_init bytes) [b])
      with (snd (process_byte (feed handler_init bytes) b)).
    split; [apply handler_inv_step | apply frame_prefix_step]; assumption.
Qed.

(** X7.  The parser reports a frame only when it has received one: if,
    after any bytes fed to a freshly initialised handler, a call returns
    [PROTOCOL_SUCCESS], then the stream up to and including this byte
    ends with a complete frame (start marker, length, that many bytes,
    their sum modulo 256, end marker) and the handler holds exactly the
    payload of that frame and its length, with [message_ready] set. *)
Theorem success_means_frame_received (bytes : list Z) (b : Z) :
  Forall is_u8 bytes -> is_u8 b ->
  fst (process_byte (feed handler_init bytes) b) = PROTOCOL_SUCCESS ->
  exists pre payload,
    bytes ++ [b] = pre ++ frame_bytes payload
    /\ (1 <= length payload <= 255)%nat
    /\ message_ready (feed handler_init (bytes ++ [b])) = true
    /\ qtd_dados (feed handler_init (bytes ++ [b]))
       = Z.of_nat (length payload)
    /\ take (length payload) (dados (feed handler_init (bytes ++ [b])))
       = payload.
Proof.
  intros Hall Hb Hok.
  destruct (frame_prefix_feed bytes Hall) as [(Ht & Hl & _) Hseen].
  rewrite feed_app.
  change (feed (feed handler_init bytes) [b])
    with (snd (process_byte (feed handler_init bytes) b)).
  destruct (feed handler_init bytes) as [st sf q d k cr cc mr lr].
  unfold table_ok in Ht. cbn [state_functions dados] in Ht, Hl. subst sf.
  change (Z.to_nat MAX_DATA_SIZE) with 256%nat in Hl.
  unfold frame_prefix_seen in Hseen.
  cbn [current_state dados dados_count qtd_dados checksum_calc checksum_recv]
    in Hseen.
  unfold process_byte in *.
  destruct st; simpl in Hok |- *.
  - unfold state_wait_stx in Hok. destruct (b =? _); discriminate Hok.
  - unfold state_wait_qtd in Hok. destruct (0 <? b); discriminate Hok.
  - unfold state_wait_data in Hok. simpl in Hok.
    destruct (_ <=? _); discriminate Hok.
  - discriminate Hok.
  - unfold state_wait_etx in *.
    cbn [checksum_calc checksum_recv] in Hok |- *.
    destruct (b =? _) eqn:E1; [|simpl in Hok; discriminate Hok].
    destruct (cc =? cr) eqn:E2; [|simpl in Hok; discriminate Hok].
    apply Z.eqb_eq in E1, E2. subst b cr.
    destruct Hseen as (Hcc & Hq & pre & ->). simpl.
    assert (Hlen : length (take (Z.to_nat q) d) = Z.to_nat q)
      by (rewrite length_take; lia).
    exists pre, (take (Z.to_nat q) d). rewrite Hlen.
    split.
    + unfold frame_bytes. rewrite Hlen, Z2Nat.id, <- Hcc by lia.
      rewrite <- !app_assoc. cbn [app]. rewrite <- app_assoc. reflexivity.
    + repeat split; try lia.
Qed.

Lemma success_means_frame_received_witness :
  Forall is_u8 [9; 2; 1; 65; 65]
  /\ is_u8 3
  /\ exists pre payload,
       [9; 2; 1; 65; 65] ++ [3] = pre ++ frame_bytes payload
       /\ (1 <= length payload <= 255)%nat
       /\ message_ready (feed handler_init ([9; 2; 1; 65; 65] ++ [3])) = true
       /\ qtd_dados (feed handler_init ([9; 2; 1; 65; 65] ++ [3]))
          = Z.of_nat (length payload)
       /\ take (length payload)
               (dados (feed handler_init ([9; 2; 1; 65; 65] ++ [3])))
          = payload.
Proof.
  assert (H1 : Forall is_u8 [9; 2; 1; 65; 65])
    by (repeat constructor; unfold is_u8; lia).
  assert (H2 : is_u8 3) by (unfold is_u8; lia).
  split; [exact H1|]. split; [exact H2|].
  apply (success_means_frame_received [9; 2; 1; 65; 65] 3 H1 H2).
  reflexivity.
Defined.

(** *** Return values and the ready flag *)

Lemma ready_inv_step (h : ProtocolHandler) (b : Z) :
  ready_inv h -> ready_inv (snd (process_byte h b)).
Proof.
  intros (Ht & Hm).
  destruct h as [st sf q d k cr cc mr lr].
  unfold table_ok in Ht. cbn [state_functions] in Ht. subst sf.
  cbn [current_state message_ready] in Hm.
  unfold ready_inv, table_ok, process_byte.
  destruct st; simpl;
    [unfold state_wait_stx; destruct (b =? _)
    |unfold state_wait_qtd; destruct (0 <? b)
    |unfold state_wait_data; simpl; destruct (_ <=? _)
    |unfold state_wait_chk
    |unfold state_wait_etx; destruct (_ && _)];
    simpl; (split; [reflexivity|]); intros Hs;
    try reflexivity; try (apply Hm; discriminate); congruence.
Qed.

Lemma ready_inv_feed (bytes : list Z) :
  forall h : ProtocolHandler, ready_inv h -> ready_inv (feed h bytes).
Proof.
  induction bytes as [|b bytes IH]; intros h Hinv; [exact Hinv|].
  change (feed h (b :: bytes)) with (feed (snd (process_byte h b)) bytes).
  apply IH, ready_inv_step, Hinv.
Qed.

(** X8.  After any bytes fed to a freshly initialised handler, a call of
    [protocol_process_byte] returns [PROTOCOL_WAITING],
    [PROTOCOL_SUCCESS] or [PROTOCOL_ERROR] and nothing else; after
    [PROTOCOL_SUCCESS] the parser is in [ST_STX] with [message_ready]
    set; after [PROTOCOL_ERROR] it is in [ST_STX] with [message_ready]
    cleared; and whenever it is inside a frame [message_ready] is
    cleared. *)
Theorem outcome_and_ready_flag (bytes : list Z) (b : Z) :
  (fst (process_byte (feed handler_init bytes) b) = PROTOCOL_WAITING
   \/ (fst (process_byte (feed handler_init bytes) b) = PROTOCOL_SUCCESS
       /\ current_state (feed handler_init (bytes ++ [b])) = ST_STX
       /\ message_ready (feed handler_init (bytes ++ [b])) = true)
   \/ (fst (process_byte (feed handler_init bytes) b) = PROTOCOL_ERROR
       /\ current_state (feed handler_init (bytes ++ [b])) = ST_STX
       /\ message_ready (feed handler_init (bytes ++ [b])) = false))
  /\ (current_state (feed handler_init (bytes ++ [b])) = ST_STX
      \/ message_ready (feed handler_init (bytes ++ [b])) = false)
  /\ last_result (feed handler_init (bytes ++ [b]))
     = fst (process_byte (feed handler_init bytes) b).
Proof.
  assert (Hinit : ready_inv handler_init)
    by (split; [reflexivity | intros H; exfalso; apply H; reflexivity]).
  pose proof (ready_inv_feed bytes handler_init Hinit) as (Ht & Hm).
  pose proof (ready_inv_feed (bytes ++ [b]) handler_init Hinit) as (_ & Hm').
  split; [|split].
  - rewrite feed_app.
    change (feed (feed handler_init bytes) [b])
      with (snd (process_byte (feed handler_init bytes) b)).
    destruct (feed handler_init bytes) as [st sf q d k cr cc mr lr].
    unfold table_ok in Ht. cbn [state_functions] in Ht. subst sf.
    cbn [current_state message_ready] in Hm.
    unfold process_byte.
    destruct st; simpl;
      [unfold state_wait_stx; destruct (b =? _)
      |unfold state_wait_qtd; destruct (0 <? b)
      |unfold state_wait_data; simpl; destruct (_ <=? _)
      |unfold state_wait_chk
      |unfold state_wait_etx; destruct (_ && _)];
      simpl; auto.
    right. right. repeat split. apply Hm. discriminate.
  - destruct (current_state (feed handler_init (bytes ++ [b]))) eqn:E;
      [left; reflexivity | right; apply Hm'; discriminate ..].
  - rewrite feed_app.
    change (feed (feed handler_init bytes) [b])
      with (snd (process_byte (feed handler_init bytes) b)).
    destruct (feed handler_init bytes) as [st sf q d k cr cc mr lr].
    unfold table_ok in Ht. cbn [state_functions] in Ht. subst sf.
    unfold process_byte.
    destruct st; simpl;
      [unfold state_wait_stx; destruct (b =? _)
      |unfold state_wait_qtd; destruct (0 <? b)
      |unfold state_wait_data; simpl; destruct (_ <=? _)
      |unfold state_wait_chk
      |unfold state_wait_etx; destruct (_ && _)];
      reflexivity.
Qed.

(** *** Resetting in the middle of a frame *)

(** X9.  [protocol_reset], called at any point of any stream, also in
    the middle of a frame, leaves a parser that accepts the next valid
    frame: all its calls return [PROTOCOL_WAITING] but the last, which
    returns [PROTOCOL_SUCCESS], and the handler then holds the payload. *)
Theorem reset_then_frame (bytes payload : list Z) :
  Forall is_u8 bytes ->
  (1 <= length payload <= 255)%nat ->
  exists h0,
    protocol_reset (Some (feed handler_init bytes)) = Some h0
    /\ protocol_message_ready (Some h0) = false
    /\ outcomes h0 (frame_bytes payload)
       = replicate (length payload + 3) PROTOCOL_WAITING ++ [PROTOCOL_SUCCESS]
    /\ protocol_message_ready (Some (feed h0 (frame_bytes payload))) = true
    /\ protocol_get_data_count (Some (feed h0 (frame_bytes payload)))
       = Z.of_nat (length payload)
    /\ take (length payload) (dados (feed h0 (frame_bytes payload)))
       = payload.
Proof.
  intros Hall Hlen.
  destruct (handler_inv_feed bytes handler_init handler_inv_init Hall)
    as (Ht & Hl & _).
  eexists. split; [reflexivity|]. split; [reflexivity|].
  match goal with
  | |- outcomes ?h0 _ = _ /\ _ =>
      destruct (feed_frame payload h0) as (Ho & _ & _ & Hm & Hq & Hd & _);
        [exact Ht | reflexivity | exact Hlen
        | cbn [dados set_last_result set_message_ready set_checksum_calc
                 set_dados_count set_current_state];
          rewrite Hl; unfold MAX_DATA_SIZE; lia|]
  end.
  cbn [protocol_message_ready protocol_get_data_count].
  repeat split; assumption.
Qed.

Lemma reset_then_frame_witness :
  Forall is_u8 [2; 5; 1; 2]
  /\ (1 <= length ([7; 8]%Z) <= 255)%nat
  /\ current_state (feed handler_init [2; 5; 1; 2]) = ST_DATA
  /\ exists h0,
       protocol_reset (Some (feed handler_init [2; 5; 1; 2])) = Some h0
       /\ protocol_message_ready (Some h0) = false
       /\ outcomes h0 (frame_bytes [7; 8])
          = replicate (length ([7; 8]%Z) + 3) PROTOCOL_WAITING
            ++ [PROTOCOL_SUCCESS]
       /\ protocol_message_ready (Some (feed h0 (frame_bytes [7; 8]))) = true
       /\ protocol_get_data_count (Some (feed h0 (frame_bytes [7; 8])))
          = Z.of_nat (length ([7; 8]%Z))
       /\ take (length ([7; 8]%Z)) (dados (feed h0 (frame_bytes [7; 8])))
          = [7; 8].
Proof.
  assert (H1 : Forall is_u8 [2; 5; 1; 2])
    by (repeat constructor; unfold is_u8; lia).
  assert (H2 : (1 <= length ([7; 8]%Z) <= 255)%nat) by (simpl; lia).
  split; [exact H1|]. split; [exact H2|]. split; [reflexivity|].
  exact (reset_then_frame [2; 5; 1; 2] [7; 8] H1 H2).
Defined.

End ParserMore.

(* ===================================================================== *)
(** * Part IV: further properties of the timer, the channel and the
      threads                                                            *)
(* ===================================================================== *)

Section ProtothreadsMore.
Import PT.

Local Arguments timer_expired : simpl never.
Local Arguments protocol_create_message : simpl never.
Local Arguments memcpy : simpl never.
Local Arguments u8 : simpl never.
Local Arguments u32 : simpl never.
Local Arguments frame_bytes : simpl never.
Local Arguments Z.ltb : simpl never.
Local Arguments Z.leb : simpl never.
Local Arguments Z.eqb : simpl never.
Local Arguments Z.add : simpl never.

(** ** The timer *)

(** X10.  A timer set for [timeout] ms has expired exactly when at least
    [timeout] ms have passed on the clock since [timer_set], also when
    the 32-bit clock wraps in between, as long as less than 2^32 ms have
    passed. *)
Theorem timer_expires_after_timeout
    (w : world) (timer : timer_t) (timeout ms : Z) :
  0 <= ms < 4294967296 ->
  timer_expired (system_time_ms (advance_time ms w))
                (timer_set (system_time_ms w) timer timeout)
  = (timeout <=? ms).
Proof.
  intros Hms. unfold timer_expired, timer_set, advance_time, set_time.
  cbn [active negb timeout_ms start_time system_time_ms].
  unfold u32. rewrite Zminus_mod_idemp_l.
  replace (system_time_ms w + ms - system_time_ms w) with ms by lia.
  rewrite Z.mod_small by lia. reflexivity.
Qed.

Lemma timer_expires_after_timeout_witness :
  0 <= 1000 < 4294967296
  /\ timer_expired
       (system_time_ms (advance_time 1000 (set_time 4294967000 world_zero)))
       (timer_set (system_time_ms (set_time 4294967000 world_zero))
                  (mkTimer 0 0 false) 1000)
     = (1000 <=? 1000).
Proof.
  assert (H : 0 <= 1000 < 4294967296) by lia.
  split; [exact H|].
  exact (timer_expires_after_timeout (set_time 4294967000 world_zero)
           (mkTimer 0 0 false) 1000 1000 H).
Defined.

(** ** The channel *)

Lemma channel_receive_byte_after (c : comm_channel_t) (j : Z) :
  0 <= rx_pos c -> 0 <= j -> rx_pos c + j < rx_size c -> rx_size c <= 255 ->
  channel_receive_byte (channel_after c j)
  = (Some (default 0 (rx_buffer c !! Z.to_nat (rx_pos c + j))),
     channel_after c (j + 1)).
Proof.
  intros Hp Hj Hlt Hs.
  unfold channel_receive_byte, channel_after.
  cbn [rx_ready rx_pos rx_size rx_buffer tx_buffer tx_size tx_ready
       ack_received ack_value simulate_loss].
  replace (rx_size c <=? rx_pos c + j) with false
    by (symmetry; apply Z.leb_gt; lia).
  replace (rx_pos c + j <? rx_size c) with true
    by (symmetry; apply Z.ltb_lt; lia).
  cbn [negb andb].
  rewrite u8_small by (unfold is_u8; lia).
  rewrite Z.add_assoc.
  destruct (rx_size c <=? rx_pos c + j + 1); reflexivity.
Qed.

Lemma channel_receive_byte_drained (c : comm_channel_t) (j : Z) :
  rx_size c <= rx_pos c + j ->
  channel_receive_byte (channel_after c j) = (None, channel_after c j).
Proof.
  intros Hle. unfold channel_receive_byte, channel_after.
  cbn [rx_ready rx_pos rx_size].
  replace (rx_size c <=? rx_pos c + j) with true
    by (symmetry; apply Z.leb_le; lia).
  reflexivity.
Qed.

Lemma receive_all_spec (k : nat) :
  forall (n : nat) (c : comm_channel_t) (j : Z),
    0 <= rx_pos c -> rx_size c <= 255 -> 0 <= j ->
    Z.to_nat (rx_size c - (rx_pos c + j)) = k -> (k <= n)%nat ->
    rx_pos c + j <= rx_size c ->
    (Z.to_nat (rx_size c) <= length (rx_buffer c))%nat ->
    receive_all n (channel_after c j)
    = (take k (drop (Z.to_nat (rx_pos c + j)) (rx_buffer c)),
       channel_after c (rx_size c - rx_pos c)).
Proof.
  induction k as [|k IH]; intros n c j Hp Hs Hj Hk Hn Hle Hlen.
  - assert (Hj' : j = rx_size c - rx_pos c) by lia.
    rewrite <- Hj'.
    destruct n as [|n]; [reflexivity|].
    cbn [receive_all]. rewrite channel_receive_byte_drained by lia.
    reflexivity.
  - destruct n as [|n]; [lia|].
    cbn [receive_all]. rewrite channel_receive_byte_after by lia.
    destruct (lookup_lt_is_Some_2 (rx_buffer c) (Z.to_nat (rx_pos c + j)))
      as [b Hb]; [lia|].
    rewrite Hb. cbn [default].
    rewrite (IH n c (j + 1)) by lia.
    rewrite (drop_S _ _ _ Hb). cbn [firstn].
    replace (Z.to_nat (rx_pos c + (j + 1)))
      with (S (Z.to_nat (rx_pos c + j))) by lia.
    reflexivity.
Qed.

(** X11.  What [channel_send] puts on a channel that does not drop it,
    [channel_receive_byte] delivers: the [size] bytes, in order, one per
    call, and then nothing.  The bytes that were waiting before are
    lost. *)
Theorem channel_delivers_what_was_sent
    (w w' : world) (data : list Z) (size : Z) (n : nat) :
  0 <= size <= 255 ->
  simulate_loss (channel w) = false ->
  channel_send data size w = Some w' ->
  (Z.to_nat size <= n)%nat ->
  fst (receive_all n (channel w')) = take (Z.to_nat size) data
  /\ fst (channel_receive_byte (snd (receive_all n (channel w')))) = None.
Proof.
  intros Hsize Hloss Hsend Hn.
  unfold channel_send in Hsend. rewrite Hloss in Hsend.
  destruct (memcpy (rx_buffer (channel w)) 0 data (Z.to_nat size))
    as [rb|] eqn:Hcopy; [|discriminate Hsend].
  cbn [mbind option_bind] in Hsend. injection Hsend as <-.
  cbn [channel log set_channel tx_buffer rx_buffer tx_size rx_size rx_pos
       rx_ready ack_received ack_value simulate_loss].
  pose proof (memcpy_length _ _ _ _ _ Hcopy) as Hlen.
  unfold memcpy in Hcopy. case_decide as Hfit; [|discriminate Hcopy].
  injection Hcopy as <-. destruct Hfit as [Hsrc Hdst].
  match goal with |- context [receive_all n ?c0] => set (c := c0) end.
  destruct (Z.eq_dec size 0) as [->|Hpos].
  - destruct n as [|n]; [split; reflexivity|].
    split; reflexivity.
  - assert (Hc0 : c = channel_after c 0).
    { unfold channel_after, c.
      cbn [rx_ready rx_pos rx_size rx_buffer tx_buffer tx_size tx_ready
           ack_received ack_value simulate_loss].
      replace (size <=? 0 + 0) with false by (symmetry; apply Z.leb_gt; lia).
      reflexivity. }
    rewrite Hc0.
    assert (Hlen' : (Z.to_nat (rx_size c) <= length (rx_buffer c))%nat).
    { subst c. cbn [rx_size rx_buffer].
      rewrite length_app, length_take. lia. }
    rewrite (receive_all_spec (Z.to_nat size) n c 0);
      try (subst c; cbn [rx_ready rx_pos rx_size rx_buffer]; lia);
      try exact Hlen'.
    cbn [fst snd]. split.
    + subst c. cbn [rx_pos rx_buffer].
      change (Z.to_nat (0 + 0)) with 0%nat. rewrite drop_0.
      rewrite take_app_le by (rewrite length_take; lia).
      rewrite take_take. f_equal. lia.
    + rewrite channel_receive_byte_drained; [reflexivity|].
      subst c. cbn [rx_pos rx_size]. lia.
Qed.

Lemma channel_delivers_what_was_sent_witness :
  0 <= 3 <= 255
  /\ simulate_loss (channel world_zero) = false
  /\ (Z.to_nat 3 <= 5)%nat
  /\ fst (receive_all 5 (channel (after_send [7; 8; 9] world_zero)))
     = take (Z.to_nat 3) [7; 8; 9].
Proof.
  assert (H1 : 0 <= 3 <= 255) by lia.
  assert (H2 : simulate_loss (channel world_zero) = false) by reflexivity.
  assert (H3 : (Z.to_nat 3 <= 5)%nat) by lia.
  split; [exact H1|]. split; [exact H2|]. split; [exact H3|].
  apply (channel_delivers_what_was_sent world_zero
           (after_send [7; 8; 9] world_zero) [7; 8; 9] 3 5 H1 H2);
    [reflexivity | exact H3].
Defined.

(** X12.  Acknowledgments are not queued: of two calls of
    [channel_send_ack] the transmitter sees only the second, once; a
    second call of [channel_ack_received] finds nothing. *)
Theorem acknowledgment_is_overwritten_and_taken_once (a b : Z) (w : world) :
  exists c,
    channel_ack_received
      (channel (channel_send_ack b (channel_send_ack a w))) = (Some b, c)
    /\ channel_ack_received c = (None, c)
    /\ acks (trace (channel_send_ack b (channel_send_ack a w)))
       = acks (trace w) ++ [a; b].
Proof.
  eexists. split; [reflexivity|]. split; [reflexivity|].
  cbn [channel_send_ack log trace set_channel].
  unfold acks. rewrite !omap_app. cbn [omap]. rewrite <- app_assoc.
  reflexivity.
Qed.

(** ** Turns of the transmitter while it waits *)

Section TransmitterTurns.

Variables (txb : list Z) (txs : Z) (rx : receiver_state_t) (ib : Z).

Local Abbreviation W now rxb rxs rxp txr rxr ackr ackv loss t av tr :=
  (mkWorld now (mkChannel txb rxb txs rxs rxp txr rxr ackr ackv loss) t rx av
           ib tr).

(** From the test of the [while] to the end of the turn. *)
Lemma tx_while_turn now rxb rxs rxp txr rxr ackv loss pt tm dat dsz mb ms rc
      tc res av tr (fuel : nat) :
  (2 <= fuel)%nat ->
  (Z.to_nat ms <= length mb)%nat ->
  loss = true \/ (Z.to_nat ms <= length rxb)%nat ->
  run_blocks tx_block fuel TX_WHILE
    (W now rxb rxs rxp txr rxr false ackv loss
       (mkTx pt tm dat dsz mb ms rc tc res) av tr)
  = if rc <? MAX_RETRIES then
      Returns PT_WAITING
        (W now
           (if loss then rxb
            else take 0 rxb ++ take (Z.to_nat ms) mb
                   ++ drop (0 + Z.to_nat ms) rxb)
           (if loss then rxs else ms) (if loss then rxp else 0) false
           (if loss then rxr else true) false ackv loss
           (mkTx (mkPt LC_TX_WAIT) (mkTimer now TIMEOUT_MS true) dat dsz mb ms
                 rc tc res)
           av (tr ++ [EvSend (take (Z.to_nat ms) mb)]))
    else
      Returns PT_ENDED
        (W now rxb rxs rxp txr rxr false ackv loss
           (mkTx (mkPt 0) tm dat dsz mb ms rc true PROTOCOL_TIMEOUT) av tr).
Proof.
  intros Hfuel Hmb Hrxb. destruct fuel as [|[|fuel]]; try lia.
  cbn [run_blocks].
  destruct (Z.ltb_spec rc MAX_RETRIES) as [Hlt|Hge].
  - rewrite tx_while_sends by assumption.
    rewrite tx_wait_idle by apply (timer_set_not_expired now tm).
    reflexivity.
  - rewrite tx_while_gives_up by exact Hge. reflexivity.
Qed.

(** A turn that finds an acknowledgment and the timer still running. *)
Lemma tx_acknowledged_turn now rxb rxs rxp txr rxr ackv loss tm dat dsz mb ms
      rc tc res av tr (fuel : nat) :
  (3 <= fuel)%nat ->
  timer_expired now tm = false ->
  (Z.to_nat ms <= length mb)%nat ->
  loss = true \/ (Z.to_nat ms <= length rxb)%nat ->
  transmitter_thread fuel
    (W now rxb rxs rxp txr rxr true ackv loss
       (mkTx (mkPt LC_TX_WAIT) tm dat dsz mb ms rc tc res) av tr)
  = if ackv =? ACK_BYTE then
      Returns PT_EXITED
        (W now rxb rxs rxp txr rxr false ackv loss
           (mkTx PT_INIT tm dat dsz mb ms rc true PROTOCOL_SUCCESS) ackv tr)
    else
      run_blocks tx_block (pred fuel) TX_WHILE
        (W now rxb rxs rxp txr rxr false ackv loss
           (mkTx (mkPt LC_TX_WAIT) tm dat dsz mb ms
                 (if ackv =? NACK_BYTE then u8 (rc + 1) else rc) tc res)
           ackv tr).
Proof.
  intros Hfuel Hexp Hmb Hrxb. destruct fuel as [|fuel]; [lia|].
  unfold transmitter_thread. cbn [tx_state tx_pt lc].
  change (LC_TX_WAIT =? 0) with false.
  change (LC_TX_WAIT =? LC_TX_WAIT) with true. cbv iota.
  cbn [run_blocks Nat.pred]. rewrite tx_wait_acknowledged by exact Hexp.
  destruct (ackv =? ACK_BYTE); reflexivity.
Qed.

(** The first turn with a payload the encoder accepts and no
    acknowledgment waiting. *)
Lemma tx_first_turn now rxb rxs rxp txr rxr ackv loss pt tm data mb ms rc tc
      res av tr (fuel : nat) (stale : Z) (tl : list Z) :
  (3 <= fuel)%nat -> lc pt = 0 -> (1 <= length data <= 5)%nat ->
  drop (length data + 4) mb = stale :: tl ->
  loss = true \/ (length data + 5 <= length rxb)%nat ->
  transmitter_thread fuel
    (W now rxb rxs rxp txr rxr false ackv loss
       (mkTx pt tm (Some data) (Z.of_nat (length data)) mb ms rc tc res)
       av tr)
  = Returns PT_WAITING
      (W now
         (if loss then rxb
          else (frame_bytes data ++ [stale]) ++ drop (length data + 5) rxb)
         (if loss then rxs else 5 + Z.of_nat (length data))
         (if loss then rxp else 0) false (if loss then rxr else true)
         false ackv loss
         (mkTx (mkPt LC_TX_WAIT) (mkTimer now TIMEOUT_MS true) (Some data)
               (Z.of_nat (length data)) (frame_bytes data ++ stale :: tl)
               (5 + Z.of_nat (length data)) 0 false PROTOCOL_SUCCESS)
         av (tr ++ [EvSend (frame_bytes data ++ [stale])])).
Proof.
  intros Hfuel Hlc Hlen Hst Hrxb.
  destruct fuel as [|[|[|fuel]]]; try lia.
  assert (Hmb : (length data + 4 < length mb)%nat).
  { apply (f_equal length) in Hst. rewrite length_drop in Hst.
    simpl in Hst. lia. }
  assert (Hfl : length (frame_bytes data) = (length data + 4)%nat)
    by (unfold frame_bytes; simpl; rewrite length_app; simpl; lia).
  assert (Htake : take (Z.to_nat (5 + Z.of_nat (length data)))
                    (frame_bytes data ++ stale :: tl)
                  = frame_bytes data ++ [stale]).
  { replace (Z.to_nat (5 + Z.of_nat (length data)))
      with (length (frame_bytes data) + 1)%nat by lia.
    rewrite take_app_add. reflexivity. }
  unfold transmitter_thread. cbn [tx_state tx_pt]. rewrite Hlc.
  change (0 =? 0) with true. cbv iota.
  cbn [run_blocks]. rewrite tx_begin_builds by lia. rewrite Hst.
  rewrite tx_while_sends;
    [|unfold MAX_RETRIES; lia
     |rewrite length_app, Hfl; simpl; lia
     |destruct Hrxb; [left; assumption | right; lia]].
  rewrite tx_wait_idle by apply (timer_set_not_expired now tm).
  rewrite Htake, take_0. cbn [app].
  replace (0 + Z.to_nat (5 + Z.of_nat (length data)))%nat
    with (length data + 5)%nat by lia.
  reflexivity.
Qed.

End TransmitterTurns.

(** X13.  A positive acknowledgment that arrives before the timer runs
    out ends the transmission: the thread exits with
    [PROTOCOL_SUCCESS] and [transmission_complete] set, sends nothing
    more, keeps the retry counter and leaves no acknowledgment on the
    channel. *)
Theorem positive_ack_completes_transmission (w : world) (fuel : nat) :
  (1 <= fuel)%nat ->
  lc (tx_pt (tx_state w)) = LC_TX_WAIT ->
  ack_received (channel w) = true ->
  ack_value (channel w) = ACK_BYTE ->
  timer_expired (system_time_ms w) (timer (tx_state w)) = false ->
  exists w',
    transmitter_thread fuel w = Returns PT_EXITED w'
    /\ transmission_complete (tx_state w') = true
    /\ tx_result (tx_state w') = PROTOCOL_SUCCESS
    /\ retry_count (tx_state w') = retry_count (tx_state w)
    /\ lc (tx_pt (tx_state w')) = 0
    /\ ack_received (channel w') = false
    /\ trace w' = trace w.
Proof.
  intros Hfuel Hlc Hack Hval Hexp.
  destruct w as [now c tx rx av ib tr].
  destruct c as [txb rxb txs rxs rxp txr rxr ackr ackv loss].
  destruct tx as [[l] tm dat dsz mb ms rc tc res].
  cbn in Hlc, Hack, Hval, Hexp. subst ackr ackv l.
  destruct fuel as [|fuel]; [lia|].
  unfold transmitter_thread. cbn [tx_state tx_pt lc].
  change (LC_TX_WAIT =? 0) with false.
  change (LC_TX_WAIT =? LC_TX_WAIT) with true. cbv iota.
  cbn [run_blocks]. rewrite tx_wait_acknowledged by exact Hexp.
  change (ACK_BYTE =? ACK_BYTE) with true. cbv iota.
  eexists. split; [reflexivity|]. repeat split.
Qed.

Lemma positive_ack_completes_transmission_witness :
  exists w',
    transmitter_thread 5
      (advance_time 10 (after_schedule 20 (submitted [170; 187; 204])))
    = Returns PT_EXITED w'
    /\ transmission_complete (tx_state w') = true
    /\ tx_result (tx_state w') = PROTOCOL_SUCCESS.
Proof.
  destruct (positive_ack_completes_transmission
              (advance_time 10 (after_schedule 20 (submitted [170; 187; 204])))
              5) as (w' & H & Hc & Hr & _).
  - lia.
  - reflexivity.
  - reflexivity.
  - reflexivity.
  - reflexivity.
  - exists w'. split; [exact H|]. split; [exact Hc | exact Hr].
Defined.

(** X14.  A negative acknowledgment that arrives before the timer runs
    out counts a retry: with retries left the frame is sent again, the
    timer is set anew and the sender keeps waiting; otherwise the thread
    ends with [PROTOCOL_TIMEOUT] and sends nothing. *)
Theorem negative_ack_counts_a_retry (w : world) (fuel : nat) :
  (3 <= fuel)%nat ->
  awaiting_ack w -> can_send w ->
  ack_received (channel w) = true ->
  ack_value (channel w) = NACK_BYTE ->
  timer_expired (system_time_ms w) (timer (tx_state w)) = false ->
  exists w',
    transmitter_thread fuel w
    = Returns (if retry_count (tx_state w) + 1 <? MAX_RETRIES
               then PT_WAITING else PT_ENDED) w'
    /\ retry_count (tx_state w') = retry_count (tx_state w) + 1
    /\ ack_received (channel w') = false
    /\ (retry_count (tx_state w) + 1 < MAX_RETRIES ->
        transmission_complete (tx_state w') = false
        /\ timer (tx_state w')
           = timer_set (system_time_ms w) (timer (tx_state w)) TIMEOUT_MS
        /\ trace w'
           = trace w ++ [EvSend (take (Z.to_nat (message_size (tx_state w)))
                                      (message_buffer (tx_state w)))])
    /\ (MAX_RETRIES <= retry_count (tx_state w) + 1 ->
        transmission_complete (tx_state w') = true
        /\ tx_result (tx_state w') = PROTOCOL_TIMEOUT
        /\ trace w' = trace w).
Proof.
  intros Hfuel (Hlc & Hcomplete & Hretry) (Hs1 & Hs2) Hack Hval Hexp.
  destruct w as [now c tx rx av ib tr].
  destruct c as [txb rxb txs rxs rxp txr rxr ackr ackv loss].
  destruct tx as [[l] tm dat dsz mb ms rc tc res].
  cbn in Hlc, Hcomplete, Hretry, Hs1, Hs2, Hack, Hval, Hexp.
  subst ackr ackv tc l.
  cbn [tx_state retry_count message_size message_buffer trace timer
       system_time_ms].
  assert (Hu : u8 (rc + 1) = rc + 1)
    by (apply u8_small; unfold is_u8, MAX_RETRIES in *; lia).
  rewrite tx_acknowledged_turn by (try assumption; right; assumption).
  change (NACK_BYTE =? ACK_BYTE) with false.
  change (NACK_BYTE =? NACK_BYTE) with true. cbv iota. rewrite Hu.
  rewrite tx_while_turn by (try lia; right; assumption).
  destruct (Z.ltb_spec (rc + 1) MAX_RETRIES) as [Hlt|Hge];
    (eexists; split; [reflexivity|]);
    cbn [tx_state channel retry_count ack_received transmission_complete
         tx_result trace timer];
    repeat first [split | intro]; try reflexivity; lia.
Qed.

Lemma negative_ack_counts_a_retry_witness :
  exists w',
    transmitter_thread 5
      (advance_time 10
         (channel_send_ack NACK_BYTE
            (after_schedule 20
               (set_simulate_loss true (submitted [170; 187; 204])))))
    = Returns PT_WAITING w'
    /\ retry_count (tx_state w') = 1
    /\ ack_received (channel w') = false.
Proof.
  destruct (negative_ack_counts_a_retry
              (advance_time 10
                 (channel_send_ack NACK_BYTE
                    (after_schedule 20
                       (set_simulate_loss true (submitted [170; 187; 204])))))
              5) as (w' & H & Hr & Ha & _).
  - lia.
  - vm_compute; repeat split; try reflexivity; intro; discriminate.
  - unfold can_send. vm_compute. lia.
  - reflexivity.
  - reflexivity.
  - reflexivity.
  - exists w'. split; [exact H|]. split; [exact Hr | exact Ha].
Defined.

(** X15.  An acknowledgment byte that is neither [ACK_BYTE] nor
    [NACK_BYTE], arriving before the timer runs out, makes the sender
    send the frame again and set the timer anew without counting a
    retry: such bytes never lead to [PROTOCOL_TIMEOUT]. *)
Theorem unknown_ack_resends_without_retry (w : world) (fuel : nat) :
  (3 <= fuel)%nat ->
  awaiting_ack w -> can_send w ->
  ack_received (channel w) = true ->
  ack_value (channel w) <> ACK_BYTE ->
  ack_value (channel w) <> NACK_BYTE ->
  timer_expired (system_time_ms w) (timer (tx_state w)) = false ->
  exists w',
    transmitter_thread fuel w = Returns PT_WAITING w'
    /\ awaiting_ack w'
    /\ retry_count (tx_state w') = retry_count (tx_state w)
    /\ ack_received (channel w') = false
    /\ timer (tx_state w')
       = timer_set (system_time_ms w) (timer (tx_state w)) TIMEOUT_MS
    /\ trace w'
       = trace w ++ [EvSend (take (Z.to_nat (message_size (tx_state w)))
                                  (message_buffer (tx_state w)))].
Proof.
  intros Hfuel (Hlc & Hcomplete & Hretry) (Hs1 & Hs2) Hack Hv1 Hv2 Hexp.
  destruct w as [now c tx rx av ib tr].
  destruct c as [txb rxb txs rxs rxp txr rxr ackr ackv loss].
  destruct tx as [[l] tm dat dsz mb ms rc tc res].
  cbn in Hlc, Hcomplete, Hretry, Hs1, Hs2, Hack, Hv1, Hv2, Hexp.
  subst ackr tc l.
  cbn [tx_state retry_count message_size message_buffer trace timer
       system_time_ms].
  rewrite tx_acknowledged_turn by (try assumption; right; assumption).
  replace (ackv =? ACK_BYTE) with false
    by (symmetry; apply Z.eqb_neq; exact Hv1).
  replace (ackv =? NACK_BYTE) with false
    by (symmetry; apply Z.eqb_neq; exact Hv2).
  rewrite tx_while_turn by (try lia; right; assumption).
  replace (rc <? MAX_RETRIES) with true by (symmetry; apply Z.ltb_lt; lia).
  eexists. split; [reflexivity|].
  unfold awaiting_ack.
  cbn [tx_state channel retry_count ack_received transmission_complete
       tx_result trace timer tx_pt lc].
  repeat split; try reflexivity; lia.
Qed.

Lemma unknown_ack_resends_without_retry_witness :
  exists w',
    transmitter_thread 5
      (advance_time 10
         (channel_send_ack 255
            (after_schedule 20
               (set_simulate_loss true (submitted [170; 187; 204])))))
    = Returns PT_WAITING w'
    /\ retry_count (tx_state w') = 0
    /\ length (sends (trace w')) = 2%nat.
Proof.
  destruct (unknown_ack_resends_without_retry
              (advance_time 10
                 (channel_send_ack 255
                    (after_schedule 20
                       (set_simulate_loss true (submitted [170; 187; 204])))))
              5) as (w' & H & _ & Hr & _ & _ & Ht).
  - lia.
  - vm_compute; repeat split; try reflexivity; intro; discriminate.
  - unfold can_send. vm_compute. lia.
  - reflexivity.
  - discriminate.
  - discriminate.
  - reflexivity.
  - exists w'. split; [exact H|]. split; [exact Hr|].
    rewrite Ht. reflexivity.
Defined.

(** X16.  While no acknowledgment arrives and less than the timeout has
    passed since the timer was set, the turns of a waiting sender return
    [PT_WAITING] and change nothing but the clock, however many they are
    and however the time is divided among them. *)
Theorem waiting_sender_is_idle (deltas : list Z) :
  forall (w : world) (fuel : nat),
    (1 <= fuel)%nat ->
    is_u32 (system_time_ms w) ->
    lc (tx_pt (tx_state w)) = LC_TX_WAIT ->
    ack_received (channel w) = false ->
    active (timer (tx_state w)) = true ->
    timeout_ms (timer (tx_state w)) <= 4294967296 ->
    Forall (fun d => 0 <= d) deltas ->
    u32 (system_time_ms w - start_time (timer (tx_state w)))
      + total_ms deltas < timeout_ms (timer (tx_state w)) ->
    drive_transmitter fuel deltas w
    = Some (replicate (length deltas) PT_WAITING,
            set_time (u32 (system_time_ms w + total_ms deltas)) w).
Proof.
  induction deltas as [|d deltas IH];
    intros w fuel Hfuel Hnow Hlc Hack Hact Hmax Hpos Hlt.
  - cbn [drive_transmitter length replicate total_ms foldr].
    rewrite Z.add_0_r, (Z.mod_small _ _ Hnow : u32 _ = _).
    destruct w; reflexivity.
  - destruct (Forall_cons_1 _ _ _ Hpos) as [Hd Hpos']. clear Hpos.
    rename Hpos' into Hpos.
    assert (Htot : 0 <= total_ms deltas).
    { clear -Hpos. induction Hpos as [|x l Hx _ IHl]; cbn [total_ms foldr].
      - lia.
      - unfold total_ms in IHl. lia. }
    change (total_ms (d :: deltas)) with (d + total_ms deltas) in *.
    pose proof (Z.mod_pos_bound
                  (system_time_ms w - start_time (timer (tx_state w)))
                  4294967296 ltac:(lia)) as Hel.
    fold (u32 (system_time_ms w - start_time (timer (tx_state w)))) in Hel.
    assert (Hidle : transmitter_thread fuel w = Returns PT_WAITING w).
    { destruct w as [now c tx rx av ib tr].
      destruct c as [txb rxb txs rxs rxp txr rxr ackr ackv loss].
      destruct tx as [[l] tm dat dsz mb ms rc tc res].
      cbn in Hlc, Hack, Hact, Hlt, Hel |- *. subst ackr l.
      destruct fuel as [|fuel]; [lia|].
      unfold transmitter_thread. cbn [tx_state tx_pt lc].
      change (LC_TX_WAIT =? 0) with false.
      change (LC_TX_WAIT =? LC_TX_WAIT) with true. cbv iota.
      cbn [run_blocks]. rewrite tx_wait_idle; [reflexivity|].
      cbn [timer]. unfold timer_expired. rewrite Hact. cbn [negb].
      apply Z.leb_gt. lia. }
    cbn [drive_transmitter]. rewrite Hidle.
    assert (Hel' : u32 (system_time_ms (advance_time d w)
                        - start_time (timer (tx_state (advance_time d w))))
                   = u32 (system_time_ms w - start_time (timer (tx_state w)))
                     + d).
    { destruct w as [now c tx rx av ib tr].
      cbn [advance_time set_time system_time_ms tx_state] in *.
      unfold u32 in *. rewrite Zminus_mod_idemp_l.
      replace (now + d - start_time (timer tx))
        with ((now - start_time (timer tx)) + d) by lia.
      rewrite <- Zplus_mod_idemp_l. apply Z.mod_small. lia. }
    rewrite (IH (advance_time d w) fuel); try assumption.
    + cbn [length replicate].
      destruct w as [now c tx rx av ib tr].
      unfold advance_time, set_time.
      cbn [system_time_ms channel tx_state rx_state tx_ack_value
           rx_incoming_byte trace].
      unfold u32. rewrite Zplus_mod_idemp_l, Z.add_assoc. reflexivity.
    + destruct w; cbn [advance_time set_time system_time_ms].
      apply Z.mod_pos_bound. lia.
    + rewrite Hel'.
      replace (timeout_ms (timer (tx_state (advance_time d w))))
        with (timeout_ms (timer (tx_state w))) by (destruct w; reflexivity).
      lia.
Qed.

Lemma waiting_sender_is_idle_witness :
  drive_transmitter 5 [300; 300; 399]
    (after_schedule 20 (set_simulate_loss true (submitted [170; 187; 204])))
  = Some ([PT_WAITING; PT_WAITING; PT_WAITING],
          set_time 999
            (after_schedule 20
               (set_simulate_loss true (submitted [170; 187; 204])))).
Proof.
  apply (waiting_sender_is_idle [300; 300; 399]
           (after_schedule 20
              (set_simulate_loss true (submitted [170; 187; 204]))) 5).
  - lia.
  - vm_compute. split; [intro; discriminate | reflexivity].
  - reflexivity.
  - reflexivity.
  - reflexivity.
  - vm_compute. intro; discriminate.
  - repeat constructor; lia.
  - vm_compute. reflexivity.
Defined.

(** ** The receiver takes a frame *)

Lemma take_drop_head (l : list Z) (m n : nat) (b : Z) (r : list Z) :
  take (S n) (drop m l) = b :: r ->
  l !! m = Some b /\ take n (drop (S m) l) = r.
Proof.
  intros H. destruct (drop m l) as [|x l'] eqn:E; [discriminate|].
  cbn [firstn] in H. injection H as -> Hr. split.
  - rewrite <- (Nat.add_0_r m), <- lookup_drop, E. reflexivity.
  - replace (S m) with (m + 1)%nat by lia. rewrite <- drop_drop, E.
    exact Hr.
Qed.

Section ReceiverFrame.

Variables (now : Z) (c : comm_channel_t) (tx : transmitter_state_t) (av : Z).
Hypothesis Hpos : 0 <= rx_pos c.
Hypothesis Hsize : rx_size c <= 255.

(** The state with the parts the receiver works on spelled out, [k]
    bytes having been taken from the channel. *)
Local Abbreviation R k r ib tr :=
  (mkWorld now (channel_after c k) tx r av ib tr).

Lemma receive_incoming_after k r ib tr (b : Z) :
  0 <= k -> rx_pos c + k < rx_size c ->
  rx_buffer c !! Z.to_nat (rx_pos c + k) = Some b ->
  receive_incoming (R k r ib tr) = (true, R (k + 1) r b tr).
Proof.
  intros Hk Hlt Hb. unfold receive_incoming. cbn [channel].
  rewrite channel_receive_byte_after by lia. rewrite Hb. reflexivity.
Qed.

Lemma rx_loop_head k pt rd cnt exp cc cr st m res ib tr :
  rx_block RX_LOOP (R k (mkRx pt rd cnt exp cc cr st m res) ib tr)
  = Goto RX_AT_STX
      (R k (mkRx (mkPt LC_RX_STX) rd 0 exp 0 cr RX_WAIT_STX false res) ib tr).
Proof. reflexivity. Qed.

Lemma rx_at_stx_start k pt rd cnt exp cc cr st m res ib tr :
  0 <= k -> rx_pos c + k < rx_size c ->
  rx_buffer c !! Z.to_nat (rx_pos c + k) = Some STX_BYTE ->
  rx_block RX_AT_STX (R k (mkRx pt rd cnt exp cc cr st m res) ib tr)
  = Goto RX_AT_QTD
      (R (k + 1) (mkRx (mkPt LC_RX_QTD) rd cnt exp cc cr RX_WAIT_QTD m res)
         STX_BYTE tr).
Proof.
  intros Hk Hlt Hb. unfold rx_block.
  rewrite (receive_incoming_after _ _ _ _ _ Hk Hlt Hb). reflexivity.
Qed.

Lemma rx_at_qtd_length k pt rd cnt exp cc cr st m res ib tr (q : Z) :
  0 <= k -> rx_pos c + k < rx_size c -> q <> 0 ->
  rx_buffer c !! Z.to_nat (rx_pos c + k) = Some q ->
  rx_block RX_AT_QTD (R k (mkRx pt rd cnt exp cc cr st m res) ib tr)
  = Goto RX_FOR
      (R (k + 1) (mkRx pt rd 0 q cc cr RX_WAIT_DATA m res) q tr).
Proof.
  intros Hk Hlt Hq Hb. unfold rx_block.
  rewrite (receive_incoming_after _ _ _ _ _ Hk Hlt Hb).
  cbn [negb rx_incoming_byte].
  replace (q =? 0) with false by (symmetry; apply Z.eqb_neq; exact Hq).
  reflexivity.
Qed.

Lemma rx_for_more k pt rd cnt exp cc cr st m res ib tr :
  cnt < exp ->
  rx_block RX_FOR (R k (mkRx pt rd cnt exp cc cr st m res) ib tr)
  = Goto RX_AT_DATA
      (R k (mkRx (mkPt LC_RX_DATA) rd cnt exp cc cr st m res) ib tr).
Proof.
  intros Hlt. unfold rx_block. cbn [rx_state rx_count expected_size].
  replace (cnt <? exp) with true by (symmetry; apply Z.ltb_lt; exact Hlt).
  reflexivity.
Qed.

Lemma rx_for_done k pt rd cnt exp cc cr st m res ib tr :
  exp <= cnt ->
  rx_block RX_FOR (R k (mkRx pt rd cnt exp cc cr st m res) ib tr)
  = Goto RX_AT_CHK
      (R k (mkRx (mkPt LC_RX_CHK) rd cnt exp cc cr RX_WAIT_CHK m res) ib tr).
Proof.
  intros Hge. unfold rx_block. cbn [rx_state rx_count expected_size].
  replace (cnt <? exp) with false by (symmetry; apply Z.ltb_ge; exact Hge).
  reflexivity.
Qed.

Lemma rx_at_data_stores k pt rd cnt exp cc cr st m res ib tr (b : Z) :
  0 <= k -> rx_pos c + k < rx_size c ->
  rx_buffer c !! Z.to_nat (rx_pos c + k) = Some b ->
  rx_block RX_AT_DATA (R k (mkRx pt rd cnt exp cc cr st m res) ib tr)
  = Goto RX_FOR
      (R (k + 1)
         (mkRx pt (<[Z.to_nat cnt := b]> rd) (u8 (cnt + 1)) exp (u8 (cc + b))
               cr st m res)
         b tr).
Proof.
  intros Hk Hlt Hb. unfold rx_block.
  rewrite (receive_incoming_after _ _ _ _ _ Hk Hlt Hb). reflexivity.
Qed.

Lemma rx_at_chk_takes k pt rd cnt exp cc cr st m res ib tr (b : Z) :
  0 <= k -> rx_pos c + k < rx_size c ->
  rx_buffer c !! Z.to_nat (rx_pos c + k) = Some b ->
  rx_block RX_AT_CHK (R k (mkRx pt rd cnt exp cc cr st m res) ib tr)
  = Goto RX_AT_ETX
      (R (k + 1) (mkRx (mkPt LC_RX_ETX) rd cnt exp cc b RX_WAIT_ETX m res)
         b tr).
Proof.
  intros Hk Hlt Hb. unfold rx_block.
  rewrite (receive_incoming_after _ _ _ _ _ Hk Hlt Hb). reflexivity.
Qed.

Lemma rx_at_etx_answers k pt rd cnt exp cc cr st m res ib tr (b : Z) :
  0 <= k -> rx_pos c + k < rx_size c ->
  rx_buffer c !! Z.to_nat (rx_pos c + k) = Some b ->
  rx_block RX_AT_ETX (R k (mkRx pt rd cnt exp cc cr st m res) ib tr)
  = Return PT_YIELDED
      (mkWorld now
         (mkChannel (tx_buffer c) (rx_buffer c) (tx_size c) (rx_size c)
            (rx_pos c + (k + 1)) (tx_ready c)
            (negb (rx_size c <=? rx_pos c + (k + 1))) true
            (if (b =? ETX_BYTE) && (cc =? cr) then ACK_BYTE else NACK_BYTE)
            (simulate_loss c))
         tx
         (mkRx (mkPt LC_RX_YIELD) rd cnt exp cc cr st
               (if (b =? ETX_BYTE) && (cc =? cr) then true else m)
               (if (b =? ETX_BYTE) && (cc =? cr)
                then PROTOCOL_SUCCESS else PROTOCOL_ERROR))
         av b
         (tr ++ [EvAck (if (b =? ETX_BYTE) && (cc =? cr)
                        then ACK_BYTE else NACK_BYTE)])).
Proof.
  intros Hk Hlt Hb. unfold rx_block.
  rewrite (receive_incoming_after _ _ _ _ _ Hk Hlt Hb).
  cbn [negb rx_incoming_byte rx_state checksum_calc checksum_recv].
  destruct ((b =? ETX_BYTE) && (cc =? cr)); reflexivity.
Qed.

(** The [for] loop over the bytes [rest] of the payload that the channel
    still holds, [n] bytes having been stored. *)
Lemma rx_data_loop exp cr st m res tr (rest : list Z) :
  forall (n : nat) (k : Z) (pt : pt_t) (rd : list Z) (cc ib : Z),
    0 <= k -> rx_pos c + k + Z.of_nat (length rest) <= rx_size c ->
    take (length rest) (drop (Z.to_nat (rx_pos c + k)) (rx_buffer c)) = rest ->
    (n + length rest <= length rd)%nat ->
    exp = Z.of_nat (n + length rest) -> exp <= 255 -> is_u8 cc ->
    exists ib' pt',
      forall f : nat,
        run_blocks rx_block (2 * length rest + f) RX_FOR
          (R k (mkRx pt rd (Z.of_nat n) exp cc cr st m res) ib tr)
        = run_blocks rx_block f RX_FOR
            (R (k + Z.of_nat (length rest))
               (mkRx pt' (take n rd ++ rest ++ drop (n + length rest) rd)
                     exp exp (u8 (cc + sum_bytes rest)) cr st m res)
               ib' tr).
Proof.
  induction rest as [|b rest IH];
    intros n k pt rd cc ib Hk Hfit Hbytes Hrd Hexp Hmax Hcc.
  - exists ib, pt. intros f. cbn [length Nat.mul Nat.add] in *.
    change (Z.of_nat 0) with 0. rewrite Z.add_0_r.
    cbn [sum_bytes foldr app]. rewrite Z.add_0_r, (u8_small cc Hcc).
    rewrite Nat.add_0_r in *. rewrite take_drop. subst exp. reflexivity.
  - cbn [length] in Hfit, Hbytes, Hrd, Hexp.
    apply take_drop_head in Hbytes as [Hb Hrest].
    assert (Hcnt : u8 (Z.of_nat n + 1) = Z.of_nat (S n))
      by (rewrite u8_small by (unfold is_u8; lia); lia).
    destruct (IH (S n) (k + 1) (mkPt LC_RX_DATA) (<[n := b]> rd)
                 (u8 (cc + b)) b) as (ib' & pt' & Hrun).
    + lia.
    + lia.
    + replace (Z.to_nat (rx_pos c + (k + 1)))
        with (S (Z.to_nat (rx_pos c + k))) by lia.
      exact Hrest.
    + rewrite length_insert. lia.
    + lia.
    + exact Hmax.
    + apply u8_range.
    + exists ib', pt'. intros f.
      replace (2 * length (b :: rest) + f)%nat
        with (S (S (2 * length rest + f))) by (cbn [length]; lia).
      cbn [run_blocks]. rewrite rx_for_more by lia.
      rewrite (rx_at_data_stores _ _ _ _ _ _ _ _ _ _ _ _ b)
        by (try lia; exact Hb).
      rewrite Hcnt, Nat2Z.id, Hrun.
      replace (k + 1 + Z.of_nat (length rest))
        with (k + Z.of_nat (length (b :: rest))) by (cbn [length]; lia).
      rewrite u8_add_idemp_l.
      replace (cc + b + sum_bytes rest) with (cc + sum_bytes (b :: rest))
        by (cbn [sum_bytes foldr]; unfold sum_bytes; lia).
      replace (take (S n) (<[n:=b]> rd) ++ rest
                 ++ drop (S n + length rest) (<[n:=b]> rd))
        with (take n rd ++ (b :: rest) ++ drop (n + length (b :: rest)) rd);
        [reflexivity|].
      rewrite (insert_take_drop rd n b) by lia.
      assert (Hln : length (take n rd) = n) by (rewrite length_take; lia).
      replace (S n) with (length (take n rd) + 1)%nat at 1 by lia.
      rewrite take_app_add. cbn [firstn].
      replace (S n + length rest)%nat
        with (length (take n rd) + S (length rest))%nat by lia.
      rewrite drop_app_add. cbn [skipn length].
      rewrite drop_drop, <- app_assoc.
      replace (n + S (length rest))%nat with (S n + length rest)%nat by lia.
      reflexivity.
Qed.

(** From the wait for the start marker to the acknowledgment, the channel
    holding a whole frame. *)
Lemma rx_frame_run (payload : list Z) (chk etx : Z) pt rd cnt exp cr st res
      ib tr (f : nat) :
  (1 <= length payload <= 255)%nat -> (length payload <= length rd)%nat ->
  rx_pos c + Z.of_nat (length payload) + 4 <= rx_size c ->
  take (length payload + 4) (drop (Z.to_nat (rx_pos c)) (rx_buffer c))
  = wire_bytes payload chk etx ->
  run_blocks rx_block (2 * length payload + 5 + f) RX_AT_STX
    (R 0 (mkRx pt rd cnt exp 0 cr st false res) ib tr)
  = Returns PT_YIELDED
      (mkWorld now
         (mkChannel (tx_buffer c) (rx_buffer c) (tx_size c) (rx_size c)
            (rx_pos c + (Z.of_nat (length payload) + 4)) (tx_ready c)
            (negb (rx_size c
                   <=? rx_pos c + (Z.of_nat (length payload) + 4)))
            true
            (if frame_accepted payload chk etx then ACK_BYTE else NACK_BYTE)
            (simulate_loss c))
         tx
         (mkRx (mkPt LC_RX_YIELD) (payload ++ drop (length payload) rd)
               (Z.of_nat (length payload)) (Z.of_nat (length payload))
               (u8 (sum_bytes payload)) chk RX_WAIT_ETX
               (frame_accepted payload chk etx)
               (if frame_accepted payload chk etx
                then PROTOCOL_SUCCESS else PROTOCOL_ERROR))
         av etx
         (tr ++ [EvAck (if frame_accepted payload chk etx
                        then ACK_BYTE else NACK_BYTE)])).
Proof.
  intros Hlen Hrd Hfit Hbytes. unfold wire_bytes in Hbytes.
  replace (length payload + 4)%nat with (S (length payload + 3))
    in Hbytes by lia.
  apply take_drop_head in Hbytes as [Hb0 Hbytes].
  replace (length payload + 3)%nat with (S (length payload + 2))
    in Hbytes by lia.
  apply take_drop_head in Hbytes as [Hb1 Hbytes].
  assert (Hpay : take (length payload)
                   (drop (S (S (Z.to_nat (rx_pos c)))) (rx_buffer c))
                 = payload).
  { apply (f_equal (take (length payload))) in Hbytes.
    rewrite take_take in Hbytes.
    replace (length payload `min` (length payload + 2))%nat
      with (length payload) in Hbytes by lia.
    rewrite Hbytes. apply take_app_length. }
  assert (Htail : take 2 (drop (S (S (Z.to_nat (rx_pos c))) + length payload)
                            (rx_buffer c))
                  = [chk; etx]).
  { apply (f_equal (drop (length payload))) in Hbytes.
    assert (Hd : drop (length payload) (payload ++ [chk; etx]) = [chk; etx])
      by apply drop_app_length.
    rewrite <- take_drop_commute, Hd, drop_drop in Hbytes.
    exact Hbytes. }
  apply take_drop_head in Htail as [Hb2 Htail].
  apply take_drop_head in Htail as [Hb3 _].
  assert (H0 : rx_buffer c !! Z.to_nat (rx_pos c + 0) = Some STX_BYTE)
    by (rewrite Z.add_0_r; exact Hb0).
  assert (H1 : rx_buffer c !! Z.to_nat (rx_pos c + (0 + 1))
               = Some (Z.of_nat (length payload))).
  { replace (Z.to_nat (rx_pos c + (0 + 1)))
      with (S (Z.to_nat (rx_pos c))) by lia.
    exact Hb1. }
  assert (H2 : rx_buffer c
                 !! Z.to_nat (rx_pos c
                              + (0 + 1 + 1 + Z.of_nat (length payload)))
               = Some chk).
  { replace (Z.to_nat (rx_pos c + (0 + 1 + 1 + Z.of_nat (length payload))))
      with (S (S (Z.to_nat (rx_pos c))) + length payload)%nat by lia.
    exact Hb2. }
  assert (H3 : rx_buffer c
                 !! Z.to_nat (rx_pos c
                              + (0 + 1 + 1 + Z.of_nat (length payload) + 1))
               = Some etx).
  { replace (Z.to_nat
               (rx_pos c + (0 + 1 + 1 + Z.of_nat (length payload) + 1)))
      with (S (S (S (Z.to_nat (rx_pos c))) + length payload))%nat by lia.
    exact Hb3. }
  destruct (rx_data_loop (Z.of_nat (length payload)) cr RX_WAIT_DATA false
              res tr payload 0 (0 + 1 + 1) (mkPt LC_RX_QTD) rd 0
              (Z.of_nat (length payload)))
    as (ib' & pt' & Hloop).
  - lia.
  - lia.
  - replace (Z.to_nat (rx_pos c + (0 + 1 + 1)))
      with (S (S (Z.to_nat (rx_pos c)))) by lia.
    exact Hpay.
  - lia.
  - reflexivity.
  - lia.
  - unfold is_u8. lia.
  - replace (2 * length payload + 5 + f)%nat
      with (S (S (2 * length payload + S (S (S f))))) by lia.
    cbn [run_blocks].
    rewrite rx_at_stx_start by (try lia; exact H0).
    rewrite (rx_at_qtd_length _ _ _ _ _ _ _ _ _ _ _ _
               (Z.of_nat (length payload)))
      by (try lia; exact H1).
    rewrite Hloop. cbn [run_blocks].
    rewrite rx_for_done by lia.
    rewrite (rx_at_chk_takes _ _ _ _ _ _ _ _ _ _ _ _ chk)
      by (try lia; exact H2).
    rewrite (rx_at_etx_answers _ _ _ _ _ _ _ _ _ _ _ _ etx)
      by (try lia; exact H3).
    replace (rx_pos c + (0 + 1 + 1 + Z.of_nat (length payload) + 1 + 1))
      with (rx_pos c + (Z.of_nat (length payload) + 4)) by lia.
    rewrite Z.add_0_l, take_0. cbn [app Nat.add].
    unfold frame_accepted.
    destruct ((etx =? ETX_BYTE) && (u8 (sum_bytes payload) =? chk));
      reflexivity.
Qed.

End ReceiverFrame.

(** One call of the receiver at its start, the channel holding a whole
    frame: the state it leaves. *)
Lemma receiver_frame_turn
    (w : world) (payload : list Z) (chk etx : Z) (fuel : nat) :
  rx_at_start w ->
  (1 <= length payload <= 255)%nat ->
  (length payload <= length (rx_data (rx_state w)))%nat ->
  rx_ready (channel w) = true ->
  0 <= rx_pos (channel w) -> rx_size (channel w) <= 255 ->
  rx_pos (channel w) + Z.of_nat (length payload) + 4 <= rx_size (channel w) ->
  take (length payload + 4)
       (drop (Z.to_nat (rx_pos (channel w))) (rx_buffer (channel w)))
  = wire_bytes payload chk etx ->
  (2 * length payload + 6 <= fuel)%nat ->
  receiver_thread fuel w
  = Returns PT_YIELDED
      (mkWorld (system_time_ms w)
         (mkChannel (tx_buffer (channel w)) (rx_buffer (channel w))
            (tx_size (channel w)) (rx_size (channel w))
            (rx_pos (channel w) + (Z.of_nat (length payload) + 4))
            (tx_ready (channel w))
            (negb (rx_size (channel w)
                   <=? rx_pos (channel w) + (Z.of_nat (length payload) + 4)))
            true
            (if frame_accepted payload chk etx then ACK_BYTE else NACK_BYTE)
            (simulate_loss (channel w)))
         (tx_state w)
         (mkRx (mkPt LC_RX_YIELD)
               (payload ++ drop (length payload) (rx_data (rx_state w)))
               (Z.of_nat (length payload)) (Z.of_nat (length payload))
               (u8 (sum_bytes payload)) chk RX_WAIT_ETX
               (frame_accepted payload chk etx)
               (if frame_accepted payload chk etx
                then PROTOCOL_SUCCESS else PROTOCOL_ERROR))
         (tx_ack_value w) etx
         (trace w ++ [EvAck (if frame_accepted payload chk etx
                             then ACK_BYTE else NACK_BYTE)])).
Proof.
  intros Hstart Hlen Hrd Hrdy Hpos Hsize Hfit Hbytes Hfuel.
  destruct w as [now c tx r av ib tr].
  destruct r as [[l] rd cnt exp cc cr st m res].
  cbn [channel rx_state rx_data trace system_time_ms tx_state tx_ack_value]
    in *.
  assert (Hc : c = channel_after c 0).
  { destruct c as [txb rxb txs rxs rxp txr rxr ackr ackv loss].
    cbn [rx_ready rx_pos rx_size] in *. subst rxr. unfold channel_after.
    cbn [rx_ready rx_pos rx_size rx_buffer tx_buffer tx_size tx_ready
         ack_received ack_value simulate_loss].
    rewrite Z.add_0_r.
    replace (rxs <=? rxp) with false by (symmetry; apply Z.leb_gt; lia).
    reflexivity. }
  assert (Hrun : exists f : nat,
                 receiver_thread fuel
                   (mkWorld now c tx (mkRx (mkPt l) rd cnt exp cc cr st m res)
                            av ib tr)
                 = run_blocks rx_block (2 * length payload + 5 + f)
                     RX_AT_STX
                     (mkWorld now (channel_after c 0) tx
                        (mkRx (mkPt LC_RX_STX) rd (if l =? 0 then 0 else cnt)
                              exp 0 cr (if l =? 0 then RX_WAIT_STX else st)
                              false res)
                        av ib tr)).
  { rewrite <- Hc. unfold receiver_thread. cbn [rx_state rx_pt lc].
    destruct Hstart as [Hl|(Hl & Hcc & Hm)];
      cbn [rx_state rx_pt lc checksum_calc message_received] in *.
    - subst l. change (0 =? 0) with true. cbv iota.
      exists (fuel - (2 * length payload + 6))%nat.
      replace fuel
        with (S (2 * length payload + 5 + (fuel - (2 * length payload + 6))))
        at 1 by lia.
      cbn [run_blocks]. reflexivity.
    - subst l cc m. change (LC_RX_STX =? 0) with false.
      change (LC_RX_STX =? LC_RX_STX) with true. cbv iota.
      exists (fuel - (2 * length payload + 5))%nat.
      replace fuel
        with (2 * length payload + 5 + (fuel - (2 * length payload + 5)))%nat
        at 1 by lia.
      reflexivity. }
  destruct Hrun as (f & Hrun).
  rewrite Hrun, (rx_frame_run now c tx av Hpos Hsize payload chk etx)
    by assumption.
  reflexivity.
Qed.

(** X17.  When the channel holds a whole frame with a payload of 1 to 255
    bytes and the receiver is at its start, one call of the receiver takes
    the frame: it stores the payload and its length, answers [ACK_BYTE]
    with [PROTOCOL_SUCCESS] and [message_received] set when the end marker
    is right and the checksum byte is the sum of the payload in a
    [uint8_t], and [NACK_BYTE] with [PROTOCOL_ERROR] otherwise, and
    yields. *)
Theorem receiver_takes_frame
    (w : world) (payload : list Z) (chk etx : Z) (fuel : nat) :
  rx_at_start w ->
  (1 <= length payload <= 255)%nat ->
  (length payload <= length (rx_data (rx_state w)))%nat ->
  rx_ready (channel w) = true ->
  0 <= rx_pos (channel w) -> rx_size (channel w) <= 255 ->
  rx_pos (channel w) + Z.of_nat (length payload) + 4 <= rx_size (channel w) ->
  take (length payload + 4)
       (drop (Z.to_nat (rx_pos (channel w))) (rx_buffer (channel w)))
  = wire_bytes payload chk etx ->
  (2 * length payload + 6 <= fuel)%nat ->
  exists w',
    receiver_thread fuel w = Returns PT_YIELDED w'
    /\ trace w'
       = trace w ++ [EvAck (if frame_accepted payload chk etx
                            then ACK_BYTE else NACK_BYTE)]
    /\ message_received (rx_state w') = frame_accepted payload chk etx
    /\ rx_result (rx_state w')
       = (if frame_accepted payload chk etx
          then PROTOCOL_SUCCESS else PROTOCOL_ERROR)
    /\ expected_size (rx_state w') = Z.of_nat (length payload)
    /\ take (length payload) (rx_data (rx_state w')) = payload
    /\ length (rx_data (rx_state w')) = length (rx_data (rx_state w))
    /\ rx_pos (channel w')
       = rx_pos (channel w) + (Z.of_nat (length payload) + 4)
    /\ ack_received (channel w') = true
    /\ ack_value (channel w')
       = (if frame_accepted payload chk etx then ACK_BYTE else NACK_BYTE)
    /\ lc (rx_pt (rx_state w')) = LC_RX_YIELD.
Proof.
  intros Hstart Hlen Hrd Hrdy Hpos Hsize Hfit Hbytes Hfuel.
  rewrite (receiver_frame_turn w payload chk etx fuel) by assumption.
  eexists. split; [reflexivity|].
  cbn [trace rx_state channel message_received rx_result expected_size rx_data
       rx_pos ack_received ack_value rx_pt lc].
  rewrite take_app_length, length_app, length_drop.
  repeat split; try reflexivity. lia.
Qed.

Lemma receiver_takes_frame_witness :
  frame_accepted [16; 32] 99 ETX_BYTE = false
  /\ exists w',
       receiver_thread 20
         (after_send (wire_bytes [16; 32] 99 ETX_BYTE)
            (protothreads_init world_zero))
       = Returns PT_YIELDED w'
       /\ acks (trace w') = [NACK_BYTE]
       /\ message_received (rx_state w') = false.
Proof.
  split; [reflexivity|].
  destruct (receiver_takes_frame
              (after_send (wire_bytes [16; 32] 99 ETX_BYTE)
                 (protothreads_init world_zero))
              [16; 32] 99 ETX_BYTE 20)
    as (w' & H & Ht & Hm & _).
  - left. reflexivity.
  - cbn [length]. lia.
  - vm_compute. lia.
  - reflexivity.
  - vm_compute. intro; discriminate.
  - vm_compute. intro; discriminate.
  - vm_compute. intro; discriminate.
  - reflexivity.
  - cbn [length]. lia.
  - exists w'. split; [exact H|]. split; [|exact Hm].
    rewrite Ht. reflexivity.
Defined.

(** X18.  Once the receiver has taken a frame and yielded, it takes no
    other: whatever is sent on the channel afterwards, every later call
    returns [PT_YIELDED] and changes nothing, so nothing is acknowledged
    and the bytes stay on the channel. *)
Theorem receiver_stays_yielded
    (w w' : world) (data : list Z) (size : Z) (fuel : nat) :
  (1 <= fuel)%nat ->
  lc (rx_pt (rx_state w)) = LC_RX_YIELD ->
  channel_send data size w = Some w' ->
  receiver_thread fuel w = Returns PT_YIELDED w
  /\ receiver_thread fuel w' = Returns PT_YIELDED w'.
Proof.
  intros Hfuel Hlc Hsend. destruct fuel as [|fuel]; [lia|].
  assert (Hlc' : lc (rx_pt (rx_state w')) = LC_RX_YIELD).
  { unfold channel_send in Hsend.
    destruct (if simulate_loss (channel w) then _ else _) as [c1|];
      [|discriminate Hsend].
    cbn [mbind option_bind] in Hsend. injection Hsend as <-.
    destruct w; exact Hlc. }
  split; unfold receiver_thread; rewrite ?Hlc, ?Hlc'; reflexivity.
Qed.

Lemma receiver_stays_yielded_witness :
  receiver_thread 20
    (after_send (frame_bytes [1; 2; 3]) (after_schedule 20 (submitted [7])))
  = Returns PT_YIELDED
      (after_send (frame_bytes [1; 2; 3])
         (after_schedule 20 (submitted [7]))).
Proof.
  apply (receiver_stays_yielded (after_schedule 20 (submitted [7]))
           (after_send (frame_bytes [1; 2; 3])
              (after_schedule 20 (submitted [7])))
           (frame_bytes [1; 2; 3]) (Z.of_nat (length (frame_bytes [1; 2; 3])))
           20).
  - lia.
  - vm_compute. reflexivity.
  - vm_compute. reflexivity.
Defined.

(** ** A transmission over a channel that loses nothing *)

Lemma timer_set_running (now ms : Z) (timer : timer_t) :
  0 <= ms < TIMEOUT_MS ->
  timer_expired (u32 (now + ms)) (timer_set now timer TIMEOUT_MS) = false.
Proof.
  intros Hms. unfold timer_expired, timer_set.
  cbn [active negb timeout_ms start_time].
  unfold u32. rewrite Zminus_mod_idemp_l.
  replace (now + ms - now) with ms by lia.
  rewrite Z.mod_small by (unfold TIMEOUT_MS in Hms; lia).
  apply Z.leb_gt. lia.
Qed.

(** X19.  With a payload of 1 to 5 bytes, a channel that loses nothing
    and both threads at their start, two calls of the scheduler less than
    the timeout apart complete the transmission: the first sends the
    frame, which the receiver stores and acknowledges; the second ends
    the transmitter with [PROTOCOL_SUCCESS] and no retry.  Only one
    transmission and one acknowledgment take place. *)
Theorem lossless_transmission_succeeds
    (w : world) (data : list Z) (fuel : nat) (ms : Z) :
  (16 <= fuel)%nat ->
  lc (tx_pt (tx_state w)) = 0 -> rx_at_start w -> arrays_ok w ->
  data_to_send (tx_state w) = Some data ->
  data_size (tx_state w) = Z.of_nat (length data) ->
  (1 <= length data <= 5)%nat ->
  simulate_loss (channel w) = false ->
  ack_received (channel w) = false ->
  0 <= ms < TIMEOUT_MS ->
  exists w1 w2 stale,
    protothreads_schedule fuel w = Returns PT_YIELDED w1
    /\ protothreads_schedule fuel (advance_time ms w1) = Returns PT_YIELDED w2
    /\ transmission_complete (tx_state w2) = true
    /\ tx_result (tx_state w2) = PROTOCOL_SUCCESS
    /\ retry_count (tx_state w2) = 0
    /\ message_received (rx_state w2) = true
    /\ expected_size (rx_state w2) = Z.of_nat (length data)
    /\ take (length data) (rx_data (rx_state w2)) = data
    /\ trace w2
       = trace w ++ [EvSend (frame_bytes data ++ [stale]); EvAck ACK_BYTE].
Proof.
  intros Hfuel Hlc Hstart (Hmb & Hrxb & Hrd) Hdata Hsize Hlen Hloss Hack Hms.
  destruct w as [now c tx rx av ib tr].
  destruct c as [txb rxb txs rxs rxp txr rxr ackr ackv loss].
  destruct tx as [pt tm dat dsz mb ms0 rc tc res].
  cbn in Hlc, Hmb, Hrxb, Hrd, Hdata, Hsize, Hloss, Hack.
  subst dat dsz loss ackr.
  change (Z.to_nat (MAX_DATA_SIZE + 10)) with 266%nat in Hmb, Hrxb.
  change (Z.to_nat MAX_DATA_SIZE) with 256%nat in Hrd.
  assert (Hfl : length (frame_bytes data) = (length data + 4)%nat)
    by (unfold frame_bytes; simpl; rewrite length_app; simpl; lia).
  assert (Hst : exists stale tl, drop (length data + 4) mb = stale :: tl).
  { destruct (drop (length data + 4) mb) as [|stale tl] eqn:E; [|eauto].
    apply (f_equal length) in E. rewrite length_drop in E. simpl in E. lia. }
  destruct Hst as (stale & tl & Hst).
  assert (Hok : frame_accepted data (u8 (sum_bytes data)) ETX_BYTE = true).
  { unfold frame_accepted. rewrite !Z.eqb_refl. reflexivity. }
  unfold protothreads_schedule.
  rewrite (tx_first_turn _ _ _ _ _ _ _ _ _ _ _ _ _ _ _ _ _ _ _ _ _ _ _
             stale tl) by (try assumption; try lia; right; lia).
  cbv iota.
  rewrite (receiver_frame_turn _ data (u8 (sum_bytes data)) ETX_BYTE fuel);
    cycle 1.
  - destruct Hstart as [H|H]; [left|right]; exact H.
  - lia.
  - cbn [rx_state]. lia.
  - reflexivity.
  - cbn [channel rx_pos]. lia.
  - cbn [channel rx_size]. lia.
  - cbn [channel rx_size rx_pos]. lia.
  - cbn [channel rx_pos rx_buffer]. change (Z.to_nat 0) with 0%nat.
    rewrite drop_0, <- app_assoc.
    replace (length data + 4)%nat with (length (frame_bytes data)) by lia.
    rewrite take_app_length. reflexivity.
  - lia.
  - rewrite Hok.
    cbn [system_time_ms channel tx_state rx_state tx_ack_value
         rx_incoming_byte trace tx_buffer rx_buffer tx_size rx_size rx_pos
         tx_ready rx_ready ack_received ack_value simulate_loss rx_data].
    eexists. eexists. exists stale. split; [reflexivity|].
    unfold advance_time, set_time.
    cbn [system_time_ms channel tx_state rx_state tx_ack_value
         rx_incoming_byte trace].
    destruct fuel as [|fuel]; [lia|].
    unfold transmitter_thread. cbn [tx_state tx_pt lc].
    change (LC_TX_WAIT =? 0) with false.
    change (LC_TX_WAIT =? LC_TX_WAIT) with true. cbv iota.
    cbn [run_blocks].
    rewrite tx_wait_acknowledged
      by apply (timer_set_running now ms (mkTimer now TIMEOUT_MS true) Hms).
    change (ACK_BYTE =? ACK_BYTE) with true. cbv iota.
    unfold receiver_thread. cbn [rx_state rx_pt lc].
    change (LC_RX_YIELD =? 0) with false.
    change (LC_RX_YIELD =? LC_RX_STX) with false.
    change (LC_RX_YIELD =? LC_RX_QTD) with false.
    change (LC_RX_YIELD =? LC_RX_DATA) with false.
    change (LC_RX_YIELD =? LC_RX_CHK) with false.
    change (LC_RX_YIELD =? LC_RX_ETX) with false.
    change (LC_RX_YIELD =? LC_RX_YIELD) with true. cbv iota.
    cbn [run_blocks rx_block]. split; [reflexivity|].
    cbn [tx_state rx_state transmission_complete tx_result retry_count
         message_received expected_size rx_data trace].
    rewrite take_app_length, <- app_assoc.
    repeat split; reflexivity.
Qed.

Lemma lossless_transmission_succeeds_witness :
  exists w1 w2 stale,
    protothreads_schedule 20 (submitted [170; 187; 204]) = Returns PT_YIELDED w1
    /\ protothreads_schedule 20 (advance_time 10 w1) = Returns PT_YIELDED w2
    /\ transmission_complete (tx_state w2) = true
    /\ tx_result (tx_state w2) = PROTOCOL_SUCCESS
    /\ take 3 (rx_data (rx_state w2)) = [170; 187; 204]
    /\ trace w2
       = [EvSend (frame_bytes [170; 187; 204] ++ [stale]); EvAck ACK_BYTE].
Proof.
  destruct (lossless_transmission_succeeds
              (submitted [170; 187; 204]) [170; 187; 204] 20 10)
    as (w1 & w2 & stale & H1 & H2 & Hc & Hr & _ & _ & _ & Hd & Ht).
  - lia.
  - reflexivity.
  - left. reflexivity.
  - vm_compute. repeat split; reflexivity.
  - reflexivity.
  - reflexivity.
  - cbn [length]. lia.
  - reflexivity.
  - reflexivity.
  - unfold TIMEOUT_MS. lia.
  - exists w1, w2, stale. repeat split; assumption.
Defined.

(** ** Every call of the transmitter returns *)

Lemma sends_log_send (l : list event) (b : list Z) :
  sends (l ++ [EvSend b]) = sends l ++ [b].
Proof. unfold sends. rewrite omap_app. reflexivity. Qed.

Lemma acks_log_send (l : list event) (b : list Z) :
  acks (l ++ [EvSend b]) = acks l.
Proof. unfold acks. rewrite omap_app. cbn [omap]. apply app_nil_r. Qed.

Lemma u8_wrapped_size (n : Z) :
  251 <= n <= 255 -> u8 (5 + n) = n - 251.
Proof.
  intros Hn. unfold u8.
  replace (5 + n) with (n - 251 + 1 * 256) by lia.
  rewrite Z_mod_plus_full. apply Z.mod_small. lia.
Qed.

Section TransmitterSafety.

Variables (txb : list Z) (txs : Z) (rx : receiver_state_t) (ib : Z).

Local Abbreviation W now rxb rxs rxp txr rxr ackr ackv loss t av tr :=
  (mkWorld now (mkChannel txb rxb txs rxs rxp txr rxr ackr ackv loss) t rx av
           ib tr).

Lemma tx_begin_invalid now rxb rxs rxp txr rxr ackr ackv loss pt tm dat dsz
      mb ms rc tc res av tr :
  dat = None \/ dsz = 0 ->
  tx_block TX_BEGIN
    (W now rxb rxs rxp txr rxr ackr ackv loss
       (mkTx pt tm dat dsz mb ms rc tc res) av tr)
  = Return PT_EXITED
      (W now rxb rxs rxp txr rxr ackr ackv loss
         (mkTx PT_INIT tm dat dsz mb 10 0 false PROTOCOL_INVALID_PARAM)
         av tr).
Proof.
  intros H. unfold tx_block. cbn. change sizeof_message_buffer_u8 with 10.
  unfold protocol_create_message.
  destruct dat as [d|]; [|reflexivity].
  destruct H as [H| ->]; [discriminate|]. reflexivity.
Qed.

Lemma tx_begin_refused_any now rxb rxs rxp txr rxr ackr ackv loss pt tm data
      mb ms rc tc res av tr :
  (1 <= length data <= 255)%nat ->
  10 < u8 (5 + Z.of_nat (length data)) ->
  tx_block TX_BEGIN
    (W now rxb rxs rxp txr rxr ackr ackv loss
       (mkTx pt tm (Some data) (Z.of_nat (length data)) mb ms rc tc res)
       av tr)
  = Return PT_EXITED
      (W now rxb rxs rxp txr rxr ackr ackv loss
         (mkTx PT_INIT tm (Some data) (Z.of_nat (length data)) mb 10 0 false
               PROTOCOL_ERROR)
         av tr).
Proof.
  intros Hlen Hbig. unfold tx_block. cbn.
  change sizeof_message_buffer_u8 with 10.
  rewrite protocol_create_message_too_small by assumption.
  reflexivity.
Qed.

Lemma tx_begin_builds_any now rxb rxs rxp txr rxr ackr ackv loss pt tm data
      mb ms rc tc res av tr :
  (1 <= length data <= 255)%nat -> (length data + 4 <= length mb)%nat ->
  u8 (5 + Z.of_nat (length data)) <= 10 ->
  tx_block TX_BEGIN
    (W now rxb rxs rxp txr rxr ackr ackv loss
       (mkTx pt tm (Some data) (Z.of_nat (length data)) mb ms rc tc res)
       av tr)
  = Goto TX_WHILE
      (W now rxb rxs rxp txr rxr ackr ackv loss
         (mkTx pt tm (Some data) (Z.of_nat (length data))
               (frame_bytes data ++ drop (length data + 4) mb)
               (u8 (5 + Z.of_nat (length data))) 0 false PROTOCOL_SUCCESS)
         av tr).
Proof.
  intros Hlen Hmb Hfit.
  unfold tx_block. cbn. change sizeof_message_buffer_u8 with 10.
  rewrite protocol_create_message_success by assumption.
  reflexivity.
Qed.

End TransmitterSafety.

(** Every block of the transmitter returns or jumps to a program point of
    smaller measure; it performs no undefined access and keeps what holds
    from call to call. *)
Lemma tx_block_progress (pc : tx_pc) (w : world) :
  tx_inv pc w ->
  match tx_block pc w with
  | Goto pc' w' =>
      tx_inv pc' w'
      /\ (tx_measure pc' w' < tx_measure pc w)%nat
      /\ tx_frame w w'
      /\ (length (sends (trace w')) + tx_budget pc' w'
          <= length (sends (trace w)) + tx_budget pc w)%nat
  | Return code w' =>
      tx_safe w' /\ tx_frame w w'
      /\ sends (trace w') = sends (trace w)
      /\ 0 <= retry_count (tx_state w') <= MAX_RETRIES
      /\ tx_returned code w'
  | Undef => False
  end.
Proof.
  intros ((Hmb & Hrxb & Hrd) & Hdata & Hpc).
  destruct w as [now c tx rx av ib tr].
  destruct c as [txb rxb txs rxs rxp txr rxr ackr ackv loss].
  destruct tx as [[l] tm dat dsz mb ms rc tc res].
  unfold data_ok in Hdata.
  cbn [tx_state channel rx_state message_buffer rx_buffer rx_data
       data_to_send data_size message_size retry_count tx_pt lc] in *.
  change (Z.to_nat (MAX_DATA_SIZE + 10)) with 266%nat in Hmb, Hrxb.
  change (Z.to_nat MAX_DATA_SIZE) with 256%nat in Hrd.
  unfold tx_inv, tx_safe, tx_frame, tx_returned, arrays_ok, data_ok,
    tx_measure, tx_budget, tx_pending.
  change (Z.to_nat (MAX_DATA_SIZE + 10)) with 266%nat.
  change (Z.to_nat MAX_DATA_SIZE) with 256%nat.
  destruct pc.
  - (* TX_BEGIN *)
    assert (Hinv : dat = None \/ dsz = 0
                   \/ exists d, dat = Some d /\ dsz = Z.of_nat (length d)
                                /\ (1 <= length d <= 255)%nat).
    { destruct dat as [d|]; [|left; reflexivity].
      destruct Hdata as [-> Hd].
      destruct (Nat.eq_dec (length d) 0%nat) as [E|E].
      - right; left. rewrite E. reflexivity.
      - right; right. exists d. repeat split; lia. }
    destruct Hinv as [H|[H|(d & -> & -> & Hd)]].
    + rewrite tx_begin_invalid by (left; exact H).
      cbn [tx_state channel rx_state message_buffer rx_buffer rx_data
           data_to_send data_size message_size retry_count tx_pt lc trace
           system_time_ms rx_incoming_byte PT_INIT].
      unfold MAX_RETRIES, LC_TX_WAIT.
      repeat split; try assumption; try reflexivity; try lia; try discriminate.
      all: try (left; reflexivity).
      all: try (right; split; [left|]; reflexivity).
    + rewrite tx_begin_invalid by (right; exact H).
      cbn [tx_state channel rx_state message_buffer rx_buffer rx_data
           data_to_send data_size message_size retry_count tx_pt lc trace
           system_time_ms rx_incoming_byte PT_INIT].
      unfold MAX_RETRIES, LC_TX_WAIT.
      repeat split; try assumption; try reflexivity; try lia; try discriminate.
      all: try (left; reflexivity).
      all: try (right; split; [left|]; reflexivity).
    + destruct (Z.ltb_spec 10 (u8 (5 + Z.of_nat (length d)))) as [Hbig|Hfit].
      * rewrite tx_begin_refused_any by assumption.
        cbn [tx_state channel rx_state message_buffer rx_buffer rx_data
             data_to_send data_size message_size retry_count tx_pt lc trace
             system_time_ms rx_incoming_byte PT_INIT].
        unfold MAX_RETRIES, LC_TX_WAIT.
        repeat split; try assumption; try reflexivity; try lia;
          try discriminate.
        all: try (left; reflexivity).
      all: try (right; split; [left|]; reflexivity).
      * rewrite tx_begin_builds_any by (try assumption; lia).
        cbn [tx_state channel rx_state message_buffer rx_buffer rx_data
             data_to_send data_size message_size retry_count tx_pt lc trace
             system_time_ms rx_incoming_byte ack_received].
        pose proof (u8_range (5 + Z.of_nat (length d))) as Hu.
        unfold is_u8 in Hu. unfold MAX_RETRIES.
        assert (Hfl : length (frame_bytes d) = (length d + 4)%nat)
          by (unfold frame_bytes; simpl; rewrite length_app; simpl; lia).
        repeat split; try assumption; try reflexivity; try lia.
        -- rewrite length_app, length_drop, Hfl. lia.
        -- destruct ackr; lia.
        -- destruct ackr; lia.
  - (* TX_WHILE *)
    destruct Hpc as (Hms & Hrc).
    destruct (Z.ltb_spec rc MAX_RETRIES) as [Hlt|Hge].
    + rewrite tx_while_sends by first [assumption | lia | right; lia].
      cbn [tx_state channel rx_state message_buffer rx_buffer rx_data
           data_to_send data_size message_size retry_count tx_pt lc trace
           system_time_ms rx_incoming_byte ack_received timer].
      rewrite sends_log_send, acks_log_send, length_app.
      pose proof (timer_set_not_expired now tm) as Hfresh.
      unfold timer_set in Hfresh. rewrite Hfresh, orb_false_r.
      assert (Hlen : length (if loss then rxb
                             else take 0 rxb ++ take (Z.to_nat ms) mb
                                    ++ drop (0 + Z.to_nat ms) rxb)
                     = 266%nat).
      { destruct loss; [exact Hrxb|].
        rewrite take_0, !length_app, length_take, length_drop.
        cbn [length]. lia. }
      unfold MAX_RETRIES in *.
      repeat split; try assumption; try reflexivity; try lia.
      * destruct ackr; lia.
      * cbn [length]. destruct ackr; lia.
    + rewrite tx_while_gives_up by exact Hge.
      cbn [tx_state channel rx_state message_buffer rx_buffer rx_data
           data_to_send data_size message_size retry_count tx_pt lc trace
           system_time_ms rx_incoming_byte].
      unfold MAX_RETRIES, LC_TX_WAIT in *.
      repeat split; try assumption; try reflexivity; try lia;
        try discriminate.
      all: try (left; reflexivity).
      all: try (right; split; [right|]; reflexivity).
  - (* TX_WAIT *)
    destruct Hpc as (Hl & Hms & Hrc). subst l.
    assert (Hu : u8 (rc + 1) = rc + 1)
      by (apply u8_small; unfold is_u8, MAX_RETRIES in *; lia).
    destruct (timer_expired now tm) eqn:Hexp.
    + rewrite tx_wait_expired by exact Hexp. rewrite Hu.
      cbn [tx_state channel rx_state message_buffer rx_buffer rx_data
           data_to_send data_size message_size retry_count tx_pt lc trace
           system_time_ms rx_incoming_byte ack_received timer].
      rewrite Hexp, orb_true_r. unfold MAX_RETRIES in *.
      repeat split; try assumption; try reflexivity; lia.
    + destruct ackr.
      * rewrite tx_wait_acknowledged by exact Hexp.
        destruct (ackv =? ACK_BYTE).
        -- cbn [tx_state channel rx_state message_buffer rx_buffer rx_data
                data_to_send data_size message_size retry_count tx_pt lc
                trace system_time_ms rx_incoming_byte PT_INIT].
           unfold MAX_RETRIES, LC_TX_WAIT in *.
           repeat split; try assumption; try reflexivity; try lia;
             try discriminate.
           all: try (left; reflexivity).
      all: try (right; split; [left|]; reflexivity).
        -- assert (Hrc' : 0 <= (if ackv =? NACK_BYTE then u8 (rc + 1) else rc)
                          <= MAX_RETRIES)
             by (destruct (ackv =? NACK_BYTE); rewrite ?Hu; lia).
           cbn [tx_state channel rx_state message_buffer rx_buffer rx_data
                data_to_send data_size message_size retry_count tx_pt lc
                trace system_time_ms rx_incoming_byte ack_received timer
                orb].
           repeat split; try assumption; try reflexivity; lia.
      * rewrite tx_wait_idle by exact Hexp.
        cbn [tx_state channel rx_state message_buffer rx_buffer rx_data
             data_to_send data_size message_size retry_count tx_pt lc
             trace system_time_ms rx_incoming_byte].
        unfold MAX_RETRIES in *.
        repeat split; try assumption; try reflexivity; try lia.
        all: try (left; split; reflexivity).
        all: try (right; repeat split; first [reflexivity | lia]).
Qed.

(** A call of the transmitter returns: fuel above the measure is enough,
    and the result does not depend on the fuel. *)
Lemma tx_run_returns (n : nat) :
  forall (pc : tx_pc) (w : world),
    tx_inv pc w -> (tx_measure pc w < n)%nat ->
    exists code w',
      (forall fuel, (n <= fuel)%nat ->
                    run_blocks tx_block fuel pc w = Returns code w')
      /\ tx_safe w' /\ tx_frame w w'
      /\ (length (sends (trace w'))
          <= length (sends (trace w)) + tx_budget pc w)%nat
      /\ 0 <= retry_count (tx_state w') <= MAX_RETRIES
      /\ tx_returned code w'.
Proof.
  induction n as [|n IH]; intros pc w Hinv Hm; [lia|].
  pose proof (tx_block_progress pc w Hinv) as Hp.
  destruct (tx_block pc w) as [pc' w1|code w1|] eqn:Hb; [| |contradiction].
  - destruct Hp as (Hinv1 & Hlt & (Hf1 & Hf2 & Hf3 & Hf4) & Hbud).
    destruct (IH pc' w1 Hinv1)
      as (code & w' & Hrun & Hsafe & (Hg1 & Hg2 & Hg3 & Hg4) & Hs & Hrc & Hret);
      [lia|].
    exists code, w'. split.
    + intros [|fuel] Hf; [lia|]. cbn [run_blocks]. rewrite Hb.
      apply Hrun. lia.
    + split; [exact Hsafe|]. split.
      * unfold tx_frame. rewrite Hg1, Hg2, Hg3, Hg4. auto.
      * split; [lia|]. split; assumption.
  - destruct Hp as (Hsafe & Hfr & Hs & Hrc & Hret).
    exists code, w1. split.
    + intros [|fuel] Hf; [lia|]. cbn [run_blocks]. rewrite Hb. reflexivity.
    + split; [exact Hsafe|]. split; [exact Hfr|].
      split; [rewrite Hs; lia|]. split; assumption.
Qed.

(** One call of the transmitter, from between two calls. *)
Lemma transmitter_call_returns (w : world) :
  tx_safe w ->
  exists code w',
    (forall fuel, (6 <= fuel)%nat ->
                  transmitter_thread fuel w = Returns code w')
    /\ tx_safe w'
    /\ tx_frame w w'
    /\ (length (sends (trace w')) <= length (sends (trace w)) + 2)%nat
    /\ 0 <= retry_count (tx_state w') <= MAX_RETRIES
    /\ tx_returned code w'.
Proof.
  intros (Harr & Hdata & [H0|(H1 & Hms & Hr)]); unfold transmitter_thread.
  - rewrite H0. change (0 =? 0) with true. cbv iota.
    destruct (tx_run_returns 6 TX_BEGIN w)
      as (code & w' & Hrun & Hsafe & Hfr & Hs & Hrc & Hret).
    + split; [exact Harr|]. split; [exact Hdata | exact I].
    + cbn [tx_measure]. lia.
    + exists code, w'. cbn [tx_budget] in Hs. auto 10.
  - rewrite H1. change (LC_TX_WAIT =? 0) with false.
    change (LC_TX_WAIT =? LC_TX_WAIT) with true. cbv iota.
    destruct (tx_run_returns 6 TX_WAIT w)
      as (code & w' & Hrun & Hsafe & Hfr & Hs & Hrc & Hret).
    + split; [exact Harr|]. split; [exact Hdata|]. auto.
    + cbn [tx_measure]. destruct (tx_pending w); lia.
    + exists code, w'. cbn [tx_budget] in Hs.
      split; [exact Hrun|]. split; [exact Hsafe|]. split; [exact Hfr|].
      split; [destruct (tx_pending w); lia|]. split; assumption.
Qed.

(** X20.  However often the transmitter is called and however the clock
    advances in between, every call returns and stays inside its arrays,
    whatever the payload submitted (none, empty, or up to 255 bytes) and
    whatever the channel holds.  Each call returns [PT_WAITING],
    [PT_EXITED] or [PT_ENDED] and transmits at most twice; the calls
    acknowledge nothing, leave the receiver state alone and keep the
    retry counter at most [MAX_RETRIES]. *)
Theorem transmitter_calls_are_safe (deltas : list Z) :
  forall (w : world) (fuel : nat),
    (6 <= fuel)%nat -> tx_safe w ->
    exists codes w',
      drive_transmitter fuel deltas w = Some (codes, w')
      /\ length codes = length deltas
      /\ Forall (fun c => c = PT_WAITING \/ c = PT_EXITED \/ c = PT_ENDED)
                codes
      /\ tx_safe w'
      /\ rx_state w' = rx_state w
      /\ acks (trace w') = acks (trace w)
      /\ (length (sends (trace w'))
          <= length (sends (trace w)) + 2 * length deltas)%nat
      /\ (deltas <> [] -> 0 <= retry_count (tx_state w') <= MAX_RETRIES).
Proof.
  induction deltas as [|d deltas IH]; intros w fuel Hfuel Hsafe.
  - exists [], w. cbn [drive_transmitter length].
    split; [reflexivity|]. split; [reflexivity|]. split; [constructor|].
    split; [exact Hsafe|]. split; [reflexivity|]. split; [reflexivity|].
    split; [lia|]. intros H. contradiction H. reflexivity.
  - destruct (transmitter_call_returns w Hsafe)
      as (code & w1 & Hrun & Hsafe1 & (Hf1 & Hf2 & Hf3 & Hf4) & Hs1 & Hrc1
          & Hret).
    assert (Hsafe2 : tx_safe (advance_time d w1))
      by (destruct w1; exact Hsafe1).
    destruct (IH (advance_time d w1) fuel Hfuel Hsafe2)
      as (codes & w' & Hdrive & Hlen & Hcodes & Hsafe' & Hrx & Hacks & Hs
          & Hrc).
    exists (code :: codes), w'. cbn [drive_transmitter].
    rewrite (Hrun fuel Hfuel), Hdrive.
    replace (trace (advance_time d w1)) with (trace w1) in *
      by (destruct w1; reflexivity).
    replace (rx_state (advance_time d w1)) with (rx_state w1) in *
      by (destruct w1; reflexivity).
    split; [reflexivity|]. split; [cbn [length]; lia|]. split.
    { constructor; [|exact Hcodes].
      destruct Hret as [[-> _]|[[->| ->] _]]; auto. }
    split; [exact Hsafe'|]. split; [congruence|].
    split; [congruence|]. split; [cbn [length]; lia|].
    intros _. destruct deltas as [|d' deltas'].
    + cbn [drive_transmitter] in Hdrive. injection Hdrive as _ <-.
      destruct w1; exact Hrc1.
    + apply Hrc. discriminate.
Qed.

Lemma transmitter_calls_are_safe_witness :
  exists codes w',
    drive_transmitter 6 [10; 2000; 10]
      (set_simulate_loss true (submitted (replicate 255 7)))
    = Some (codes, w')
    /\ length codes = 3%nat
    /\ tx_safe w'.
Proof.
  destruct (transmitter_calls_are_safe [10; 2000; 10]
              (set_simulate_loss true (submitted (replicate 255 7))) 6)
    as (codes & w' & Hd & Hl & _ & Hs & _).
  - lia.
  - split; [|split].
    + vm_compute. repeat split; reflexivity.
    + unfold data_ok.
      change (data_to_send
                (tx_state
                   (set_simulate_loss true (submitted (replicate 255 7)))))
        with (Some (replicate 255 7)).
      split; [reflexivity | rewrite length_replicate; lia].
    + left. reflexivity.
  - exists codes, w'. split; [exact Hd|]. split; [exact Hl | exact Hs].
Defined.

(** ** Every call of the receiver returns *)

Lemma sends_log_ack (l : list event) (a : Z) :
  sends (l ++ [EvAck a]) = sends l.
Proof. unfold sends. rewrite omap_app. cbn [omap]. apply app_nil_r. Qed.

Lemma rx_frame_trans (w1 w2 w3 : world) :
  rx_frame w1 w2 -> rx_frame w2 w3 -> rx_frame w1 w3.
Proof.
  intros (A1 & A2 & A3 & A4 & A5 & A6 & A7) (B1 & B2 & B3 & B4 & B5 & B6 & B7).
  unfold rx_frame. rewrite B1, B2, B3, B4, B5, B6, B7. auto 10.
Qed.

(** No block of the receiver touches the transmitter, the clock or the
    bytes on the channel, or transmits; a block that returns returns
    [PT_WAITING] or [PT_YIELDED]. *)
Lemma rx_block_frame (pc : rx_pc) (w : world) :
  match rx_block pc w with
  | Goto _ w' => rx_frame w w'
  | Return code w' =>
      rx_frame w w' /\ (code = PT_WAITING \/ code = PT_YIELDED)
  | Undef => True
  end.
Proof.
  destruct w as [now c tx r av ib tr].
  destruct c as [txb rxb txs rxs rxp txr rxr ackr ackv loss].
  destruct r as [pt rd cnt exp cc cr st m res].
  destruct pc; unfold rx_block, receive_incoming, channel_receive_byte;
    cbn [channel rx_ready rx_pos rx_size rx_buffer];
    try destruct (rxr && (rxp <? rxs));
    cbn [negb andb rx_incoming_byte set_rx_incoming_byte set_channel
         rx_state checksum_calc checksum_recv rx_count expected_size];
    repeat match goal with
      | |- context [if ?b then _ else _] => destruct b
      end;
    unfold rx_frame, channel_send_ack, upd_rx;
    cbn [channel rx_state tx_state system_time_ms tx_ack_value trace
         rx_buffer rx_size rx_data set_rx set_channel log set_rx_pt set_state
         set_rx_count set_checksum_calc set_message_received
         set_expected_size set_rx_data set_checksum_recv set_rx_result
         rx_pt rx_count expected_size checksum_calc checksum_recv state
         message_received rx_result tx_buffer tx_size rx_pos tx_ready
         rx_ready ack_received ack_value simulate_loss rx_incoming_byte];
    rewrite ?sends_log_ack, ?length_insert;
    auto 12.
Qed.

Lemma rx_run_frame (fuel : nat) :
  forall (pc : rx_pc) (w : world) (code : Z) (w' : world),
    run_blocks rx_block fuel pc w = Returns code w' ->
    rx_frame w w' /\ (code = PT_WAITING \/ code = PT_YIELDED).
Proof.
  induction fuel as [|fuel IH]; intros pc w code w' Hrun; [discriminate|].
  cbn [run_blocks] in Hrun.
  pose proof (rx_block_frame pc w) as Hb.
  destruct (rx_block pc w) as [pc' w1|code1 w1|]; [| |discriminate].
  - destruct (IH _ _ _ _ Hrun) as [Hf Hc].
    split; [exact (rx_frame_trans _ _ _ Hb Hf) | exact Hc].
  - injection Hrun as <- <-. exact Hb.
Qed.

Lemma rx_block_chan (pc : rx_pc) (w : world) :
  chan_ok (channel w) ->
  match rx_block pc w with
  | Goto _ w' | Return _ w' => chan_ok (channel w')
  | Undef => True
  end.
Proof.
  intros Hok.
  destruct pc; unfold rx_block;
    try (destruct (receive_incoming_spec w Hok)
          as [->|(w1 & -> & Hok1 & _)]; cbn [negb andb]; [exact Hok|]).
  - destruct w; exact Hok.
  - destruct (rx_incoming_byte w1 =? STX_BYTE); cbn [negb];
      [destruct w1|]; exact Hok1.
  - destruct (rx_incoming_byte w1 =? 0).
    + apply channel_send_ack_spec. exact Hok1.
    + destruct w1; exact Hok1.
  - destruct (rx_count (rx_state w) <? expected_size (rx_state w));
      destruct w; exact Hok.
  - destruct w1; exact Hok1.
  - destruct w1; exact Hok1.
  - destruct ((rx_incoming_byte w1 =? ETX_BYTE)
              && (checksum_calc (rx_state w1) =? checksum_recv (rx_state w1)));
      cbn [channel upd_rx set_rx]; apply channel_send_ack_spec;
      destruct w1; exact Hok1.
  - exact Hok.
Qed.

Lemma rx_run_chan (fuel : nat) :
  forall (pc : rx_pc) (w : world) (code : Z) (w' : world),
    chan_ok (channel w) ->
    run_blocks rx_block fuel pc w = Returns code w' ->
    chan_ok (channel w').
Proof.
  induction fuel as [|fuel IH]; intros pc w code w' Hok Hrun; [discriminate|].
  cbn [run_blocks] in Hrun.
  pose proof (rx_block_chan pc w Hok) as Hb.
  destruct (rx_block pc w) as [pc' w1|code1 w1|]; [| |discriminate].
  - exact (IH _ _ _ _ Hb Hrun).
  - injection Hrun as <- <-. exact Hb.
Qed.

(** One call of the receiver. *)
Lemma receiver_call_total (w : world) :
  chan_ok (channel w) ->
  exists code w',
    (forall fuel, (600 <= fuel)%nat ->
                  receiver_thread fuel w = Returns code w')
    /\ rx_frame w w'
    /\ (code = PT_WAITING \/ code = PT_YIELDED \/ code = PT_ENDED)
    /\ (exists ev, trace w' = trace w ++ ev)
    /\ chan_ok (channel w').
Proof.
  intros Hok.
  assert (Hm : forall pc, (rx_measure pc w < 600)%nat).
  { intros pc. unfold rx_measure. pose proof (remaining_bound _ Hok).
    destruct pc; cbn [rx_weight]; lia. }
  assert (Hpc : forall pc,
             exists code w',
               (forall fuel, (600 <= fuel)%nat ->
                             run_blocks rx_block fuel pc w = Returns code w')
               /\ rx_frame w w'
               /\ (code = PT_WAITING \/ code = PT_YIELDED \/ code = PT_ENDED)
               /\ (exists ev, trace w' = trace w ++ ev)
               /\ chan_ok (channel w')).
  { intros pc.
    destruct (rx_run_returns 600 pc w Hok (Hm pc))
      as (code & w' & ev & Hrun & Htr).
    destruct (rx_run_frame 600 pc w code w' (Hrun 600%nat (le_n _)))
      as [Hf Hc].
    exists code, w'. split; [exact Hrun|]. split; [exact Hf|].
    split; [tauto|]. split; [exists ev; exact Htr|].
    exact (rx_run_chan 600 pc w code w' Hok (Hrun 600%nat (le_n _))). }
  unfold receiver_thread.
  repeat match goal with
    | |- context [if ?b then _ else _] => destruct b; [apply Hpc|]
    end.
  exists PT_ENDED, (upd_rx (set_rx_pt (mkPt 0)) w).
  split; [reflexivity|]. split.
  - destruct w as [now c tx r av ib tr]. destruct r. unfold rx_frame.
    cbn. auto 10.
  - split; [auto|]. split; [|destruct w; exact Hok].
    exists []. destruct w. cbn. rewrite app_nil_r. reflexivity.
Qed.

(** X21.  Every call of the receiver returns, whatever the channel holds:
    it takes bytes until the channel is empty or a frame is complete.  It
    returns [PT_WAITING] or [PT_YIELDED] (or [PT_ENDED], when the
    continuation is no label of the thread), never transmits, and leaves
    the transmitter state, the clock and the bytes of the channel as they
    are. *)
Theorem receiver_call_returns (w : world) :
  chan_ok (channel w) ->
  exists code w',
    (forall fuel, (600 <= fuel)%nat ->
                  receiver_thread fuel w = Returns code w')
    /\ rx_frame w w'
    /\ (code = PT_WAITING \/ code = PT_YIELDED \/ code = PT_ENDED)
    /\ (exists ev, trace w' = trace w ++ ev).
Proof.
  intros Hok.
  destruct (receiver_call_total w Hok)
    as (code & w' & Hrun & Hf & Hc & Hev & _).
  exists code, w'. auto.
Qed.

Lemma receiver_call_returns_witness :
  exists code w',
    receiver_thread 600 world_zero_length_frame = Returns code w'
    /\ rx_frame world_zero_length_frame w'.
Proof.
  destruct (receiver_call_returns world_zero_length_frame)
    as (code & w' & Hrun & Hf & _).
  - vm_compute. split; intro; discriminate.
  - exists code, w'. split; [apply Hrun; lia | exact Hf].
Defined.

(** ** Payloads the transmitter cannot send *)

(** X22.  A payload of 6 to 250 bytes is never transmitted: the size the
    transmitter declares for its message buffer is
    [(uint8_t)sizeof(tx->message_buffer)], which is 10, so the encoder
    refuses and the thread exits with [PROTOCOL_ERROR], back at its
    start, with nothing sent and the channel untouched, although the
    buffer has room for the frame. *)
Theorem payload_of_6_to_250_bytes_is_refused
    (w : world) (data : list Z) (fuel : nat) :
  (1 <= fuel)%nat ->
  lc (tx_pt (tx_state w)) = 0 -> arrays_ok w ->
  data_to_send (tx_state w) = Some data ->
  data_size (tx_state w) = Z.of_nat (length data) ->
  (6 <= length data <= 250)%nat ->
  exists w',
    transmitter_thread fuel w = Returns PT_EXITED w'
    /\ tx_result (tx_state w') = PROTOCOL_ERROR
    /\ transmission_complete (tx_state w') = false
    /\ retry_count (tx_state w') = 0
    /\ lc (tx_pt (tx_state w')) = 0
    /\ trace w' = trace w
    /\ channel w' = channel w
    /\ message_buffer (tx_state w') = message_buffer (tx_state w)
    /\ (length data + 4 <= length (message_buffer (tx_state w)))%nat.
Proof.
  intros Hfuel Hlc (Hmb & _) Hdata Hsize Hlen.
  rewrite (oversized_payload_turn w data fuel Hfuel Hlc Hdata Hsize Hlen).
  eexists. split; [reflexivity|].
  change (Z.to_nat (MAX_DATA_SIZE + 10)) with 266%nat in Hmb.
  destruct w. cbn. repeat split; try reflexivity. cbn in Hmb. lia.
Qed.

Lemma payload_of_6_to_250_bytes_is_refused_witness :
  exists w',
    transmitter_thread 5 (submitted (replicate 250 1)) = Returns PT_EXITED w'
    /\ tx_result (tx_state w') = PROTOCOL_ERROR
    /\ trace w' = [].
Proof.
  destruct (payload_of_6_to_250_bytes_is_refused
              (submitted (replicate 250 1)) (replicate 250 1) 5)
    as (w' & H & Hr & _ & _ & _ & Ht & _).
  - lia.
  - reflexivity.
  - vm_compute. repeat split; reflexivity.
  - reflexivity.
  - reflexivity.
  - rewrite length_replicate. lia.
  - exists w'. split; [exact H|]. split; [exact Hr | exact Ht].
Defined.

(** X23.  A payload of 251 to 255 bytes is accepted, but the size the
    encoder reports is [5 + qtd] in a [uint8_t], which wraps: the
    transmitter sends only the first [qtd - 251] bytes of the frame (none
    to four of them) and waits for an acknowledgment. *)
Theorem payload_over_250_bytes_is_truncated
    (w : world) (data : list Z) (fuel : nat) :
  (3 <= fuel)%nat ->
  lc (tx_pt (tx_state w)) = 0 -> arrays_ok w ->
  data_to_send (tx_state w) = Some data ->
  data_size (tx_state w) = Z.of_nat (length data) ->
  (251 <= length data <= 255)%nat ->
  ack_received (channel w) = false ->
  exists w',
    transmitter_thread fuel w = Returns PT_WAITING w'
    /\ tx_result (tx_state w') = PROTOCOL_SUCCESS
    /\ message_size (tx_state w') = Z.of_nat (length data) - 251
    /\ take (length data + 4) (message_buffer (tx_state w'))
       = frame_bytes data
    /\ trace w'
       = trace w ++ [EvSend (take (length data - 251) (frame_bytes data))].
Proof.
  intros Hfuel Hlc (Hmb & Hrxb & _) Hdata Hsize Hlen Hack.
  destruct w as [now c tx rx av ib tr].
  destruct c as [txb rxb txs rxs rxp txr rxr ackr ackv loss].
  destruct tx as [[l] tm dat dsz mb ms rc tc res].
  cbn in Hlc, Hmb, Hrxb, Hdata, Hsize, Hack. subst l dat dsz ackr.
  change (Z.to_nat (MAX_DATA_SIZE + 10)) with 266%nat in Hmb, Hrxb.
  assert (Hu : u8 (5 + Z.of_nat (length data)) = Z.of_nat (length data) - 251)
    by (apply u8_wrapped_size; lia).
  assert (Hfl : length (frame_bytes data) = (length data + 4)%nat)
    by (unfold frame_bytes; simpl; rewrite length_app; simpl; lia).
  destruct fuel as [|[|[|fuel]]]; try lia.
  unfold transmitter_thread. cbn [tx_state tx_pt lc].
  change (0 =? 0) with true. cbv iota. cbn [run_blocks].
  rewrite tx_begin_builds_any by (rewrite ?Hu; lia). rewrite Hu.
  rewrite tx_while_sends;
    [|unfold MAX_RETRIES; lia
     |rewrite length_app, Hfl; lia
     |right; lia].
  rewrite tx_wait_idle by apply (timer_set_not_expired now tm).
  eexists. split; [reflexivity|].
  cbn [tx_state tx_result message_size message_buffer trace].
  split; [reflexivity|]. split; [reflexivity|]. split.
  - rewrite <- Hfl. apply take_app_length.
  - rewrite take_app_le by lia.
    replace (Z.to_nat (Z.of_nat (length data) - 251))
      with (length data - 251)%nat by lia.
    reflexivity.
Qed.

Lemma payload_over_250_bytes_is_truncated_witness :
  exists w',
    transmitter_thread 5 (submitted (replicate 253 7)) = Returns PT_WAITING w'
    /\ message_size (tx_state w') = 2
    /\ trace w' = [EvSend [STX_BYTE; 253]].
Proof.
  destruct (payload_over_250_bytes_is_truncated
              (submitted (replicate 253 7)) (replicate 253 7) 5)
    as (w' & H & _ & Hm & _ & Ht).
  - lia.
  - reflexivity.
  - vm_compute. repeat split; reflexivity.
  - reflexivity.
  - reflexivity.
  - rewrite length_replicate. lia.
  - reflexivity.
  - exists w'. split; [exact H|]. split.
    + rewrite Hm, length_replicate. reflexivity.
    + rewrite Ht, length_replicate. reflexivity.
Defined.

(** ** The main loop *)

Lemma tx_block_chan (pc : tx_pc) (w : world) :
  tx_inv pc w -> chan_ok (channel w) ->
  match tx_block pc w with
  | Goto _ w' | Return _ w' => chan_ok (channel w')
  | Undef => True
  end.
Proof.
  intros (_ & Hdata & Hpc) (Hpos & Hsize).
  destruct w as [now c tx rx av ib tr].
  destruct c as [txb rxb txs rxs rxp txr rxr ackr ackv loss].
  destruct tx as [[l] tm dat dsz mb ms rc tc res].
  cbn [channel rx_pos rx_size tx_state message_size retry_count] in *.
  destruct pc.
  - unfold tx_block. cbn.
    destruct (protocol_create_message _ _ _ _) as [[[r buf] size]|];
      [|exact I].
    cbn. destruct (negb (r =? PROTOCOL_SUCCESS)); split; assumption.
  - destruct Hpc as (Hms & Hrc). unfold tx_block, channel_send.
    cbn [tx_state retry_count message_buffer message_size channel
         simulate_loss rx_buffer].
    destruct (rc <? MAX_RETRIES); [|split; assumption].
    destruct loss.
    + cbn. split; assumption.
    + destruct (memcpy rxb 0 mb (Z.to_nat ms)); [|exact I].
      unfold chan_ok. cbn. lia.
  - unfold tx_block, poll_ack, channel_ack_received.
    cbn [channel ack_received].
    destruct ackr; cbn;
      repeat match goal with
        | |- context [if ?b then _ else _] => destruct b
        end;
      cbn; split; assumption.
Qed.

Lemma tx_run_chan (fuel : nat) :
  forall (pc : tx_pc) (w : world) (code : Z) (w' : world),
    tx_inv pc w -> chan_ok (channel w) ->
    run_blocks tx_block fuel pc w = Returns code w' ->
    chan_ok (channel w').
Proof.
  induction fuel as [|fuel IH];
    intros pc w code w' Hinv Hok Hrun; [discriminate|].
  cbn [run_blocks] in Hrun.
  pose proof (tx_block_chan pc w Hinv Hok) as Hb.
  pose proof (tx_block_progress pc w Hinv) as Hp.
  destruct (tx_block pc w) as [pc' w1|code1 w1|]; [| |discriminate].
  - destruct Hp as (Hinv1 & _). exact (IH _ _ _ _ Hinv1 Hb Hrun).
  - injection Hrun as <- <-. exact Hb.
Qed.

Lemma transmitter_call_chan (w : world) (fuel : nat) (code : Z) (w' : world) :
  tx_safe w -> chan_ok (channel w) ->
  transmitter_thread fuel w = Returns code w' ->
  chan_ok (channel w').
Proof.
  intros (Harr & Hdata & [H0|(H1 & Hms & Hr)]) Hok; unfold transmitter_thread.
  - rewrite H0. change (0 =? 0) with true. cbv iota.
    apply tx_run_chan; [|exact Hok].
    split; [exact Harr|]. split; [exact Hdata | exact I].
  - rewrite H1. change (LC_TX_WAIT =? 0) with false.
    change (LC_TX_WAIT =? LC_TX_WAIT) with true. cbv iota.
    apply tx_run_chan; [|exact Hok].
    split; [exact Harr|]. split; [exact Hdata|]. auto.
Qed.

Lemma rx_frame_keeps_tx_safe (w w' : world) :
  rx_frame w w' -> tx_safe w -> tx_safe w'.
Proof.
  intros (F1 & F2 & F3 & F4 & F5 & F6 & F7) ((A1 & A2 & A3) & Hd & Hl).
  unfold tx_safe, arrays_ok, data_ok in *.
  rewrite F1, F5, F7. auto.
Qed.

(** *** The checked receiver *)

(** Under [rx_safe] the read of the receiver is inside [rx_buffer]. *)
Lemma checked_receive_incoming (w : world) :
  rx_safe w -> Checked.receive_incoming w = Some (receive_incoming w).
Proof.
  intros ((_ & Hrxb & _) & (Hpos & Hsize) & _).
  destruct w as [now c tx r av ib tr].
  destruct c as [txb rxb txs rxs rxp txr rxr ackr ackv loss].
  cbn [channel rx_pos rx_size rx_buffer] in *.
  change (Z.to_nat (MAX_DATA_SIZE + 10)) with 266%nat in Hrxb.
  unfold Checked.receive_incoming, receive_incoming, channel_receive_byte.
  cbn [channel rx_ready rx_pos rx_size rx_buffer].
  destruct rxr; [|reflexivity].
  destruct (Z.ltb_spec rxp rxs) as [Hlt|Hge]; [|reflexivity].
  cbn [andb].
  destruct (lookup_lt_is_Some_2 rxb (Z.to_nat rxp)) as [b Hb]; [lia|].
  rewrite Hb. reflexivity.
Qed.

(** Under [rx_safe] no block of the receiver reads or writes outside its
    arrays: the checked block is the block. *)
Lemma checked_rx_block (pc : rx_pc) (w : world) :
  rx_safe w -> Checked.rx_block pc w = rx_block pc w.
Proof.
  intros Hsafe.
  pose proof (checked_receive_incoming w Hsafe) as Hrecv.
  destruct Hsafe as ((_ & _ & Hrd) & Hok & Hcnt).
  change (Z.to_nat MAX_DATA_SIZE) with 256%nat in Hrd.
  destruct pc; unfold Checked.rx_block, rx_block; rewrite ?Hrecv;
    try reflexivity;
    try (destruct (receive_incoming w) as [got w1]; reflexivity).
  (* RX_AT_DATA: the write *)
  destruct (receive_incoming_spec w Hok)
    as [->|(w1 & -> & _ & _ & Hrx & _)]; [reflexivity|].
  cbn [negb]. rewrite Hrx.
  rewrite store_Some by (unfold is_u8 in Hcnt; lia).
  unfold upd_rx. rewrite Hrx. reflexivity.
Qed.

Lemma rx_block_count (pc : rx_pc) (w : world) :
  is_u8 (rx_count (rx_state w)) ->
  match rx_block pc w with
  | Goto _ w' | Return _ w' => is_u8 (rx_count (rx_state w'))
  | Undef => True
  end.
Proof.
  intros Hcnt.
  destruct w as [now c tx r av ib tr].
  destruct c as [txb rxb txs rxs rxp txr rxr ackr ackv loss].
  destruct r as [pt rd cnt exp cc cr st m res].
  cbn [rx_state rx_count] in Hcnt.
  destruct pc; unfold rx_block, receive_incoming, channel_receive_byte;
    cbn [channel rx_ready rx_pos rx_size rx_buffer];
    try destruct (rxr && (rxp <? rxs));
    cbn [negb andb rx_incoming_byte set_rx_incoming_byte set_channel
         rx_state checksum_calc checksum_recv rx_count expected_size];
    repeat match goal with
      | |- context [if ?b then _ else _] => destruct b
      end;
    unfold channel_send_ack, upd_rx;
    cbn [channel rx_state tx_state system_time_ms tx_ack_value trace
         rx_buffer rx_size rx_data set_rx set_channel log set_rx_pt set_state
         set_rx_count set_checksum_calc set_message_received
         set_expected_size set_rx_data set_checksum_recv set_rx_result
         rx_pt rx_count expected_size checksum_calc checksum_recv state
         message_received rx_result rx_incoming_byte];
    first [exact Hcnt | apply u8_range | (unfold is_u8; lia)].
Qed.

(** Every block of the receiver keeps [rx_safe]. *)
Lemma rx_block_safe (pc : rx_pc) (w : world) :
  rx_safe w ->
  match rx_block pc w with
  | Goto _ w' | Return _ w' => rx_safe w'
  | Undef => True
  end.
Proof.
  intros ((Hmb & Hrxb & Hrd) & Hok & Hcnt).
  pose proof (rx_block_frame pc w) as Hf.
  pose proof (rx_block_chan pc w Hok) as Hc.
  pose proof (rx_block_count pc w Hcnt) as Hn.
  destruct (rx_block pc w) as [pc' w'|code w'|]; [| |exact I].
  - destruct Hf as (F1 & _ & _ & _ & F5 & _ & F7).
    unfold rx_safe, arrays_ok. rewrite F1, F5, F7. auto.
  - destruct Hf as ((F1 & _ & _ & _ & F5 & _ & F7) & _).
    unfold rx_safe, arrays_ok. rewrite F1, F5, F7. auto.
Qed.

(** A run of the checked receiver is the run of the receiver: it never
    comes to an access outside the arrays. *)
Lemma checked_rx_run (fuel : nat) :
  forall (pc : rx_pc) (w : world),
    rx_safe w ->
    run_blocks Checked.rx_block fuel pc w = run_blocks rx_block fuel pc w.
Proof.
  induction fuel as [|fuel IH]; intros pc w Hsafe; [reflexivity|].
  cbn [run_blocks]. rewrite (checked_rx_block pc w Hsafe).
  pose proof (rx_block_safe pc w Hsafe) as Hb.
  destruct (rx_block pc w) as [pc' w'|code w'|]; try reflexivity.
  apply IH. exact Hb.
Qed.

Lemma rx_run_safe (fuel : nat) :
  forall (pc : rx_pc) (w : world) (code : Z) (w' : world),
    rx_safe w ->
    run_blocks rx_block fuel pc w = Returns code w' -> rx_safe w'.
Proof.
  induction fuel as [|fuel IH]; intros pc w code w' Hsafe Hrun;
    [discriminate|].
  cbn [run_blocks] in Hrun.
  pose proof (rx_block_safe pc w Hsafe) as Hb.
  destruct (rx_block pc w) as [pc' w1|code1 w1|]; [| |discriminate].
  - exact (IH _ _ _ _ Hb Hrun).
  - injection Hrun as <- <-. exact Hb.
Qed.

(** One call of the checked receiver. *)
Lemma checked_receiver_call (w : world) (fuel : nat) :
  (600 <= fuel)%nat -> rx_safe w ->
  exists code w',
    Checked.receiver_thread fuel w = Returns code w'
    /\ receiver_thread fuel w = Returns code w'
    /\ rx_frame w w' /\ rx_safe w'.
Proof.
  intros Hfuel Hsafe.
  destruct (receiver_call_total w) as (code & w' & Hrun & Hf & _ & _ & _);
    [apply Hsafe|].
  exists code, w'.
  assert (Hchk : Checked.receiver_thread fuel w = receiver_thread fuel w).
  { unfold Checked.receiver_thread, receiver_thread.
    repeat match goal with
      | |- context [if ?b then _ else _] =>
          destruct b; [apply checked_rx_run; exact Hsafe|]
      end.
    reflexivity. }
  rewrite Hchk, (Hrun fuel Hfuel).
  split; [reflexivity|]. split; [reflexivity|]. split; [exact Hf|].
  pose proof (Hrun fuel Hfuel) as Hr. unfold receiver_thread in Hr.
  repeat match type of Hr with
    | context [if ?b then _ else _] =>
        destruct b; [exact (rx_run_safe _ _ _ _ _ Hsafe Hr)|]
    end.
  injection Hr as _ <-.
  destruct Hsafe as (Harr & Hok & Hcnt).
  destruct w as [now c tx r av ib tr]. destruct r.
  split; [exact Harr|]. split; [exact Hok | exact Hcnt].
Qed.

Lemma tx_frame_keeps_rx_safe (w w' : world) :
  tx_frame w w' -> arrays_ok w' -> chan_ok (channel w') ->
  rx_safe w -> rx_safe w'.
Proof.
  intros (F1 & _) Harr Hok (_ & _ & Hcnt).
  split; [exact Harr|]. split; [exact Hok|]. rewrite F1. exact Hcnt.
Qed.

(** X24.  The main loop never gets stuck and never leaves its arrays:
    however often the scheduler is called and however the clock advances
    in between, whatever payload was submitted (none, empty, or up to 255
    bytes) and whatever the channel holds, every call returns, neither
    thread reads or writes outside an array, and what holds between two
    calls holds again.  The accesses of the transmitter are undefined
    outside the arrays in [transmitter_thread]; those of the receiver
    are in [Checked.receiver_thread], whose calls give the states that
    [receiver_thread] gives.  Together the calls transmit at most twice
    per call. *)
Theorem scheduler_calls_are_safe (deltas : list Z) :
  forall (w : world) (fuel : nat),
    (600 <= fuel)%nat -> tx_safe w -> rx_safe w ->
    exists w',
      Checked.drive_scheduler fuel deltas w = Some w'
      /\ drive_scheduler fuel deltas w = Some w'
      /\ tx_safe w' /\ rx_safe w'
      /\ (length (sends (trace w'))
          <= length (sends (trace w)) + 2 * length deltas)%nat.
Proof.
  induction deltas as [|d deltas IH]; intros w fuel Hfuel Hsafe Hrx.
  - exists w. cbn [Checked.drive_scheduler drive_scheduler length].
    split; [reflexivity|]. split; [reflexivity|]. split; [exact Hsafe|].
    split; [exact Hrx | lia].
  - destruct (transmitter_call_returns w Hsafe)
      as (code & w1 & Hrun & Hsafe1 & Hf1 & Hs1 & _ & _).
    assert (Hok1 : chan_ok (channel w1))
      by exact (transmitter_call_chan w fuel code w1 Hsafe (proj1 (proj2 Hrx))
                  (Hrun fuel ltac:(lia))).
    assert (Hrx1 : rx_safe w1)
      by exact (tx_frame_keeps_rx_safe w w1 Hf1 (proj1 Hsafe1) Hok1 Hrx).
    destruct (checked_receiver_call w1 fuel Hfuel Hrx1)
      as (code2 & w2 & Hchk2 & Hrun2 & Hf2 & Hrx2).
    pose proof (rx_frame_keeps_tx_safe w1 w2 Hf2 Hsafe1) as Hsafe2.
    assert (Hsafe3 : tx_safe (advance_time d w2))
      by (destruct w2; exact Hsafe2).
    assert (Hrx3 : rx_safe (advance_time d w2))
      by (destruct w2; exact Hrx2).
    destruct (IH (advance_time d w2) fuel Hfuel Hsafe3 Hrx3)
      as (w' & Hcdrive & Hdrive & Hsafe' & Hrx' & Hs).
    exists w'. cbn [Checked.drive_scheduler drive_scheduler].
    unfold Checked.protothreads_schedule, protothreads_schedule.
    rewrite (Hrun fuel ltac:(lia)), Hchk2, Hrun2, Hcdrive, Hdrive.
    split; [reflexivity|]. split; [reflexivity|]. split; [exact Hsafe'|].
    split; [exact Hrx'|].
    replace (trace (advance_time d w2)) with (trace w2) in Hs
      by (destruct w2; reflexivity).
    destruct Hf2 as (_ & _ & _ & Hsends & _). rewrite Hsends in Hs.
    cbn [length]. lia.
Qed.

Lemma scheduler_calls_are_safe_witness :
  exists w',
    Checked.drive_scheduler 600 [10; 2000; 10] (submitted (replicate 255 7))
    = Some w'
    /\ drive_scheduler 600 [10; 2000; 10] (submitted (replicate 255 7))
       = Some w'
    /\ tx_safe w' /\ rx_safe w'.
Proof.
  destruct (scheduler_calls_are_safe [10; 2000; 10]
              (submitted (replicate 255 7)) 600)
    as (w' & Hc & Hd & Hs & Hr & _).
  - lia.
  - split; [|split].
    + vm_compute. repeat split; reflexivity.
    + unfold data_ok.
      change (data_to_send (tx_state (submitted (replicate 255 7))))
        with (Some (replicate 255 7)).
      split; [reflexivity | rewrite length_replicate; lia].
    + left. reflexivity.
  - split; [|split].
    + vm_compute. repeat split; reflexivity.
    + vm_compute. split; intro; discriminate.
    + vm_compute. split; [intro; discriminate | reflexivity].
  - exists w'. split; [exact Hc|]. split; [exact Hd|].
    split; [exact Hs | exact Hr].
Defined.

(** ** Submitting data *)

(** X25.  An acknowledgment left on the channel is taken as the answer to
    the next frame: when the transmitter starts with a payload of 1 to 5
    bytes while [ACK_BYTE] is waiting, the call that sends the frame also
    ends the transmission with [PROTOCOL_SUCCESS], before the receiver
    has run. *)
Theorem waiting_ack_completes_new_transmission
    (w : world) (data : list Z) (fuel : nat) :
  (3 <= fuel)%nat ->
  lc (tx_pt (tx_state w)) = 0 -> arrays_ok w ->
  data_to_send (tx_state w) = Some data ->
  data_size (tx_state w) = Z.of_nat (length data) ->
  (1 <= length data <= 5)%nat ->
  ack_received (channel w) = true ->
  ack_value (channel w) = ACK_BYTE ->
  exists w' stale,
    transmitter_thread fuel w = Returns PT_EXITED w'
    /\ transmission_complete (tx_state w') = true
    /\ tx_result (tx_state w') = PROTOCOL_SUCCESS
    /\ retry_count (tx_state w') = 0
    /\ rx_state w' = rx_state w
    /\ trace w' = trace w ++ [EvSend (frame_bytes data ++ [stale])].
Proof.
  intros Hfuel Hlc (Hmb & Hrxb & _) Hdata Hsize Hlen Hack Hval.
  destruct w as [now c tx rx av ib tr].
  destruct c as [txb rxb txs rxs rxp txr rxr ackr ackv loss].
  destruct tx as [[l] tm dat dsz mb ms rc tc res].
  cbn in Hlc, Hmb, Hrxb, Hdata, Hsize, Hack, Hval. subst l dat dsz ackr ackv.
  change (Z.to_nat (MAX_DATA_SIZE + 10)) with 266%nat in Hmb, Hrxb.
  assert (Hfl : length (frame_bytes data) = (length data + 4)%nat)
    by (unfold frame_bytes; simpl; rewrite length_app; simpl; lia).
  assert (Hst : exists stale tl, drop (length data + 4) mb = stale :: tl).
  { destruct (drop (length data + 4) mb) as [|stale tl] eqn:E; [|eauto].
    apply (f_equal length) in E. rewrite length_drop in E. simpl in E. lia. }
  destruct Hst as (stale & tl & Hst).
  assert (Htake : take (Z.to_nat (5 + Z.of_nat (length data)))
                    (frame_bytes data ++ stale :: tl)
                  = frame_bytes data ++ [stale]).
  { replace (Z.to_nat (5 + Z.of_nat (length data)))
      with (length (frame_bytes data) + 1)%nat by lia.
    rewrite take_app_add. reflexivity. }
  destruct fuel as [|[|[|fuel]]]; try lia.
  unfold transmitter_thread. cbn [tx_state tx_pt lc].
  change (0 =? 0) with true. cbv iota. cbn [run_blocks].
  rewrite tx_begin_builds by lia. rewrite Hst.
  rewrite tx_while_sends;
    [|unfold MAX_RETRIES; lia
     |rewrite length_app, Hfl; simpl; lia
     |right; lia].
  rewrite tx_wait_acknowledged by apply (timer_set_not_expired now tm).
  change (ACK_BYTE =? ACK_BYTE) with true. cbv iota.
  rewrite Htake. eexists. exists stale. split; [reflexivity|].
  repeat split.
Qed.

Lemma waiting_ack_completes_new_transmission_witness :
  exists w' stale,
    transmitter_thread 5
      (snd (protothreads_send_data (Some [9]) 1
              (after_schedule 20 (submitted [170; 187; 204]))))
    = Returns PT_EXITED w'
    /\ transmission_complete (tx_state w') = true
    /\ sends (trace w')
       = [frame_bytes [170; 187; 204] ++ [0]; frame_bytes [9] ++ [stale]].
Proof.
  destruct (waiting_ack_completes_new_transmission
              (snd (protothreads_send_data (Some [9]) 1
                      (after_schedule 20 (submitted [170; 187; 204]))))
              [9] 5)
    as (w' & stale & H & Hc & _ & _ & _ & Ht).
  - lia.
  - reflexivity.
  - vm_compute. repeat split; reflexivity.
  - reflexivity.
  - reflexivity.
  - cbn [length]. lia.
  - reflexivity.
  - reflexivity.
  - exists w', stale. split; [exact H|]. split; [exact Hc|].
    rewrite Ht. reflexivity.
Defined.

(** X26.  [protothreads_send_data] refuses a null pointer or a size of 0
    and changes nothing; otherwise it restarts the transmitter wherever
    it was, also in the middle of a transmission: with a payload of 1 to
    5 bytes and no acknowledgment waiting, the next call of the
    transmitter sends the new frame with the retry counter at 0 and
    waits. *)
Theorem send_data_restarts_transmitter
    (w : world) (data : list Z) (size : Z) (fuel : nat) :
  (3 <= fuel)%nat -> arrays_ok w ->
  (1 <= length data <= 5)%nat ->
  ack_received (channel w) = false ->
  protothreads_send_data None size w = (PROTOCOL_INVALID_PARAM, w)
  /\ protothreads_send_data (Some data) 0 w = (PROTOCOL_INVALID_PARAM, w)
  /\ fst (protothreads_send_data (Some data) (Z.of_nat (length data)) w)
     = PROTOCOL_SUCCESS
  /\ exists w' stale,
       transmitter_thread fuel
         (snd (protothreads_send_data (Some data) (Z.of_nat (length data)) w))
       = Returns PT_WAITING w'
       /\ retry_count (tx_state w') = 0
       /\ transmission_complete (tx_state w') = false
       /\ data_to_send (tx_state w') = Some data
       /\ trace w' = trace w ++ [EvSend (frame_bytes data ++ [stale])].
Proof.
  intros Hfuel (Hmb & Hrxb & _) Hlen Hack.
  split; [reflexivity|]. split; [reflexivity|].
  unfold protothreads_send_data.
  replace (Z.of_nat (length data) =? 0) with false
    by (symmetry; apply Z.eqb_neq; lia).
  split; [reflexivity|].
  destruct w as [now c tx rx av ib tr].
  destruct c as [txb rxb txs rxs rxp txr rxr ackr ackv loss].
  destruct tx as [pt tm dat dsz mb ms rc tc res].
  cbn in Hmb, Hrxb, Hack. subst ackr.
  change (Z.to_nat (MAX_DATA_SIZE + 10)) with 266%nat in Hmb, Hrxb.
  assert (Hst : exists stale tl, drop (length data + 4) mb = stale :: tl).
  { destruct (drop (length data + 4) mb) as [|stale tl] eqn:E; [|eauto].
    apply (f_equal length) in E. rewrite length_drop in E. simpl in E. lia. }
  destruct Hst as (stale & tl & Hst).
  unfold upd_tx, set_tx.
  cbn [snd tx_state system_time_ms channel rx_state tx_ack_value
       rx_incoming_byte trace timer message_buffer message_size].
  rewrite (tx_first_turn _ _ _ _ _ _ _ _ _ _ _ _ _ _ _ _ _ _ _ _ _ _ _
             stale tl) by (try assumption; try lia; try reflexivity;
                           right; lia).
  eexists. exists stale. split; [reflexivity|]. repeat split.
Qed.

Lemma send_data_restarts_transmitter_witness :
  exists w' stale,
    transmitter_thread 5
      (snd (protothreads_send_data (Some [9; 8]) 2
              (after_schedule 20
                 (set_simulate_loss true (submitted [170; 187; 204])))))
    = Returns PT_WAITING w'
    /\ retry_count (tx_state w') = 0
    /\ sends (trace w')
       = [frame_bytes [170; 187; 204] ++ [0]; frame_bytes [9; 8] ++ [stale]].
Proof.
  destruct (send_data_restarts_transmitter
              (after_schedule 20
                 (set_simulate_loss true (submitted [170; 187; 204])))
              [9; 8] 0 5)
    as (_ & _ & _ & w' & stale & H & Hr & _ & _ & Ht).
  - lia.
  - vm_compute. repeat split; reflexivity.
  - cbn [length]. lia.
  - reflexivity.
  - exists w', stale. split; [exact H|]. split; [exact Hr|].
    rewrite Ht. reflexivity.
Defined.

(** ** A lost frame is sent again *)

(** A call of the receiver at its start when the channel has nothing to
    deliver. *)
Lemma receiver_idle_turn (w : world) (fuel : nat) :
  (2 <= fuel)%nat -> rx_at_start w -> rx_ready (channel w) = false ->
  receiver_thread fuel w
  = Returns PT_WAITING
      (set_rx (mkRx (mkPt LC_RX_STX) (rx_data (rx_state w))
                    (if lc (rx_pt (rx_state w)) =? 0 then 0
                     else rx_count (rx_state w))
                    (expected_size (rx_state w)) 0
                    (checksum_recv (rx_state w))
                    (if lc (rx_pt (rx_state w)) =? 0 then RX_WAIT_STX
                     else state (rx_state w))
                    false (rx_result (rx_state w)))
              w).
Proof.
  intros Hfuel Hstart Hrdy.
  destruct w as [now c tx r av ib tr].
  destruct c as [txb rxb txs rxs rxp txr rxr ackr ackv loss].
  destruct r as [[l] rd cnt exp cc cr st m res].
  cbn in Hrdy. subst rxr.
  destruct fuel as [|[|fuel]]; try lia.
  unfold receiver_thread. cbn [rx_state rx_pt lc].
  destruct Hstart as [Hl|(Hl & Hcc & Hm)]; cbn in Hl; subst l.
  - reflexivity.
  - cbn in Hcc, Hm. subst cc m. reflexivity.
Qed.

(** X27.  A frame lost once is recovered: with a payload of 1 to 5
    bytes, both threads at their start and a channel that drops the first
    transmission, the scheduler call after the timeout counts one retry
    and sends the frame again; if the channel then delivers it, the
    receiver stores and acknowledges it, and the next call within the
    timeout ends the transmitter with [PROTOCOL_SUCCESS] and
    [retry_count] at 1. *)
Theorem lost_frame_is_recovered
    (w : world) (data : list Z) (fuel : nat) (d1 d2 : Z) :
  (16 <= fuel)%nat ->
  lc (tx_pt (tx_state w)) = 0 -> rx_at_start w -> arrays_ok w ->
  data_to_send (tx_state w) = Some data ->
  data_size (tx_state w) = Z.of_nat (length data) ->
  (1 <= length data <= 5)%nat ->
  simulate_loss (channel w) = true ->
  ack_received (channel w) = false ->
  rx_ready (channel w) = false ->
  TIMEOUT_MS <= d1 < 4294967296 ->
  0 <= d2 < TIMEOUT_MS ->
  exists w1 w2 w3 stale,
    protothreads_schedule fuel w = Returns PT_WAITING w1
    /\ protothreads_schedule fuel
         (set_simulate_loss false (advance_time d1 w1))
       = Returns PT_YIELDED w2
    /\ protothreads_schedule fuel (advance_time d2 w2) = Returns PT_YIELDED w3
    /\ transmission_complete (tx_state w3) = true
    /\ tx_result (tx_state w3) = PROTOCOL_SUCCESS
    /\ retry_count (tx_state w3) = 1
    /\ message_received (rx_state w3) = true
    /\ expected_size (rx_state w3) = Z.of_nat (length data)
    /\ take (length data) (rx_data (rx_state w3)) = data
    /\ trace w3
       = trace w ++ [EvSend (frame_bytes data ++ [stale]);
                     EvSend (frame_bytes data ++ [stale]);
                     EvAck ACK_BYTE].
Proof.
  intros Hfuel Hlc Hstart (Hmb & Hrxb & Hrd) Hdata Hsize Hlen Hloss Hack
    Hrdy Hd1 Hd2.
  destruct w as [now c tx rx av ib tr].
  destruct c as [txb rxb txs rxs rxp txr rxr ackr ackv loss].
  destruct tx as [pt tm dat dsz mb ms rc tc res].
  cbn in Hlc, Hmb, Hrxb, Hrd, Hdata, Hsize, Hloss, Hack, Hrdy.
  subst dat dsz loss ackr rxr.
  change (Z.to_nat (MAX_DATA_SIZE + 10)) with 266%nat in Hmb, Hrxb.
  change (Z.to_nat MAX_DATA_SIZE) with 256%nat in Hrd.
  assert (Hfl : length (frame_bytes data) = (length data + 4)%nat)
    by (unfold frame_bytes; simpl; rewrite length_app; simpl; lia).
  assert (Hst : exists stale tl, drop (length data + 4) mb = stale :: tl).
  { destruct (drop (length data + 4) mb) as [|stale tl] eqn:E; [|eauto].
    apply (f_equal length) in E. rewrite length_drop in E. simpl in E. lia. }
  destruct Hst as (stale & tl & Hst).
  assert (Htake : take (Z.to_nat (5 + Z.of_nat (length data)))
                    (frame_bytes data ++ stale :: tl)
                  = frame_bytes data ++ [stale]).
  { replace (Z.to_nat (5 + Z.of_nat (length data)))
      with (length (frame_bytes data) + 1)%nat by lia.
    rewrite take_app_add. reflexivity. }
  assert (Hok : frame_accepted data (u8 (sum_bytes data)) ETX_BYTE = true).
  { unfold frame_accepted. rewrite !Z.eqb_refl. reflexivity. }
  (* the first call: the frame is dropped, the receiver finds nothing *)
  unfold protothreads_schedule.
  rewrite (tx_first_turn _ _ _ _ _ _ _ _ _ _ _ _ _ _ _ _ _ _ _ _ _ _ _
             stale tl) by (try assumption; try lia; left; reflexivity).
  cbv iota.
  rewrite receiver_idle_turn;
    [|lia
     |destruct Hstart as [H|H]; [left|right]; exact H
     |reflexivity].
  eexists. eexists. eexists. exists stale. split; [reflexivity|].
  unfold set_rx, set_simulate_loss, set_channel, advance_time, set_time.
  cbn [system_time_ms channel tx_state rx_state tx_ack_value
       rx_incoming_byte trace tx_buffer rx_buffer tx_size rx_size rx_pos
       tx_ready rx_ready ack_received ack_value simulate_loss].
  (* the second call: timeout, the frame goes out again and arrives *)
  rewrite tx_timeout_turn;
    [|lia
     |apply (timer_set_expired_after now d1 tm Hd1)
     |unfold MAX_RETRIES; lia
     |rewrite length_app, Hfl; simpl; lia
     |right; lia].
  change (0 + 1 <? MAX_RETRIES) with true. cbv iota. rewrite Htake.
  rewrite (receiver_frame_turn _ data (u8 (sum_bytes data)) ETX_BYTE fuel);
    cycle 1.
  - right. cbn [rx_state rx_pt lc checksum_calc message_received]. auto.
  - lia.
  - cbn [rx_state rx_data]. lia.
  - reflexivity.
  - cbn [channel rx_pos]. lia.
  - cbn [channel rx_size]. lia.
  - cbn [channel rx_size rx_pos]. lia.
  - cbn [channel rx_pos rx_buffer]. change (Z.to_nat 0) with 0%nat.
    rewrite drop_0, take_0. cbn [app]. rewrite <- app_assoc.
    replace (length data + 4)%nat with (length (frame_bytes data)) by lia.
    rewrite take_app_length. reflexivity.
  - lia.
  - rewrite Hok.
    cbn [system_time_ms channel tx_state rx_state tx_ack_value
         rx_incoming_byte trace tx_buffer rx_buffer tx_size rx_size rx_pos
         tx_ready rx_ready ack_received ack_value simulate_loss rx_data].
    split; [reflexivity|].
    (* the third call: the acknowledgment ends the transmission *)
    cbn [system_time_ms channel tx_state rx_state tx_ack_value
         rx_incoming_byte trace].
    destruct fuel as [|fuel]; [lia|].
    unfold transmitter_thread. cbn [tx_state tx_pt lc].
    change (LC_TX_WAIT =? 0) with false.
    change (LC_TX_WAIT =? LC_TX_WAIT) with true. cbv iota.
    cbn [run_blocks].
    rewrite tx_wait_acknowledged
      by apply (timer_set_running (u32 (now + d1)) d2
                  (mkTimer now TIMEOUT_MS true) Hd2).
    change (ACK_BYTE =? ACK_BYTE) with true. cbv iota.
    unfold receiver_thread. cbn [rx_state rx_pt lc].
    change (LC_RX_YIELD =? 0) with false.
    change (LC_RX_YIELD =? LC_RX_STX) with false.
    change (LC_RX_YIELD =? LC_RX_QTD) with false.
    change (LC_RX_YIELD =? LC_RX_DATA) with false.
    change (LC_RX_YIELD =? LC_RX_CHK) with false.
    change (LC_RX_YIELD =? LC_RX_ETX) with false.
    change (LC_RX_YIELD =? LC_RX_YIELD) with true. cbv iota.
    cbn [run_blocks rx_block]. split; [reflexivity|].
    cbn [tx_state rx_state transmission_complete tx_result retry_count
         message_received expected_size rx_data trace].
    rewrite take_app_length, <- !app_assoc.
    repeat split; reflexivity.
Qed.

Lemma lost_frame_is_recovered_witness :
  exists w1 w2 w3 stale,
    protothreads_schedule 20
      (set_simulate_loss true (submitted [255; 238; 221]))
    = Returns PT_WAITING w1
    /\ protothreads_schedule 20
         (set_simulate_loss false (advance_time 1000 w1))
       = Returns PT_YIELDED w2
    /\ protothreads_schedule 20 (advance_time 10 w2) = Returns PT_YIELDED w3
    /\ tx_result (tx_state w3) = PROTOCOL_SUCCESS
    /\ retry_count (tx_state w3) = 1
    /\ take 3 (rx_data (rx_state w3)) = [255; 238; 221]
    /\ acks (trace w3) = [ACK_BYTE]
    /\ sends (trace w3)
       = [frame_bytes [255; 238; 221] ++ [stale];
          frame_bytes [255; 238; 221] ++ [stale]].
Proof.
  destruct (lost_frame_is_recovered
              (set_simulate_loss true (submitted [255; 238; 221]))
              [255; 238; 221] 20 1000 10)
    as (w1 & w2 & w3 & stale & H1 & H2 & H3 & _ & Hr & Hc & _ & _ & Hd & Ht).
  - lia.
  - reflexivity.
  - left. reflexivity.
  - vm_compute. repeat split; reflexivity.
  - reflexivity.
  - reflexivity.
  - cbn [length]. lia.
  - reflexivity.
  - reflexivity.
  - reflexivity.
  - unfold TIMEOUT_MS. lia.
  - unfold TIMEOUT_MS. lia.
  - exists w1, w2, w3, stale. rewrite Ht. repeat split; assumption.
Defined.

End ProtothreadsMore.
